(** * tufte_style_plots: percentage normaliser, range frame and input validator

    A shallow embedding of [tufte_style_plots/utils.py], [core.py] and
    [styles.py].

    Numbers.  A numpy [float64] is modelled as an extended rational: a finite
    value carries an exact rational, and the three special markers NaN, -inf
    and +inf follow the IEEE-754 rules for arithmetic and comparison.
    Arithmetic between finite values is exact: binary64 rounding, overflow and
    the sign of zero are not modelled.  A result that says that a computation
    on finite values returns is therefore stated for values whose exact
    intermediate results stay within the binary64 range by a factor of two
    ([in_range], [frame_in_range], [moderate] below), where binary64 cannot
    overflow either; and since the bin edges of [np.linspace] are exact here,
    while numpy's can collide after rounding, what is said of the bins numpy
    chooses is said of the calls that return.  Integer and boolean arrays are
    represented by the values of their elements (exact in this model).

    Collaborators.  numpy and matplotlib are not part of the repository; the
    modules [np] and [mpl] below state the documented behaviour of the calls
    the repository makes, and nothing more. *)

From Stdlib Require Import String DecimalString ZArith QArith Qround Bool List Lia Lqa.
Import ListNotations.

Local Open Scope string_scope.
Local Open Scope list_scope.
Local Open Scope Q_scope.

Set Warnings "-register-all".

(** ** Exceptions and results *)

Inductive exn_class := TypeError | ValueError | IndexError.

Record exn := Exn { cls : exn_class; msg : string }.

Inductive result (A : Type) :=
| Ok (a : A)
| Raise (e : exn).

Arguments Ok {A} a.
Arguments Raise {A} e.

Definition raised_class {A} (r : result A) : option exn_class :=
  match r with Ok _ => None | Raise e => Some (cls e) end.

(** ** float64 as extended rationals *)

Inductive float64 :=
| nan
| ninf
| pinf
| fin (q : Q).

Definition Qlt_bool (a b : Q) : bool := negb (Qle_bool b a).

Module F.

Definition isnan (x : float64) : bool :=
  match x with nan => true | _ => false end.

Definition isfinite (x : float64) : bool :=
  match x with fin _ => true | _ => false end.

Definition neg (x : float64) : float64 :=
  match x with
  | nan => nan
  | ninf => pinf
  | pinf => ninf
  | fin q => fin (- q)
  end.

Definition add (x y : float64) : float64 :=
  match x, y with
  | nan, _ | _, nan => nan
  | pinf, ninf | ninf, pinf => nan
  | pinf, _ | _, pinf => pinf
  | ninf, _ | _, ninf => ninf
  | fin a, fin b => fin (a + b)
  end.

Definition sub (x y : float64) : float64 := add x (neg y).

(** The product of an infinity and a finite value takes the sign of the
    finite factor; an infinity times zero is NaN. *)
Definition scale_inf (positive : bool) (a : Q) : float64 :=
  match a ?= 0 with
  | Eq => nan
  | Gt => if positive then pinf else ninf
  | Lt => if positive then ninf else pinf
  end.

Definition mul (x y : float64) : float64 :=
  match x, y with
  | nan, _ | _, nan => nan
  | fin a, fin b => fin (a * b)
  | fin a, pinf | pinf, fin a => scale_inf true a
  | fin a, ninf | ninf, fin a => scale_inf false a
  | pinf, pinf | ninf, ninf => pinf
  | pinf, ninf | ninf, pinf => ninf
  end.

(** numpy's true division: a finite value over zero gives a signed infinity
    (NaN for 0/0) and a warning, never an exception. *)
Definition div (x y : float64) : float64 :=
  match x, y with
  | nan, _ | _, nan => nan
  | fin a, fin b =>
      if Qeq_bool b 0 then
        match a ?= 0 with Eq => nan | Gt => pinf | Lt => ninf end
      else fin (a / b)
  | fin _, pinf | fin _, ninf => fin 0
  | pinf, fin b => if Qlt_bool b 0 then ninf else pinf
  | ninf, fin b => if Qlt_bool b 0 then pinf else ninf
  | _, _ => nan
  end.

(** IEEE comparisons: every comparison with NaN is false. *)
Definition ltb (x y : float64) : bool :=
  match x, y with
  | nan, _ | _, nan => false
  | _, ninf => false
  | ninf, _ => true
  | pinf, _ => false
  | fin _, pinf => true
  | fin a, fin b => Qlt_bool a b
  end.

Definition leb (x y : float64) : bool :=
  match x, y with
  | nan, _ | _, nan => false
  | ninf, _ => true
  | _, pinf => true
  | _, ninf => false
  | pinf, _ => false
  | fin a, fin b => Qle_bool a b
  end.

Definition eqb (x y : float64) : bool :=
  match x, y with
  | ninf, ninf | pinf, pinf => true
  | fin a, fin b => Qeq_bool a b
  | _, _ => false
  end.

Definition of_Z (z : Z) : float64 := fin (inject_Z z).

End F.

Declare Scope f64_scope.
Delimit Scope f64_scope with f64.
Bind Scope f64_scope with float64.
Infix "+" := F.add : f64_scope.
Infix "-" := F.sub : f64_scope.
Infix "*" := F.mul : f64_scope.
Infix "/" := F.div : f64_scope.
Infix "<?" := F.ltb : f64_scope.
Infix "<=?" := F.leb : f64_scope.
Infix "=?" := F.eqb : f64_scope.

(** ** A small error monad for the calls that can raise *)

Definition bind {A B} (r : result A) (k : A -> result B) : result B :=
  match r with
  | Ok a => k a
  | Raise e => Raise e
  end.

Notation "x <- r ;; k" := (bind r (fun x => k))
  (at level 61, r at next level, right associativity).
Notation "' p <- r ;; k" := (bind r (fun x => let 'p := x in k))
  (at level 61, p pattern, r at next level, right associativity).

(** ** numpy

    Arrays are one-dimensional.  A numeric array holds float64 values; an
    array of any other dtype (strings, objects) holds the text of its
    elements. *)

Inductive ndarray :=
| NumArray (xs : list float64)
| StrArray (xs : list string).

(** The [bins] argument of [np.histogram]: an integer count, the name of a
    binning strategy, or explicit bin edges (finite numbers). *)
Inductive bins_spec :=
| BinsInt (n : Z)
| BinsName (name : string)
| BinsEdges (edges : list Q).

Module np.

Definition size (a : ndarray) : nat :=
  match a with
  | NumArray xs => length xs
  | StrArray xs => length xs
  end.

(** Arithmetic, comparison and reduction ufuncs have no loop for string or
    object arrays and raise [TypeError]. *)
Definition values (a : ndarray) : result (list float64) :=
  match a with
  | NumArray xs => Ok xs
  | StrArray _ => Raise (Exn TypeError "ufunc not supported for the input types")
  end.

(** [np.minimum] and [np.maximum] propagate NaN. *)
Definition minimum (x y : float64) : float64 :=
  if F.isnan x then x else if F.isnan y then y
  else if (y <? x)%f64 then y else x.

Definition maximum (x y : float64) : float64 :=
  if F.isnan x then x else if F.isnan y then y
  else if (x <? y)%f64 then y else x.

Definition reduce (f : float64 -> float64 -> float64) (xs : list float64)
  : result float64 :=
  match xs with
  | [] => Raise (Exn ValueError
                  "zero-size array to reduction operation which has no identity")
  | x :: rest => Ok (fold_left f rest x)
  end.

Definition min (a : ndarray) : result float64 :=
  xs <- values a ;; reduce minimum xs.

Definition max (a : ndarray) : result float64 :=
  xs <- values a ;; reduce maximum xs.

Definition isnan (a : ndarray) : result (list bool) :=
  match a with
  | NumArray xs => Ok (map F.isnan xs)
  | StrArray _ =>
      Raise (Exn TypeError "ufunc 'isnan' not supported for the input types")
  end.

Definition all (bs : list bool) : bool := forallb (fun b => b) bs.

Definition sum (counts : list Z) : Z := fold_right Z.add 0%Z counts.

Definition fsum (xs : list float64) : float64 :=
  fold_left F.add xs (fin 0).

Fixpoint concatenate_values (arrays : list ndarray) : result (list float64) :=
  match arrays with
  | [] => Ok []
  | a :: rest =>
      xs <- values a ;;
      ys <- concatenate_values rest ;;
      Ok (xs ++ ys)
  end.

(** [np.concatenate(arrays)] *)
Definition concatenate (arrays : list ndarray) : result ndarray :=
  match arrays with
  | [] => Raise (Exn ValueError "need at least one array to concatenate")
  | _ => xs <- concatenate_values arrays ;; Ok (NumArray xs)
  end.

(** [np.diff a] is [a[1:] - a[:-1]]. *)
Fixpoint diff (a : list Z) : list Z :=
  match a with
  | x :: ((y :: _) as rest) => (y - x)%Z :: diff rest
  | _ => []
  end.

(** On a sorted array [searchsorted] returns the number of elements below
    the probe (side 'left') or not above it (side 'right'); NaN sorts after
    every number, so it is never counted.  The sort itself is not modelled. *)
Definition searchsorted_left (a : list float64) (v : Q) : Z :=
  Z.of_nat (length (filter (fun x => (x <? fin v)%f64) a)).

Definition searchsorted_right (a : list float64) (v : Q) : Z :=
  Z.of_nat (length (filter (fun x => (x <=? fin v)%f64) a)).

(** [v[-1:]] *)
Definition last_slice {A} (v : list A) : list A :=
  skipn (length v - 1) v.

(** [_search_sorted_inclusive]: like searchsorted, but the last bin edge is
    searched from the right so that the last bin is closed. *)
Definition search_sorted_inclusive (a : list float64) (v : list Q) : list Z :=
  map (searchsorted_left a) (removelast v)
  ++ map (searchsorted_right a) (last_slice v).

(** [np.linspace(start, stop, n + 1)]: evenly spaced, the last point set to
    [stop] itself.  ([Qred] only keeps the fractions in lowest terms.) *)
Definition linspace (start stop : Q) (n : nat) : list Q :=
  let step := (stop - start) / inject_Z (Z.of_nat n) in
  map (fun i => Qred (start + inject_Z (Z.of_nat i) * step)) (seq 0 n)
  ++ [stop].

(** [np.any(e[:-1] > e[1:])] and [np.any(e[:-1] >= e[1:])] *)
Fixpoint any_decreasing (e : list Q) : bool :=
  match e with
  | x :: ((y :: _) as rest) => Qlt_bool y x || any_decreasing rest
  | _ => false
  end.

Fixpoint any_not_increasing (e : list Q) : bool :=
  match e with
  | x :: ((y :: _) as rest) => Qle_bool y x || any_not_increasing rest
  | _ => false
  end.

(** [_get_outer_edges] with [range=None]. *)
Definition get_outer_edges (a : list float64) : result (Q * Q) :=
  match a with
  | [] => Ok (0, 1)
  | _ =>
      first_edge <- reduce minimum a ;;
      last_edge <- reduce maximum a ;;
      match first_edge, last_edge with
      | fin lo, fin hi =>
          if Qeq_bool lo hi then Ok (lo - 0.5, hi + 0.5) else Ok (lo, hi)
      | _, _ => Raise (Exn ValueError "autodetected range is not finite")
      end
  end.

Section Histogram.

(** The named bin-width estimators ('auto', 'fd', 'sturges', ...) are numpy's
    own: [selectors name] is [None] for a name numpy does not know, and
    otherwise gives the number of equal-width bins (at least one) chosen for
    a non-empty sample. *)
Variable selectors : string -> option (list float64 -> positive).

(** The edges of equal-width bins.  numpy refuses edges that are not
    strictly increasing.  With exact edges that test never fires on a proper
    range; in binary64 it does when the range overflows or is too small for
    the number of bins, so nothing below says that numpy's histogram returns
    on every finite sample. *)
Definition uniform_edges (first_edge last_edge : Q) (n_equal_bins : Z)
  : result (list Q) :=
  let bin_edges := linspace first_edge last_edge (Z.to_nat n_equal_bins) in
  if any_not_increasing bin_edges
  then Raise (Exn ValueError "Too many bins for data range")
  else Ok bin_edges.

Definition get_bin_edges (a : list float64) (bins : bins_spec)
  : result (list Q) :=
  match bins with
  | BinsName bin_name =>
      match selectors bin_name with
      | None => Raise (Exn ValueError "not a valid estimator for `bins`")
      | Some selector =>
          '(first_edge, last_edge) <- get_outer_edges a ;;
          let n_equal_bins :=
            match a with
            | [] => 1%Z
            | _ => Z.pos (selector a)
            end in
          uniform_edges first_edge last_edge n_equal_bins
      end
  | BinsInt n_equal_bins =>
      if (n_equal_bins <? 1)%Z
      then Raise (Exn ValueError "`bins` must be positive, when an integer")
      else
        '(first_edge, last_edge) <- get_outer_edges a ;;
        uniform_edges first_edge last_edge n_equal_bins
  | BinsEdges bin_edges =>
      if any_decreasing bin_edges
      then Raise (Exn ValueError
                    "`bins` must increase monotonically, when an array")
      else Ok bin_edges
  end.

(** [np.histogram(a, bins=bins)]: the counts per bin and the bin edges.  All
    bins are half-open except the last, which is closed.  With exact
    arithmetic the equal-width fast path of numpy counts exactly what the
    cumulative search over the edges counts, so one definition serves both. *)
Definition histogram (a : ndarray) (bins : bins_spec)
  : result (list Z * list float64) :=
  xs <- values a ;;
  bin_edges <- get_bin_edges xs bins ;;
  Ok (diff (search_sorted_inclusive xs bin_edges), map fin bin_edges).

End Histogram.

End np.

(** ** matplotlib

    The state of [matplotlib.pyplot]: the figures created so far, the axes
    objects (addressed by handle, as Python addresses them by reference) and
    the view limits.  Axes created with [sharex]/[sharey] share one pair of
    limits with their parent, so limits live in a table of their own and every
    axes names the entry it reads and writes. *)

Inductive spine_name := top | right | left | bottom.

Definition spine_eqb (a b : spine_name) : bool :=
  match a, b with
  | top, top | right, right | left, left | bottom, bottom => true
  | _, _ => false
  end.

Record Spine := { visible : bool; bounds : option (float64 * float64) }.

Inductive artist :=
| Bar (horizontal : bool) (edges heights : list float64) (width : float64)
      (color : string) (alpha : option Q)
| Line2D (x y : list float64) (color : string) (linewidth : Q)
         (marker : bool) (label : option string)
| PathCollection (x y : list float64) (s : Q) (c : string) (alpha : Q).

Inductive tick_call :=
| TickParamsMajor (length width labelsize : Q)
| TickParamsMinor (length : Q)
| TickLabelBottomOff
| TickLabelLeftOff
| SetXTicksEmpty
| SetYTicksEmpty.

(** The two ends of a view interval.  [None] stands for an end the program
    has not set: matplotlib derives it from the artists by autoscaling, and
    the value is not modelled. *)
Definition limits := (option float64 * option float64)%type.

Record Axes := {
  figure : nat;
  grid_cell : option (nat * nat);
  x_axis : nat;
  y_axis : nat;
  spines : spine_name -> Spine;
  artists : list artist;
  title : option string;
  xlabel : option string;
  ylabel : option string;
  x_locator : option Z;
  y_locator : option Z;
  tick_calls : list tick_call;
  legend : bool
}.

Record Plt := {
  figures : list (Q * Q);
  n_axes : nat;
  axes_of : nat -> Axes;
  xlims : nat -> limits;
  ylims : nat -> limits
}.

Definition M (A : Type) : Type := Plt -> result A * Plt.

Definition ret {A} (a : A) : M A := fun st => (Ok a, st).

Definition raise {A} (c : exn_class) (m : string) : M A :=
  fun st => (Raise (Exn c m), st).

Definition lift {A} (r : result A) : M A := fun st => (r, st).

Definition mbind {A B} (m : M A) (k : A -> M B) : M B :=
  fun st =>
    match m st with
    | (Ok a, st') => k a st'
    | (Raise e, st') => (Raise e, st')
    end.

Notation "x <~ m ;; k" := (mbind m (fun x => k))
  (at level 61, m at next level, right associativity).
Notation "' p <~ m ;; k" := (mbind m (fun x => let 'p := x in k))
  (at level 61, p pattern, m at next level, right associativity).
Notation "m ;;; k" := (mbind m (fun _ => k))
  (at level 61, right associativity).

Definition when (b : bool) (m : M unit) : M unit :=
  if b then m else ret tt.

Module mpl.

Definition default_spine : Spine := {| visible := true; bounds := None |}.

Definition new_axes (fig : nat) (cell : option (nat * nat)) (xa ya : nat) : Axes :=
  {| figure := fig; grid_cell := cell; x_axis := xa; y_axis := ya;
     spines := fun _ => default_spine;
     artists := []; title := None; xlabel := None; ylabel := None;
     x_locator := None; y_locator := None; tick_calls := []; legend := false |}.

Definition empty : Plt :=
  {| figures := []; n_axes := 0;
     axes_of := fun h => new_axes 0 None h h;
     xlims := fun _ => (None, None);
     ylims := fun _ => (None, None) |}.

Definition update {V} (f : nat -> V) (k : nat) (v : V) (k' : nat) : V :=
  if Nat.eqb k' k then v else f k'.

Definition get_xlim (st : Plt) (ax : nat) : limits :=
  xlims st (x_axis (axes_of st ax)).

Definition get_ylim (st : Plt) (ax : nat) : limits :=
  ylims st (y_axis (axes_of st ax)).

Definition modify (ax : nat) (f : Axes -> Axes) : M unit :=
  fun st =>
    (Ok tt,
     {| figures := figures st; n_axes := n_axes st;
        axes_of := update (axes_of st) ax (f (axes_of st ax));
        xlims := xlims st; ylims := ylims st |}).

Definition put_xlim (ax : nat) (l : limits) : M unit :=
  fun st =>
    (Ok tt,
     {| figures := figures st; n_axes := n_axes st; axes_of := axes_of st;
        xlims := update (xlims st) (x_axis (axes_of st ax)) l;
        ylims := ylims st |}).

Definition put_ylim (ax : nat) (l : limits) : M unit :=
  fun st =>
    (Ok tt,
     {| figures := figures st; n_axes := n_axes st; axes_of := axes_of st;
        xlims := xlims st;
        ylims := update (ylims st) (y_axis (axes_of st ax)) l |}).

(** [Axes.set_xlim(left, right)]: a limit that is NaN or infinite is
    refused with [ValueError]. *)
Definition set_xlim (ax : nat) (lo hi : float64) : M unit :=
  if F.isfinite lo && F.isfinite hi
  then put_xlim ax (Some lo, Some hi)
  else raise ValueError "Axis limits cannot be NaN or Inf".

Definition set_ylim (ax : nat) (lo hi : float64) : M unit :=
  if F.isfinite lo && F.isfinite hi
  then put_ylim ax (Some lo, Some hi)
  else raise ValueError "Axis limits cannot be NaN or Inf".

(** [Axes.set_xlim(left=v)] and [Axes.set_ylim(bottom=v)] keep the other
    limit. *)
Definition set_xlim_left (ax : nat) (lo : float64) : M unit :=
  if F.isfinite lo
  then fun st => put_xlim ax (Some lo, snd (get_xlim st ax)) st
  else raise ValueError "Axis limits cannot be NaN or Inf".

Definition set_ylim_bottom (ax : nat) (lo : float64) : M unit :=
  if F.isfinite lo
  then fun st => put_ylim ax (Some lo, snd (get_ylim st ax)) st
  else raise ValueError "Axis limits cannot be NaN or Inf".

Definition with_spines (a : Axes) (s : spine_name -> Spine) : Axes :=
  {| figure := figure a; grid_cell := grid_cell a;
     x_axis := x_axis a; y_axis := y_axis a;
     spines := s;
     artists := artists a; title := title a; xlabel := xlabel a;
     ylabel := ylabel a; x_locator := x_locator a; y_locator := y_locator a;
     tick_calls := tick_calls a; legend := legend a |}.

Definition update_spine (s : spine_name -> Spine) (n : spine_name) (v : Spine)
  (n' : spine_name) : Spine :=
  if spine_eqb n' n then v else s n'.

(** [ax.spines[name].set_bounds(low, high)] *)
Definition spine_set_bounds (ax : nat) (name : spine_name) (lo hi : float64)
  : M unit :=
  modify ax (fun a =>
    with_spines a (update_spine (spines a) name
      {| visible := visible (spines a name); bounds := Some (lo, hi) |})).

(** [ax.spines[name].set_visible(b)] *)
Definition spine_set_visible (ax : nat) (name : spine_name) (b : bool)
  : M unit :=
  modify ax (fun a =>
    with_spines a (update_spine (spines a) name
      {| visible := b; bounds := bounds (spines a name) |})).

Definition add_artist (ax : nat) (art : artist) : M unit :=
  modify ax (fun a =>
    {| figure := figure a; grid_cell := grid_cell a;
       x_axis := x_axis a; y_axis := y_axis a; spines := spines a;
       artists := artists a ++ [art];
       title := title a; xlabel := xlabel a;
       ylabel := ylabel a; x_locator := x_locator a; y_locator := y_locator a;
       tick_calls := tick_calls a; legend := legend a |}).

Definition same_length {A B} (x : list A) (y : list B) : bool :=
  Nat.eqb (List.length x) (List.length y).

(** [Axes.bar] / [Axes.barh] with [align='edge']; positions and heights must
    have one shape. *)
Definition bar (ax : nat) (horizontal : bool) (edges heights : list float64)
  (width : float64) (color : string) (alpha : option Q) : M unit :=
  if same_length edges heights
  then add_artist ax (Bar horizontal edges heights width color alpha)
  else raise ValueError "shape mismatch: objects cannot be broadcast to a single shape".

(** [Axes.plot(x, y, ...)] *)
Definition plot (ax : nat) (x y : list float64) (color : string)
  (linewidth : Q) (marker : bool) (label : option string) : M unit :=
  if same_length x y
  then add_artist ax (Line2D x y color linewidth marker label)
  else raise ValueError "x and y must have same first dimension".

(** [Axes.scatter(x, y, s=, c=, alpha=)] *)
Definition scatter (ax : nat) (x y : list float64) (s : Q) (c : string)
  (alpha : Q) : M unit :=
  if same_length x y
  then add_artist ax (PathCollection x y s c alpha)
  else raise ValueError "x and y must be the same size".

Definition set_title (ax : nat) (s : string) : M unit :=
  modify ax (fun a =>
    {| figure := figure a; grid_cell := grid_cell a;
       x_axis := x_axis a; y_axis := y_axis a; spines := spines a;
       artists := artists a; title := Some s; xlabel := xlabel a;
       ylabel := ylabel a; x_locator := x_locator a; y_locator := y_locator a;
       tick_calls := tick_calls a; legend := legend a |}).

Definition set_xlabel (ax : nat) (s : string) : M unit :=
  modify ax (fun a =>
    {| figure := figure a; grid_cell := grid_cell a;
       x_axis := x_axis a; y_axis := y_axis a; spines := spines a;
       artists := artists a; title := title a; xlabel := Some s;
       ylabel := ylabel a; x_locator := x_locator a; y_locator := y_locator a;
       tick_calls := tick_calls a; legend := legend a |}).

Definition set_ylabel (ax : nat) (s : string) : M unit :=
  modify ax (fun a =>
    {| figure := figure a; grid_cell := grid_cell a;
       x_axis := x_axis a; y_axis := y_axis a; spines := spines a;
       artists := artists a; title := title a; xlabel := xlabel a;
       ylabel := Some s; x_locator := x_locator a; y_locator := y_locator a;
       tick_calls := tick_calls a; legend := legend a |}).

(** [ax.xaxis.set_major_locator(MaxNLocator(nbins=n, prune='both'))] and the
    same on the y axis. *)
Definition set_major_locators (ax : nat) (nbins : Z) : M unit :=
  modify ax (fun a =>
    {| figure := figure a; grid_cell := grid_cell a;
       x_axis := x_axis a; y_axis := y_axis a; spines := spines a;
       artists := artists a; title := title a; xlabel := xlabel a;
       ylabel := ylabel a; x_locator := Some nbins; y_locator := Some nbins;
       tick_calls := tick_calls a; legend := legend a |}).

Definition tick (ax : nat) (c : tick_call) : M unit :=
  modify ax (fun a =>
    {| figure := figure a; grid_cell := grid_cell a;
       x_axis := x_axis a; y_axis := y_axis a; spines := spines a;
       artists := artists a; title := title a; xlabel := xlabel a;
       ylabel := ylabel a; x_locator := x_locator a; y_locator := y_locator a;
       tick_calls := tick_calls a ++ [c]; legend := legend a |}).

(** [ax.legend(frameon=False, loc='best')] *)
Definition show_legend (ax : nat) : M unit :=
  modify ax (fun a =>
    {| figure := figure a; grid_cell := grid_cell a;
       x_axis := x_axis a; y_axis := y_axis a; spines := spines a;
       artists := artists a; title := title a; xlabel := xlabel a;
       ylabel := ylabel a; x_locator := x_locator a; y_locator := y_locator a;
       tick_calls := tick_calls a; legend := true |}).

(** [plt.figure(figsize=...)]: a new figure, numbered in creation order. *)
Definition new_figure (figsize : Q * Q) : M nat :=
  fun st =>
    (Ok (List.length (figures st)),
     {| figures := figures st ++ [figsize]; n_axes := n_axes st;
        axes_of := axes_of st; xlims := xlims st; ylims := ylims st |}).

(** [fig.add_subplot(cell, sharex=, sharey=)]: a new axes in [fig]; it owns
    fresh limits unless it shares those of another axes. *)
Definition add_subplot (fig : nat) (cell : option (nat * nat))
  (sharex sharey : option nat) : M nat :=
  fun st =>
    let h := n_axes st in
    let xa := match sharex with
              | Some p => x_axis (axes_of st p)
              | None => h
              end in
    let ya := match sharey with
              | Some p => y_axis (axes_of st p)
              | None => h
              end in
    (Ok h,
     {| figures := figures st; n_axes := S h;
        axes_of := update (axes_of st) h (new_axes fig cell xa ya);
        xlims := match sharex with
                 | Some _ => xlims st
                 | None => update (xlims st) h (None, None)
                 end;
        ylims := match sharey with
                 | Some _ => ylims st
                 | None => update (ylims st) h (None, None)
                 end |}).

(** [plt.subplots(figsize=...)]: one figure holding one axes. *)
Definition subplots (figsize : Q * Q) : M (nat * nat) :=
  fig <~ new_figure figsize ;;
  ax <~ add_subplot fig None None None ;;
  ret (fig, ax).

(** [ax.get_figure()] *)
Definition get_figure (ax : nat) : M nat :=
  fun st => (Ok (figure (axes_of st ax)), st).

End mpl.

(** ** Python values handed to the public functions *)

Inductive pyobj :=
| PyList (items : list pyobj)      (* a Python list *)
| PyArray (a : ndarray)            (* a numpy.ndarray *)
| PySeries (values : ndarray)      (* an object with a [.values] attribute *)
| PyFloat (x : float64)            (* a number *)
| PyStr (s : string).              (* a string *)

Definition truthy (s : option string) : bool :=
  match s with
  | Some s => negb (String.eqb s "")
  | None => false
  end.

(** [l[i]] *)
Definition index {A} (l : list A) (i : nat) : result A :=
  match nth_error l i with
  | Some a => Ok a
  | None => Raise (Exn IndexError "index is out of bounds")
  end.

(** [l[a:b]] for [0 <= a] and [0 <= b] *)
Definition slice {A} (l : list A) (a b : nat) : list A :=
  skipn a (firstn b l).

Definition string_of_nat (n : nat) : string :=
  NilEmpty.string_of_uint (Nat.to_uint n).

(** ** styles.py *)

Module styles.

Definition TUFTE_COLORS_primary : string := "#000000".

Definition GRAYSCALE_PALETTE : list string :=
  [ "#000000"; "#666666"; "#999999"; "#CCCCCC" ].

Definition TUFTE_FONTS_tick_size : Q := 9.
Definition LINE_STYLES_data_width : Q := 1.5.
Definition MARKER_STYLES_size : Q := 30.
Definition MARKER_STYLES_alpha : Q := 0.6.
Definition TICK_STYLES_length : Q := 4.
Definition TICK_STYLES_width : Q := 0.75.
Definition TICK_STYLES_max_ticks : Z := 7.
Definition FIGURE_SIZES_default : Q * Q := (8, 5).
Definition FIGURE_SIZES_square : Q * Q := (8, 8).

End styles.

Section Tufte.

(** numpy's bin-width estimators (see [np.histogram]) and [np.asarray] on an
    object that is not already an array: both are numpy's, and every result
    below holds whatever they compute. *)
Variable selectors : string -> option (list float64 -> positive).
Variable asarray : pyobj -> result ndarray.

Definition np_asarray (data : pyobj) : result ndarray :=
  match data with
  | PyArray a => Ok a
  | _ => asarray data
  end.

(** ** utils.py *)

Definition to_array (data : pyobj) : result ndarray :=
  match data with
  | PySeries values => Ok values
  | _ => np_asarray data
  end.

Definition despine (ax : nat) (top_ right_ left_ bottom_ : bool) : M unit :=
  when top_ (mpl.spine_set_visible ax top false) ;;;
  when right_ (mpl.spine_set_visible ax right false) ;;;
  when left_ (mpl.spine_set_visible ax left false) ;;;
  when bottom_ (mpl.spine_set_visible ax bottom false).

Definition range_frame (ax : nat) (x_data y_data : option ndarray)
  (x_padding y_padding : float64) : M unit :=
  match x_data with
  | Some x_data =>
      x_min <~ lift (np.min x_data) ;;
      x_max <~ lift (np.max x_data) ;;
      let x_range := (x_max - x_min)%f64 in
      if (fin 0 <? x_range)%f64 then
        mpl.set_xlim ax (x_min - x_padding * x_range)%f64
                        (x_max + x_padding * x_range)%f64 ;;;
        mpl.spine_set_bounds ax bottom x_min x_max
      else
        mpl.set_xlim ax (x_min - fin 0.5)%f64 (x_max + fin 0.5)%f64 ;;;
        mpl.spine_set_bounds ax bottom x_min x_max
  | None => ret tt
  end ;;;
  match y_data with
  | Some y_data =>
      y_min <~ lift (np.min y_data) ;;
      y_max <~ lift (np.max y_data) ;;
      let y_range := (y_max - y_min)%f64 in
      if (fin 0 <? y_range)%f64 then
        mpl.set_ylim ax (y_min - y_padding * y_range)%f64
                        (y_max + y_padding * y_range)%f64 ;;;
        mpl.spine_set_bounds ax left y_min y_max
      else
        mpl.set_ylim ax (y_min - fin 0.5)%f64 (y_max + fin 0.5)%f64 ;;;
        mpl.spine_set_bounds ax left y_min y_max
  | None => ret tt
  end.

Definition minimal_ticks (ax : nat) (max_ticks : Z) : M unit :=
  mpl.set_major_locators ax max_ticks.

Definition set_tufte_style (ax : nat) : M unit :=
  despine ax true true false false ;;;
  minimal_ticks ax styles.TICK_STYLES_max_ticks ;;;
  mpl.tick ax (TickParamsMajor styles.TICK_STYLES_length
                               styles.TICK_STYLES_width
                               styles.TUFTE_FONTS_tick_size) ;;;
  mpl.tick ax (TickParamsMinor 0).

Definition normalize_to_percentage (data : ndarray) (bins : bins_spec)
  : result (list float64 * list float64) :=
  '(counts, bin_edges) <- np.histogram selectors data bins ;;
  let total := np.sum counts in
  let percentages :=
    if (0 <? total)%Z
    then map (fun c => (F.of_Z c / F.of_Z total * fin 100)%f64) counts
    else map F.of_Z counts in
  Ok (percentages, bin_edges).

Definition validate_data (data : pyobj) (name : string) : result ndarray :=
  match to_array data with
  | Raise e =>
      Raise (Exn TypeError
               ("Could not convert " ++ name ++ " to array: " ++ msg e)%string)
  | Ok arr =>
      if Nat.eqb (np.size arr) 0
      then Raise (Exn ValueError (name ++ " is empty")%string)
      else
        nans <- np.isnan arr ;;
        if np.all nans
        then Raise (Exn ValueError (name ++ " contains only NaN values")%string)
        else Ok arr
  end.

Definition create_figure_and_axes (figsize : Q * Q) (ax : option nat)
  : M (nat * nat) :=
  match ax with
  | None => mpl.subplots figsize
  | Some ax => fig <~ mpl.get_figure ax ;; ret (fig, ax)
  end.

(** ** core.py *)

Definition set_labels (ax : nat) (title xlabel ylabel : option string)
  : M unit :=
  when (truthy title)
       (mpl.set_title ax (match title with Some s => s | None => "" end)) ;;;
  when (truthy xlabel)
       (mpl.set_xlabel ax (match xlabel with Some s => s | None => "" end)) ;;;
  when (truthy ylabel)
       (mpl.set_ylabel ax (match ylabel with Some s => s | None => "" end)).

Definition histogram (data : pyobj) (bins : bins_spec)
  (title xlabel : option string) (ylabel : string) (figsize : Q * Q)
  (ax : option nat) (color : string) : M (nat * nat) :=
  (* Validate data *)
  data_array <~ lift (validate_data data "data") ;;
  (* Create figure and axes *)
  '(fig, ax) <~ create_figure_and_axes figsize ax ;;
  (* Calculate normalized histogram *)
  '(percentages, bin_edges) <~ lift (normalize_to_percentage data_array bins) ;;
  (* Plot bars *)
  e1 <~ lift (index bin_edges 1) ;;
  e0 <~ lift (index bin_edges 0) ;;
  let bin_width := (e1 - e0)%f64 in
  mpl.bar ax false (removelast bin_edges) percentages bin_width color None ;;;
  (* Apply Tufte styling *)
  set_tufte_style ax ;;;
  (* Set labels *)
  when (truthy title)
       (mpl.set_title ax (match title with Some s => s | None => "" end)) ;;;
  when (truthy xlabel)
       (mpl.set_xlabel ax (match xlabel with Some s => s | None => "" end)) ;;;
  mpl.set_ylabel ax ylabel ;;;
  (* Range frame on x-axis (y-axis starts at 0 for percentages) *)
  range_frame ax (Some data_array) None (fin 0.02) (fin 0.02) ;;;
  mpl.set_ylim_bottom ax (fin 0) ;;;
  ret (fig, ax).

(** The [labels] argument of [line]: [None], one string, or a list. *)
Inductive labels_arg :=
| LabelsNone
| LabelsStr (s : string)
| LabelsList (l : list (option string)).

Definition is_list_or_ndarray (o : pyobj) : bool :=
  match o with
  | PyList _ | PyArray _ => true
  | _ => false
  end.

(** [[validate_data(y_i, f"y[{i}]") for i, y_i in enumerate(y)]], from
    index [i] on. *)
Fixpoint validate_each (i : nat) (y : list pyobj) : result (list ndarray) :=
  match y with
  | [] => Ok []
  | y_i :: rest =>
      arr <- validate_data y_i ("y[" ++ string_of_nat i ++ "]")%string ;;
      arrs <- validate_each (S i) rest ;;
      Ok (arr :: arrs)
  end.

(** [y] is taken as several series when it is a non-empty list whose first
    element is itself a list or an array, and as one series otherwise. *)
Definition validate_y (y : pyobj) : result (list ndarray) :=
  match y with
  | PyList ((y0 :: _) as items) =>
      if is_list_or_ndarray y0
      then validate_each 0 items
      else arr <- validate_data y "y" ;; Ok [arr]
  | _ => arr <- validate_data y "y" ;; Ok [arr]
  end.

(** The loop that checks every y array against the length of x. *)
Fixpoint check_lengths (i : nat) (y_arrays : list ndarray) (x_array : ndarray)
  : result unit :=
  match y_arrays with
  | [] => Ok tt
  | y_arr :: rest =>
      if negb (Nat.eqb (np.size y_arr) (np.size x_array))
      then Raise (Exn ValueError
             ("x and y[" ++ string_of_nat i ++ "] must have the same length")%string)
      else check_lengths (S i) rest x_array
  end.

(** [zip(y_arrays, colors, label_list)]: stops at the shortest. *)
Fixpoint zip3 {A B C} (a : list A) (b : list B) (c : list C)
  : list (A * B * C) :=
  match a, b, c with
  | x :: a', y :: b', z :: c' => (x, y, z) :: zip3 a' b' c'
  | _, _, _ => []
  end.

(** The plotting loop of [line]. *)
Fixpoint plot_lines (ax : nat) (x_array : ndarray) (markers : bool)
  (series : list (ndarray * string * option string)) : M unit :=
  match series with
  | [] => ret tt
  | (y_arr, color, label) :: rest =>
      xs <~ lift (np.values x_array) ;;
      ys <~ lift (np.values y_arr) ;;
      mpl.plot ax xs ys color styles.LINE_STYLES_data_width markers label ;;;
      plot_lines ax x_array markers rest
  end.

Definition line (x y : pyobj) (labels : labels_arg)
  (title xlabel ylabel : option string) (figsize : Q * Q) (markers : bool)
  (ax : option nat) (colors : option (list string)) : M (nat * nat) :=
  (* Validate x data *)
  x_array <~ lift (validate_data x "x") ;;
  (* Handle single vs multiple y arrays *)
  y_arrays <~ lift (validate_y y) ;;
  (* Validate all y arrays have same length as x *)
  lift (check_lengths 0 y_arrays x_array) ;;;
  (* Create figure and axes *)
  '(fig, ax) <~ create_figure_and_axes figsize ax ;;
  (* Determine colors *)
  let n := List.length y_arrays in
  let colors :=
    match colors with
    | None => firstn n styles.GRAYSCALE_PALETTE
    | Some colors =>
        if Nat.ltb (List.length colors) n
        then colors ++ slice styles.GRAYSCALE_PALETTE (List.length colors) n
        else colors
    end in
  (* Handle labels *)
  let label_list :=
    match labels with
    | LabelsNone => repeat None n
    | LabelsStr s => [Some s]
    | LabelsList l => l
    end in
  (* Ensure enough labels *)
  let label_list := label_list ++ repeat None (n - List.length label_list) in
  (* Plot lines *)
  plot_lines ax x_array markers (zip3 y_arrays colors label_list) ;;;
  (* Apply Tufte styling *)
  set_tufte_style ax ;;;
  (* Set labels *)
  set_labels ax title xlabel ylabel ;;;
  (* Range frame *)
  all_y <~ lift (np.concatenate y_arrays) ;;
  range_frame ax (Some x_array) (Some all_y) (fin 0.02) (fin 0.02) ;;;
  (* Add legend if labels provided *)
  when (existsb (fun label => match label with Some _ => true | None => false end)
                label_list)
       (mpl.show_legend ax) ;;;
  ret (fig, ax).

Inductive scatter_result :=
| FigAxes (fig ax : nat)
| FigAxesDict (fig : nat) (axes_dict : list (string * nat)).

Definition _scatter_basic (x_array y_array : ndarray)
  (title xlabel ylabel : option string) (figsize : Q * Q) (color : string)
  (alpha size : Q) (ax : option nat) : M scatter_result :=
  '(fig, ax) <~ create_figure_and_axes figsize ax ;;
  xs <~ lift (np.values x_array) ;;
  ys <~ lift (np.values y_array) ;;
  mpl.scatter ax xs ys size color alpha ;;;
  set_tufte_style ax ;;;
  set_labels ax title xlabel ylabel ;;;
  range_frame ax (Some x_array) (Some y_array) (fin 0.02) (fin 0.02) ;;;
  ret (FigAxes fig ax).

Definition hide_all_spines (ax : nat) : M unit :=
  mpl.spine_set_visible ax top false ;;;
  mpl.spine_set_visible ax right false ;;;
  mpl.spine_set_visible ax left false ;;;
  mpl.spine_set_visible ax bottom false.

Definition _scatter_with_marginals (x_array y_array : ndarray)
  (title xlabel ylabel : option string) (figsize : Q * Q) (color : string)
  (alpha size : Q) : M scatter_result :=
  (* Create figure with GridSpec, then the three axes *)
  fig <~ mpl.new_figure figsize ;;
  ax_main <~ mpl.add_subplot fig (Some (1, 0)%nat) None None ;;
  ax_top <~ mpl.add_subplot fig (Some (0, 0)%nat) (Some ax_main) None ;;
  ax_right <~ mpl.add_subplot fig (Some (1, 1)%nat) None (Some ax_main) ;;
  (* Main scatter plot *)
  xs <~ lift (np.values x_array) ;;
  ys <~ lift (np.values y_array) ;;
  mpl.scatter ax_main xs ys size color alpha ;;;
  (* Top histogram (x distribution) *)
  '(percentages_x, bin_edges_x) <~
     lift (normalize_to_percentage x_array (BinsName "auto")) ;;
  x1 <~ lift (index bin_edges_x 1) ;;
  x0 <~ lift (index bin_edges_x 0) ;;
  mpl.bar ax_top false (removelast bin_edges_x) percentages_x (x1 - x0)%f64
          color (Some 0.7) ;;;
  (* Right histogram (y distribution) - horizontal bars *)
  '(percentages_y, bin_edges_y) <~
     lift (normalize_to_percentage y_array (BinsName "auto")) ;;
  y1 <~ lift (index bin_edges_y 1) ;;
  y0 <~ lift (index bin_edges_y 0) ;;
  mpl.bar ax_right true (removelast bin_edges_y) percentages_y (y1 - y0)%f64
          color (Some 0.7) ;;;
  (* Apply Tufte styling to main plot *)
  set_tufte_style ax_main ;;;
  range_frame ax_main (Some x_array) (Some y_array) (fin 0.02) (fin 0.02) ;;;
  (* Style marginal plots *)
  hide_all_spines ax_top ;;;
  mpl.tick ax_top SetYTicksEmpty ;;;
  mpl.tick ax_top TickLabelBottomOff ;;;
  hide_all_spines ax_right ;;;
  mpl.tick ax_right SetXTicksEmpty ;;;
  mpl.tick ax_right TickLabelLeftOff ;;;
  (* Set axis limits for marginals to match main plot *)
  mpl.set_ylim_bottom ax_top (fin 0) ;;;
  mpl.set_xlim_left ax_right (fin 0) ;;;
  (* Set labels on main plot, title on top plot *)
  when (truthy xlabel)
       (mpl.set_xlabel ax_main (match xlabel with Some s => s | None => "" end)) ;;;
  when (truthy ylabel)
       (mpl.set_ylabel ax_main (match ylabel with Some s => s | None => "" end)) ;;;
  when (truthy title)
       (mpl.set_title ax_top (match title with Some s => s | None => "" end)) ;;;
  ret (FigAxesDict fig [("main", ax_main); ("top", ax_top); ("right", ax_right)]).

Definition scatter (x y : pyobj) (marginals : bool)
  (title xlabel ylabel : option string) (figsize : option (Q * Q))
  (color : string) (alpha size : Q) (ax : option nat) : M scatter_result :=
  (* Validate data *)
  x_array <~ lift (validate_data x "x") ;;
  y_array <~ lift (validate_data y "y") ;;
  if negb (Nat.eqb (np.size x_array) (np.size y_array))
  then raise ValueError "x and y must have the same length"
  else
    (* Determine figure size *)
    let figsize :=
      match figsize with
      | Some f => f
      | None => if marginals then styles.FIGURE_SIZES_square
                else styles.FIGURE_SIZES_default
      end in
    if marginals
    then _scatter_with_marginals x_array y_array title xlabel ylabel figsize
                                 color alpha size
    else _scatter_basic x_array y_array title xlabel ylabel figsize
                        color alpha size ax.

End Tufte.

(** ** styles.py and utils.py, continued: the rc parameters

    [plt.rcParams] is a dictionary from parameter names to values.  Only the
    names matplotlib knows are keys of it; assigning to any other name raises
    [KeyError], and every assigned value first goes through matplotlib's
    validator for that name, which may refuse it ([ValueError]) or store it in
    a normalised form. *)

Inductive rcvalue :=
| RcStr (s : string)
| RcNum (q : Q)
| RcBool (b : bool)
| RcList (l : list string).

Definition RcParams : Type := string -> option rcvalue.

Inductive rc_error :=
| KeyError (key : string)
| InvalidValue (key : string).

Module rc.

Definition TUFTE_COLORS_spine : string := "#666666".
Definition TUFTE_COLORS_grid : string := "#E5E5E5".
Definition TUFTE_FONTS_family : string := "serif".
Definition TUFTE_FONTS_serif : list string :=
  [ "Palatino"; "Georgia"; "Computer Modern"; "Times New Roman"; "DejaVu Serif" ].
Definition TUFTE_FONTS_title_size : Q := 14.
Definition TUFTE_FONTS_label_size : Q := 11.
Definition TUFTE_FONTS_legend_size : Q := 9.
Definition LINE_STYLES_spine_width : Q := 0.75.
Definition LINE_STYLES_grid_width : Q := 0.5.
Definition MARKER_STYLES_edge_width : Q := 1.0.
Definition SPACING_title_pad : Q := 12.
Definition SPACING_label_pad : Q := 8.
Definition GRID_CONFIG_enabled : bool := false.
Definition GRID_CONFIG_axis : string := "y".
Definition GRID_CONFIG_color : string := TUFTE_COLORS_grid.
Definition GRID_CONFIG_alpha : Q := 0.5.
Definition GRID_CONFIG_linewidth : Q := LINE_STYLES_grid_width.
Definition GRID_CONFIG_linestyle : string := "-".

(** The dictionary [TUFTE_RC_PARAMS], in the order of its entries. *)
Definition TUFTE_RC_PARAMS : list (string * rcvalue) :=
  [ ("figure.facecolor", RcStr "white");
    ("figure.edgecolor", RcStr "white");
    ("axes.facecolor", RcStr "white");
    ("axes.edgecolor", RcStr TUFTE_COLORS_spine);
    ("axes.linewidth", RcNum LINE_STYLES_spine_width);
    ("axes.labelsize", RcNum TUFTE_FONTS_label_size);
    ("axes.titlesize", RcNum TUFTE_FONTS_title_size);
    ("axes.titlepad", RcNum SPACING_title_pad);
    ("axes.labelpad", RcNum SPACING_label_pad);
    ("axes.spines.top", RcBool false);
    ("axes.spines.right", RcBool false);
    ("axes.grid", RcBool GRID_CONFIG_enabled);
    ("axes.grid.axis", RcStr GRID_CONFIG_axis);
    ("grid.color", RcStr GRID_CONFIG_color);
    ("grid.alpha", RcNum GRID_CONFIG_alpha);
    ("grid.linewidth", RcNum GRID_CONFIG_linewidth);
    ("grid.linestyle", RcStr GRID_CONFIG_linestyle);
    ("lines.linewidth", RcNum styles.LINE_STYLES_data_width);
    ("lines.markersize", RcNum 6);
    ("lines.markeredgewidth", RcNum MARKER_STYLES_edge_width);
    ("xtick.major.size", RcNum styles.TICK_STYLES_length);
    ("xtick.major.width", RcNum styles.TICK_STYLES_width);
    ("xtick.minor.size", RcNum 0);
    ("xtick.labelsize", RcNum styles.TUFTE_FONTS_tick_size);
    ("ytick.major.size", RcNum styles.TICK_STYLES_length);
    ("ytick.major.width", RcNum styles.TICK_STYLES_width);
    ("ytick.minor.size", RcNum 0);
    ("ytick.labelsize", RcNum styles.TUFTE_FONTS_tick_size);
    ("font.family", RcStr TUFTE_FONTS_family);
    ("font.serif", RcList TUFTE_FONTS_serif);
    ("font.size", RcNum styles.TUFTE_FONTS_tick_size);
    ("legend.fontsize", RcNum TUFTE_FONTS_legend_size);
    ("legend.frameon", RcBool false);
    ("legend.numpoints", RcNum 1);
    ("legend.scatterpoints", RcNum 1);
    ("savefig.dpi", RcNum 300);
    ("savefig.bbox", RcStr "tight");
    ("savefig.facecolor", RcStr "white");
    ("savefig.edgecolor", RcStr "white") ].

Section RcParams.

(** matplotlib's validators: [validate key value] is the value stored when
    [value] is assigned to [key], or [None] when it is refused. *)
Variable validate : string -> rcvalue -> option rcvalue.

Definition set (rcParams : RcParams) (key : string) (value : rcvalue)
  : RcParams :=
  fun k => if String.eqb k key then Some value else rcParams k.

(** [plt.rcParams[key] = value] *)
Definition setitem (rcParams : RcParams) (key : string) (value : rcvalue)
  : rc_error + RcParams :=
  match rcParams key with
  | None => inl (KeyError key)
  | Some _ =>
      match validate key value with
      | None => inl (InvalidValue key)
      | Some stored => inr (set rcParams key stored)
      end
  end.

(** The loop of [apply_tufte_rcparams] over the remaining entries: the
    dictionary of previous values collected so far and [plt.rcParams] are
    threaded through, and both survive an exception. *)
Fixpoint apply_items (items : list (string * rcvalue))
  (previous_params : list (string * rcvalue)) (rcParams : RcParams)
  : (option rc_error * list (string * rcvalue)) * RcParams :=
  match items with
  | [] => ((None, previous_params), rcParams)
  | (key, value) :: rest =>
      let previous_params :=
        match rcParams key with
        | Some old => previous_params ++ [(key, old)]
        | None => previous_params
        end in
      match setitem rcParams key value with
      | inl e => ((Some e, previous_params), rcParams)
      | inr rcParams => apply_items rest previous_params rcParams
      end
  end.

(** The body of [apply_tufte_rcparams], for any dictionary of entries. *)
Definition apply_rcparams (items : list (string * rcvalue)) (rcParams : RcParams)
  : (rc_error + list (string * rcvalue)) * RcParams :=
  match apply_items items [] rcParams with
  | ((Some e, _), rcParams) => (inl e, rcParams)
  | ((None, previous_params), rcParams) => (inr previous_params, rcParams)
  end.

Definition apply_tufte_rcparams (rcParams : RcParams)
  : (rc_error + list (string * rcvalue)) * RcParams :=
  apply_rcparams TUFTE_RC_PARAMS rcParams.

(** [plt.rcParams.update(previous_params)]: the restoration the returned
    dictionary is meant for. *)
Fixpoint update (rcParams : RcParams) (items : list (string * rcvalue))
  : rc_error + RcParams :=
  match items with
  | [] => inr rcParams
  | (key, value) :: rest =>
      match setitem rcParams key value with
      | inl e => inl e
      | inr rcParams => update rcParams rest
      end
  end.

End RcParams.

End rc.

(** ** Observations and example instances *)

(** What a caller can read off the spines after a call. *)

Definition bottom_bounds (st : Plt) (ax : nat) : option (float64 * float64) :=
  bounds (spines (axes_of st ax) bottom).

Definition left_bounds (st : Plt) (ax : nat) : option (float64 * float64) :=
  bounds (spines (axes_of st ax) left).

(** Stand-ins for the two numpy functions the development is parametric in,
    used to run the definitions on concrete inputs.  [sturges_selectors]
    knows the names 'auto' and 'sturges' and picks [ceil(log2 n) + 1] bins
    (Sturges' rule); [flat_asarray] converts a flat list of numbers to a
    numeric array and a flat list of strings to a string array, and raises
    [ValueError] on a nested list (numpy does so for a ragged one). *)
Definition sturges_selectors (name : string) : option (list float64 -> positive) :=
  if String.eqb name "auto" || String.eqb name "sturges"
  then Some (fun a => Pos.of_nat (S (Nat.log2_up (List.length a))))
  else None.

Fixpoint all_floats (items : list pyobj) : option (list float64) :=
  match items with
  | [] => Some []
  | PyFloat x :: rest => option_map (cons x) (all_floats rest)
  | _ :: _ => None
  end.

Fixpoint all_strings (items : list pyobj) : option (list string) :=
  match items with
  | [] => Some []
  | PyStr s :: rest => option_map (cons s) (all_strings rest)
  | _ :: _ => None
  end.

Definition flat_asarray (data : pyobj) : result ndarray :=
  match data with
  | PyList items =>
      match all_floats items, all_strings items with
      | Some xs, _ => Ok (NumArray xs)
      | None, Some ss => Ok (StrArray ss)
      | None, None =>
          Raise (Exn ValueError
                   "setting an array element with a sequence. The requested array has an inhomogeneous shape")
      end
  | PyArray a | PySeries a => Ok a
  | PyFloat x => Ok (NumArray [x])
  | PyStr s => Ok (StrArray [s])
  end.

(** The validator's verdict as the specification words it: an input that
    cannot become a numeric array is a type error, a converted input that is
    empty or all NaN is a value error, anything else is accepted.  An empty
    array is "empty" whatever its dtype. *)
Inductive verdict :=
| Accepted (arr : ndarray)
| Rejected (c : exn_class).

Definition verdict_of (r : result ndarray) : verdict :=
  match r with
  | Ok arr => Accepted arr
  | Raise e => Rejected (cls e)
  end.

Definition specified_verdict (converted : result ndarray) : verdict :=
  match converted with
  | Raise _ => Rejected TypeError
  | Ok arr =>
      if Nat.eqb (np.size arr) 0 then Rejected ValueError
      else
        match arr with
        | StrArray _ => Rejected TypeError
        | NumArray xs =>
            if forallb F.isnan xs then Rejected ValueError else Accepted arr
        end
  end.

(** A percentage shown with two decimals, as an integer number of
    hundredths (round half up). *)
Definition hundredths (x : float64) : option Z :=
  match x with
  | fin q => Some (Qfloor (q * 100 + (1 # 2)))
  | _ => None
  end.

(** Stand-ins for matplotlib's validators and for [plt.rcParams], used to
    run the rc definitions: every value is accepted as it is, and the
    parameters are the Tufte keys, each holding "default", and the backend. *)
Definition accept_all (key : string) (value : rcvalue) : option rcvalue :=
  Some value.

Definition sample_rcParams : RcParams :=
  fun k =>
    if existsb (String.eqb k) (map fst rc.TUFTE_RC_PARAMS)
    then Some (RcStr "default")
    else if String.eqb k "backend" then Some (RcStr "agg") else None.

(** Two float64 that denote the same value (fractions are compared as
    numbers, not as written). *)
Definition same_value (x y : float64) : Prop :=
  match x, y with
  | nan, nan | ninf, ninf | pinf, pinf => True
  | fin a, fin b => a == b
  | _, _ => False
  end.

(** The colours and the labels that [line] zips with [n] series: the
    palette fills in from the position where the caller's colours end, and
    the labels are padded with [None]. *)
Definition line_colors (colors : option (list string)) (n : nat) : list string :=
  match colors with
  | None => firstn n styles.GRAYSCALE_PALETTE
  | Some colors =>
      if Nat.ltb (List.length colors) n
      then colors ++ slice styles.GRAYSCALE_PALETTE (List.length colors) n
      else colors
  end.

Definition line_labels (labels : labels_arg) (n : nat) : list (option string) :=
  let label_list :=
    match labels with
    | LabelsNone => repeat None n
    | LabelsStr s => [Some s]
    | LabelsList l => l
    end in
  label_list ++ repeat None (n - List.length label_list).

Definition is_label (label : option string) : bool :=
  match label with Some _ => true | None => false end.

(** The number of bins a call asks for: the integer given, the choice of
    the named estimator, or one less than the number of edges given. *)
Definition bin_count (selectors : string -> option (list float64 -> positive))
  (xs : list float64) (bins : bins_spec) : nat :=
  match bins with
  | BinsInt n => Z.to_nat n
  | BinsName name =>
      match selectors name with
      | Some selector => Pos.to_nat (selector xs)
      | None => 0
      end
  | BinsEdges e => List.length e - 1
  end.






(** The view of one axis: its display limits and the bounds of its spine. *)
Definition x_view (st : Plt) (ax : nat) : limits * option (float64 * float64) :=
  (mpl.get_xlim st ax, bottom_bounds st ax).

Definition y_view (st : Plt) (ax : nat) : limits * option (float64 * float64) :=
  (mpl.get_ylim st ax, left_bounds st ax).

(** A call preserves an observation when it leaves it as it found it,
    whether the call returns or raises. *)
Definition preserves {A T} (obs : Plt -> T) (m : M A) : Prop :=
  forall st, obs (snd (m st)) = obs st.

(** The line that [line] draws for one series. *)
Definition line_artist (xs : list float64) (markers : bool)
  (series : ndarray * string * option string) : artist :=
  let '(y_arr, color, label) := series in
  Line2D xs (match y_arr with NumArray ys => ys | StrArray _ => [] end)
         color styles.LINE_STYLES_data_width markers label.

(** Neither NaN nor -inf; neither NaN nor +inf. *)
Definition above_ninf (x : float64) : bool :=
  match x with nan | ninf => false | _ => true end.

Definition below_pinf (x : float64) : bool :=
  match x with nan | pinf => false | _ => true end.

(** * Properties *)

(** ** Rationals and float64 *)

Lemma Qlt_bool_iff (a b : Q) : Qlt_bool a b = true <-> a < b.
Proof.
  unfold Qlt_bool. rewrite negb_true_iff.
  split; intro H.
  - apply Qnot_le_lt. intro Hle. apply Qle_bool_iff in Hle. congruence.
  - apply not_true_is_false. intro Hle. apply Qle_bool_iff in Hle.
    apply (Qlt_not_le _ _ H Hle).
Qed.




(** ** numpy reductions *)






(** ** The state of the axes after a call *)

Arguments mpl.update : simpl never.

Lemma update_same {V} (f : nat -> V) (k : nat) (v : V) : mpl.update f k v k = v.
Proof. unfold mpl.update. now rewrite Nat.eqb_refl. Qed.

Section RangeFrame.

Variables (ax : nat) (st : Plt).

(** What one branch of [range_frame] does to the x axis when matplotlib
    accepts the limits. *)
Lemma frame_x_effect (lo hi x_min x_max : Q) :
  let st' := snd ((mpl.set_xlim ax (fin lo) (fin hi) ;;;
                   mpl.spine_set_bounds ax bottom (fin x_min) (fin x_max)) st) in
  fst ((mpl.set_xlim ax (fin lo) (fin hi) ;;;
        mpl.spine_set_bounds ax bottom (fin x_min) (fin x_max)) st) = Ok tt
  /\ mpl.get_xlim st' ax = (Some (fin lo), Some (fin hi))
  /\ bottom_bounds st' ax = Some (fin x_min, fin x_max)
  /\ mpl.get_ylim st' ax = mpl.get_ylim st ax
  /\ left_bounds st' ax = left_bounds st ax.
Proof.
  cbn. unfold mpl.get_xlim, mpl.get_ylim, bottom_bounds, left_bounds. cbn.
  rewrite !update_same. cbn. auto.
Qed.

Lemma frame_y_effect (lo hi y_min y_max : Q) :
  let st' := snd ((mpl.set_ylim ax (fin lo) (fin hi) ;;;
                   mpl.spine_set_bounds ax left (fin y_min) (fin y_max)) st) in
  fst ((mpl.set_ylim ax (fin lo) (fin hi) ;;;
        mpl.spine_set_bounds ax left (fin y_min) (fin y_max)) st) = Ok tt
  /\ mpl.get_ylim st' ax = (Some (fin lo), Some (fin hi))
  /\ left_bounds st' ax = Some (fin y_min, fin y_max)
  /\ mpl.get_xlim st' ax = mpl.get_xlim st ax
  /\ bottom_bounds st' ax = bottom_bounds st ax.
Proof.
  cbn. unfold mpl.get_xlim, mpl.get_ylim, bottom_bounds, left_bounds. cbn.
  rewrite !update_same. cbn. auto.
Qed.

End RangeFrame.

(** ** Range frame *)

Lemma mbind_lift {A B} (a : A) (k : A -> M B) (st : Plt) :
  mbind (lift (Ok a)) k st = k a st.
Proof. reflexivity. Qed.

Lemma mbind_ret_tt (m : M unit) (st : Plt) : (m ;;; ret tt) st = m st.
Proof. unfold mbind. now destruct (m st) as [[[]|e] s]. Qed.

Lemma mbind_ret {A B} (a : A) (k : A -> M B) (st : Plt) :
  mbind (ret a) k st = k a st.
Proof. reflexivity. Qed.






(** ** Histogram counts *)

Lemma bind_ok {A B} (r : result A) (k : A -> result B) (b : B) :
  bind r k = Ok b -> exists a, r = Ok a /\ k a = Ok b.
Proof. destruct r as [a|e]; cbn; [eauto | discriminate]. Qed.

Lemma search_sorted_inclusive_cons (xs : list float64) (a b : Q) (e : list Q) :
  np.search_sorted_inclusive xs (a :: b :: e)
  = np.searchsorted_left xs a :: np.search_sorted_inclusive xs (b :: e).
Proof.
  unfold np.search_sorted_inclusive, np.last_slice.
  cbn [removelast map app List.length].
  replace (S (S (List.length e)) - 1)%nat with (S (S (List.length e) - 1))
    by lia.
  reflexivity.
Qed.

Lemma search_sorted_inclusive_one (xs : list float64) (a : Q) :
  np.search_sorted_inclusive xs [a] = [np.searchsorted_right xs a].
Proof. reflexivity. Qed.

Lemma search_sorted_inclusive_length (xs : list float64) (e : list Q) :
  List.length (np.search_sorted_inclusive xs e) = List.length e.
Proof.
  induction e as [|a [|b e] IH]; [reflexivity | reflexivity |].
  rewrite search_sorted_inclusive_cons. cbn [List.length]. now rewrite IH.
Qed.

Lemma diff_length (l : list Z) : List.length (np.diff l) = (List.length l - 1)%nat.
Proof.
  induction l as [|a [|b l] IH]; [reflexivity | reflexivity |].
  cbn [np.diff List.length] in *. rewrite IH. lia.
Qed.

Lemma filter_length_le {A} (p q : A -> bool) (l : list A) :
  (forall x, p x = true -> q x = true) ->
  (List.length (filter p l) <= List.length (filter q l))%nat.
Proof.
  intro Himp. induction l as [|x l IH]; [reflexivity|].
  cbn. destruct (p x) eqn:Hp.
  - rewrite (Himp x Hp). cbn. lia.
  - destruct (q x); cbn; lia.
Qed.

Lemma ltb_fin_trans (x : float64) (a b : Q) :
  a <= b -> (x <? fin a)%f64 = true -> (x <? fin b)%f64 = true.
Proof.
  intros Hab. destruct x; cbn; try easy.
  rewrite !Qlt_bool_iff. lra.
Qed.

Lemma ltb_leb_fin_trans (x : float64) (a b : Q) :
  a <= b -> (x <? fin a)%f64 = true -> (x <=? fin b)%f64 = true.
Proof.
  intros Hab. destruct x; cbn; try easy.
  rewrite Qlt_bool_iff, Qle_bool_iff. lra.
Qed.

Lemma searchsorted_left_mono (xs : list float64) (a b : Q) :
  a <= b -> (np.searchsorted_left xs a <= np.searchsorted_left xs b)%Z.
Proof.
  intro Hab. unfold np.searchsorted_left. apply inj_le.
  apply filter_length_le. intro x. now apply ltb_fin_trans.
Qed.

Lemma searchsorted_left_right (xs : list float64) (a b : Q) :
  a <= b -> (np.searchsorted_left xs a <= np.searchsorted_right xs b)%Z.
Proof.
  intro Hab. unfold np.searchsorted_left, np.searchsorted_right. apply inj_le.
  apply filter_length_le. intro x. now apply ltb_leb_fin_trans.
Qed.

Lemma Qlt_bool_false (a b : Q) : Qlt_bool a b = false -> b <= a.
Proof.
  intro H. apply Qnot_lt_le. intro Hlt. apply Qlt_bool_iff in Hlt. congruence.
Qed.

(** Over bin edges that never decrease, no bin has a negative count. *)
Lemma counts_nonnegative (xs : list float64) (e : list Q) :
  np.any_decreasing e = false ->
  Forall (fun c => (0 <= c)%Z) (np.diff (np.search_sorted_inclusive xs e)).
Proof.
  induction e as [|a [|b e] IH]; intro Hsorted.
  - constructor.
  - constructor.
  - cbn [np.any_decreasing] in Hsorted.
    apply orb_false_iff in Hsorted. destruct Hsorted as [Hab Hrest].
    apply Qlt_bool_false in Hab.
    rewrite search_sorted_inclusive_cons.
    specialize (IH Hrest).
    destruct e as [|c e].
    + rewrite search_sorted_inclusive_one. cbn [np.diff].
      constructor; [|constructor].
      pose proof (searchsorted_left_right xs a b Hab). lia.
    + rewrite search_sorted_inclusive_cons in *. cbn [np.diff] in *.
      constructor; [|exact IH].
      pose proof (searchsorted_left_mono xs a b Hab). lia.
Qed.

Lemma not_increasing_decreasing (e : list Q) :
  np.any_not_increasing e = false -> np.any_decreasing e = false.
Proof.
  induction e as [|a [|b e] IH]; [reflexivity | reflexivity |].
  cbn [np.any_not_increasing np.any_decreasing].
  rewrite !orb_false_iff. intros [Hab Hrest]. split; [|now apply IH].
  unfold Qlt_bool. apply negb_false_iff. apply Qle_bool_iff.
  apply Qlt_le_weak. apply Qnot_le_lt. intro Hle.
  apply Qle_bool_iff in Hle. congruence.
Qed.

Section HistogramFacts.

Variable selectors : string -> option (list float64 -> positive).

Lemma uniform_edges_sorted (lo hi : Q) (n : Z) (e : list Q) :
  np.uniform_edges lo hi n = Ok e ->
  np.any_decreasing e = false /\ e <> [].
Proof.
  unfold np.uniform_edges.
  destruct (np.any_not_increasing _) eqn:Hinc; [discriminate|].
  intros [= <-]. split; [now apply not_increasing_decreasing|].
  unfold np.linspace. intro H. now apply app_eq_nil in H as [_ H].
Qed.

(** The bin edges numpy settles on never decrease, and there is at least one
    edge unless the caller passed an empty sequence of edges. *)
Lemma get_bin_edges_sorted (xs : list float64) (bins : bins_spec) (e : list Q) :
  np.get_bin_edges selectors xs bins = Ok e ->
  np.any_decreasing e = false /\ (e = [] -> bins = BinsEdges []).
Proof.
  destruct bins as [n|name|edges]; cbn [np.get_bin_edges].
  - destruct (n <? 1)%Z; [discriminate|].
    intro H. apply bind_ok in H as ([lo hi] & _ & H).
    apply uniform_edges_sorted in H as [Hs Hne]. now split.
  - destruct (selectors name) as [sel|]; [|discriminate].
    intro H. apply bind_ok in H as ([lo hi] & _ & H).
    apply uniform_edges_sorted in H as [Hs Hne]. now split.
  - destruct (np.any_decreasing edges) eqn:Hs; [discriminate|].
    intros [= <-]. split; [exact Hs | now intros ->].
Qed.

Lemma histogram_inv (a : ndarray) (bins : bins_spec)
  (counts : list Z) (edges : list float64) :
  np.histogram selectors a bins = Ok (counts, edges) ->
  exists xs e,
    a = NumArray xs
    /\ np.get_bin_edges selectors xs bins = Ok e
    /\ counts = np.diff (np.search_sorted_inclusive xs e)
    /\ edges = map fin e.
Proof.
  unfold np.histogram. intro H.
  apply bind_ok in H as (xs & Hv & H).
  apply bind_ok in H as (e & He & H).
  injection H as <- <-.
  destruct a as [ys|ys]; cbn in Hv; [|discriminate].
  injection Hv as ->. now exists xs, e.
Qed.

Lemma histogram_counts_nonnegative (a : ndarray) (bins : bins_spec)
  (counts : list Z) (edges : list float64) :
  np.histogram selectors a bins = Ok (counts, edges) ->
  Forall (fun c => (0 <= c)%Z) counts.
Proof.
  intro H. apply histogram_inv in H as (xs & e & _ & He & -> & _).
  apply counts_nonnegative. now apply get_bin_edges_sorted in He.
Qed.

(** numpy's contract on the shapes, with the one exception numpy leaves
    open: an empty sequence of edges yields no counts and no edges. *)
Lemma histogram_shape (a : ndarray) (bins : bins_spec)
  (counts : list Z) (edges : list float64) :
  np.histogram selectors a bins = Ok (counts, edges) ->
  List.length counts = (List.length edges - 1)%nat
  /\ (edges = [] -> bins = BinsEdges []).
Proof.
  intro H. apply histogram_inv in H as (xs & e & _ & He & -> & ->).
  rewrite diff_length, search_sorted_inclusive_length, length_map.
  split; [reflexivity|].
  intro Hnil. apply map_eq_nil in Hnil.
  apply get_bin_edges_sorted in He as [_ He]. exact (He Hnil).
Qed.

End HistogramFacts.

(** ** Every finite value is counted once *)

Lemma fold_minimum_finite (xs : list float64) (a : Q) :
  forallb F.isfinite xs = true ->
  exists m, fold_left np.minimum xs (fin a) = fin m
            /\ m <= a
            /\ Forall (fun x => (fin m <=? x)%f64 = true) xs.
Proof.
  revert a. induction xs as [|x xs IH]; intros a Hfin.
  - exists a. split; [reflexivity|]. split; [apply Qle_refl | constructor].
  - cbn in Hfin. apply andb_true_iff in Hfin as [Hx Hxs].
    destruct x as [| | |q]; try discriminate.
    cbn [fold_left]. unfold np.minimum at 2. cbn [F.isnan F.ltb].
    destruct (Qlt_bool q a) eqn:Hqa.
    + apply Qlt_bool_iff in Hqa.
      destruct (IH q Hxs) as (m & Hm & Hle & Hall).
      exists m. split; [exact Hm|]. split; [lra|].
      constructor; [|exact Hall]. cbn. now apply Qle_bool_iff.
    + apply Qlt_bool_false in Hqa.
      destruct (IH a Hxs) as (m & Hm & Hle & Hall).
      exists m. split; [exact Hm|]. split; [exact Hle|].
      constructor; [|exact Hall]. cbn. apply Qle_bool_iff. lra.
Qed.

Lemma fold_maximum_finite (xs : list float64) (a : Q) :
  forallb F.isfinite xs = true ->
  exists m, fold_left np.maximum xs (fin a) = fin m
            /\ a <= m
            /\ Forall (fun x => (x <=? fin m)%f64 = true) xs.
Proof.
  revert a. induction xs as [|x xs IH]; intros a Hfin.
  - exists a. split; [reflexivity|]. split; [apply Qle_refl | constructor].
  - cbn in Hfin. apply andb_true_iff in Hfin as [Hx Hxs].
    destruct x as [| | |q]; try discriminate.
    cbn [fold_left]. unfold np.maximum at 2. cbn [F.isnan F.ltb].
    destruct (Qlt_bool a q) eqn:Hqa.
    + apply Qlt_bool_iff in Hqa.
      destruct (IH q Hxs) as (m & Hm & Hle & Hall).
      exists m. split; [exact Hm|]. split; [lra|].
      constructor; [|exact Hall]. cbn. now apply Qle_bool_iff.
    + apply Qlt_bool_false in Hqa.
      destruct (IH a Hxs) as (m & Hm & Hle & Hall).
      exists m. split; [exact Hm|]. split; [exact Hle|].
      constructor; [|exact Hall]. cbn. apply Qle_bool_iff. lra.
Qed.

Lemma leb_fin_trans_l (lo lo' : Q) (x : float64) :
  lo' <= lo -> (fin lo <=? x)%f64 = true -> (fin lo' <=? x)%f64 = true.
Proof.
  intro H. destruct x; cbn; try easy. rewrite !Qle_bool_iff. lra.
Qed.

Lemma leb_fin_trans_r (hi hi' : Q) (x : float64) :
  hi <= hi' -> (x <=? fin hi)%f64 = true -> (x <=? fin hi')%f64 = true.
Proof.
  intro H. destruct x; cbn; try easy. rewrite !Qle_bool_iff. lra.
Qed.

(** For a non-empty sample of finite values numpy finds a range of positive
    width that holds every value. *)
Lemma outer_edges_of_finite (xs : list float64) :
  xs <> [] -> forallb F.isfinite xs = true ->
  exists lo hi,
    np.get_outer_edges xs = Ok (lo, hi)
    /\ lo < hi
    /\ Forall (fun x => (fin lo <=? x)%f64 = true
                        /\ (x <=? fin hi)%f64 = true) xs.
Proof.
  intros Hne Hfin. destruct xs as [|x xs]; [congruence|].
  cbn in Hfin. apply andb_true_iff in Hfin as [Hx Hxs].
  destruct x as [| | |a]; try discriminate.
  destruct (fold_minimum_finite xs a Hxs) as (m & Hm & Hma & Hlo).
  destruct (fold_maximum_finite xs a Hxs) as (M & HM & HaM & Hhi).
  cbn [np.get_outer_edges np.reduce bind]. rewrite Hm, HM.
  assert (Forall (fun x => (fin m <=? x)%f64 = true
                           /\ (x <=? fin M)%f64 = true) (fin a :: xs)) as Hall.
  { constructor.
    - cbn. now rewrite !(proj2 (Qle_bool_iff _ _)).
    - apply Forall_forall. intros y Hy. split.
      + exact (proj1 (Forall_forall _ _) Hlo y Hy).
      + exact (proj1 (Forall_forall _ _) Hhi y Hy). }
  destruct (Qeq_bool m M) eqn:Heq.
  - exists (m - 0.5), (M + 0.5). split; [reflexivity|].
    apply Qeq_bool_eq in Heq. split; [lra|].
    eapply Forall_impl; [|exact Hall]. cbn beta. intros y [Hl Hr]. split.
    + apply (leb_fin_trans_l m); [lra | exact Hl].
    + apply (leb_fin_trans_r M); [lra | exact Hr].
  - exists m, M. split; [reflexivity|]. split; [|exact Hall].
    apply Qeq_bool_neq in Heq. apply Qle_lt_or_eq in HaM.
    apply Qle_lt_or_eq in Hma. lra.
Qed.

Lemma increasing_chain (f : nat -> Q) (hi : Q) (n : nat) :
  (forall i, (i < n)%nat -> f i < hi) -> (forall i, f i < f (S i)) ->
  forall k s, (s + k = n)%nat ->
    np.any_not_increasing (map f (seq s k) ++ [hi]) = false.
Proof.
  intros Hlast Hnext.
  induction k as [|k IH]; intros s Hs; [reflexivity|].
  cbn [seq map app]. destruct k as [|k].
  - cbn. rewrite orb_false_r. apply not_true_is_false. intro Hle.
    apply Qle_bool_iff in Hle. specialize (Hlast s ltac:(lia)). lra.
  - specialize (IH (S s) ltac:(lia)). cbn [seq map app] in IH |- *.
    cbn [np.any_not_increasing]. apply orb_false_iff. split; [|exact IH].
    apply not_true_is_false. intro Hle.
    apply Qle_bool_iff in Hle. specialize (Hnext s). lra.
Qed.

Lemma linspace_increasing (lo hi : Q) (n : nat) :
  lo < hi -> (0 < n)%nat -> np.any_not_increasing (np.linspace lo hi n) = false.
Proof.
  intros Hlt Hn. unfold np.linspace.
  set (N := inject_Z (Z.of_nat n)).
  set (step := (hi - lo) / N).
  assert (0 < N) as HN.
  { unfold N. change 0 with (inject_Z 0). rewrite <- Zlt_Qlt. lia. }
  assert (N * step == hi - lo) as Hstep.
  { unfold step. field. lra. }
  assert (0 < step) as Hpos.
  { unfold step. apply Qlt_shift_div_l; lra. }
  set (f := fun i : nat => Qred (lo + inject_Z (Z.of_nat i) * step)).
  assert (forall i, (i < n)%nat -> f i < hi) as Hlast.
  { intros i Hi. unfold f. rewrite Qred_correct.
    assert (inject_Z (Z.of_nat i) + 1 <= N) as Hi'.
    { unfold N. change 1 with (inject_Z 1). rewrite <- inject_Z_plus.
      rewrite <- Zle_Qle. lia. }
    nra. }
  assert (forall i, f i < f (S i)) as Hnext.
  { intro i. unfold f. rewrite !Qred_correct.
    rewrite Nat2Z.inj_succ. unfold Z.succ. rewrite inject_Z_plus.
    change (inject_Z 1) with 1. lra. }
  apply (increasing_chain f hi n Hlast Hnext n 0%nat). reflexivity.
Qed.

Lemma sum_diff (l : list Z) (d : Z) :
  l <> [] -> np.sum (np.diff l) = (last l d - hd d l)%Z.
Proof.
  induction l as [|a [|b l] IH]; intro Hne; [congruence | cbn; lia |].
  change (np.diff (a :: b :: l)) with ((b - a)%Z :: np.diff (b :: l)).
  change (np.sum ((b - a)%Z :: np.diff (b :: l)))
    with ((b - a) + np.sum (np.diff (b :: l)))%Z.
  rewrite IH by discriminate.
  change (last (a :: b :: l) d) with (last (b :: l) d). cbn [hd]. lia.
Qed.

Lemma search_sorted_inclusive_last (xs : list float64) (e : list Q) (d : Q) :
  e <> [] ->
  last (np.search_sorted_inclusive xs e) 0%Z
  = np.searchsorted_right xs (last e d).
Proof.
  induction e as [|a [|b e] IH]; intro Hne; [congruence | reflexivity |].
  rewrite search_sorted_inclusive_cons.
  change (last (a :: b :: e) d) with (last (b :: e) d).
  rewrite <- IH by discriminate.
  destruct (np.search_sorted_inclusive xs (b :: e)) eqn:E; [|reflexivity].
  apply (f_equal (@List.length Z)) in E.
  rewrite search_sorted_inclusive_length in E. discriminate.
Qed.

Lemma filter_none {A} (p : A -> bool) (l : list A) :
  Forall (fun x => p x = false) l -> List.length (filter p l) = 0%nat.
Proof.
  induction 1 as [|x l Hx _ IH]; [reflexivity|]. cbn. now rewrite Hx.
Qed.

Lemma filter_every {A} (p : A -> bool) (l : list A) :
  Forall (fun x => p x = true) l -> List.length (filter p l) = List.length l.
Proof.
  induction 1 as [|x l Hx _ IH]; [reflexivity|]. cbn. rewrite Hx. cbn.
  now rewrite IH.
Qed.

(** Over equal-width bins that span the sample, the counts add up to the
    size of the sample. *)
Lemma uniform_counts_total (xs : list float64) (lo hi : Q) (n : nat) :
  lo < hi -> (0 < n)%nat ->
  Forall (fun x => (fin lo <=? x)%f64 = true /\ (x <=? fin hi)%f64 = true) xs ->
  np.sum (np.diff (np.search_sorted_inclusive xs (np.linspace lo hi n)))
  = Z.of_nat (List.length xs).
Proof.
  intros Hlt Hn Hin.
  rewrite (sum_diff _ 0%Z).
  2:{ intro E. apply (f_equal (@List.length Z)) in E.
      rewrite search_sorted_inclusive_length in E. unfold np.linspace in E.
      rewrite length_app in E. cbn in E. lia. }
  rewrite (search_sorted_inclusive_last xs _ 0).
  2:{ unfold np.linspace. intro E. now apply app_eq_nil in E as [_ E]. }
  unfold np.linspace at 1. rewrite last_last.
  destruct n as [|n]; [lia|].
  unfold np.linspace. cbn [seq map app].
  replace (map _ (seq 1 n) ++ [hi]) with
    (hd hi (map (fun i => Qred (lo + inject_Z (Z.of_nat i)
                                        * ((hi - lo) / inject_Z (Z.of_nat (S n)))))
                (seq 1 n) ++ [hi])
     :: tl (map (fun i => Qred (lo + inject_Z (Z.of_nat i)
                                         * ((hi - lo) / inject_Z (Z.of_nat (S n)))))
                 (seq 1 n) ++ [hi])).
  2:{ destruct (map _ (seq 1 n) ++ [hi]) eqn:E; [|reflexivity].
      now apply app_eq_nil in E as [_ E]. }
  rewrite search_sorted_inclusive_cons. cbn [hd].
  unfold np.searchsorted_left, np.searchsorted_right.
  rewrite (filter_every (fun x => (x <=? fin hi)%f64)).
  2:{ eapply Forall_impl; [|exact Hin]. now intros x [_ H]. }
  rewrite filter_none; [lia|].
  eapply Forall_impl; [|exact Hin]. intros x [H _].
  destruct x as [| | |q]; cbn [F.leb F.ltb] in *; try easy.
  apply Qle_bool_iff in H. apply not_true_is_false. intro Hq.
  apply Qlt_bool_iff in Hq. rewrite Qred_correct in Hq.
  change (inject_Z (Z.of_nat 0)) with 0 in Hq. lra.
Qed.

(** A non-empty sample of finite values, binned by a positive count or by a
    known strategy, is binned without error and no value is lost: the total
    count is the size of the sample, which is positive. *)
Lemma finite_sample_total
  (selectors : string -> option (list float64 -> positive))
  (xs : list float64) (bins : bins_spec) :
  xs <> [] -> forallb F.isfinite xs = true ->
  match bins with
  | BinsInt n => (1 <= n)%Z
  | BinsName name => selectors name <> None
  | BinsEdges _ => False
  end ->
  exists counts edges,
    np.histogram selectors (NumArray xs) bins = Ok (counts, edges)
    /\ np.sum counts = Z.of_nat (List.length xs)
    /\ (0 < np.sum counts)%Z.
Proof.
  intros Hne Hfin Hbins.
  destruct (outer_edges_of_finite xs Hne Hfin) as (lo & hi & Hedges & Hlt & Hin).
  assert (forall n, (0 < n)%Z ->
            exists counts edges,
              (bin_edges <- np.uniform_edges lo hi n ;;
               Ok (np.diff (np.search_sorted_inclusive xs bin_edges),
                   map fin bin_edges))
              = Ok (counts, edges)
              /\ np.sum counts = Z.of_nat (List.length xs)
              /\ (0 < np.sum counts)%Z) as Huniform.
  { intros n Hn. unfold np.uniform_edges.
    rewrite linspace_increasing by (try exact Hlt; lia).
    cbn [bind]. eexists. eexists. split; [reflexivity|].
    rewrite uniform_counts_total by (try assumption; lia).
    split; [reflexivity|]. destruct xs; [congruence | cbn; lia]. }
  unfold np.histogram. cbn [np.values bind].
  destruct bins as [n|name|edges]; [| |contradiction]; cbn [np.get_bin_edges].
  - destruct (n <? 1)%Z eqn:E; [apply Z.ltb_lt in E; lia|].
    rewrite Hedges. cbn [bind]. apply Huniform. lia.
  - destruct (selectors name) as [selector|]; [|congruence].
    rewrite Hedges. cbn [bind].
    destruct xs as [|x xs']; [congruence|]. apply Huniform. lia.
Qed.

(** ** Percentage normaliser *)

Section Normalizer.

Variable selectors : string -> option (list float64 -> positive).

Lemma normalize_to_percentage_eq (data : ndarray) (bins : bins_spec)
  (counts : list Z) (edges : list float64) :
  np.histogram selectors data bins = Ok (counts, edges) ->
  normalize_to_percentage selectors data bins
  = Ok (if (0 <? np.sum counts)%Z
        then map (fun c => (F.of_Z c / F.of_Z (np.sum counts) * fin 100)%f64)
                 counts
        else map F.of_Z counts,
        edges).
Proof. unfold normalize_to_percentage. now intros ->. Qed.

Lemma normalize_to_percentage_inv (data : ndarray) (bins : bins_spec)
  (percentages edges : list float64) :
  normalize_to_percentage selectors data bins = Ok (percentages, edges) ->
  exists counts,
    np.histogram selectors data bins = Ok (counts, edges)
    /\ List.length percentages = List.length counts.
Proof.
  unfold normalize_to_percentage. intro H.
  apply bind_ok in H as ([counts e] & Hh & H). injection H as <- <-.
  exists counts. split; [exact Hh|].
  destruct (0 <? np.sum counts)%Z; now rewrite length_map.
Qed.

Lemma percentage_of_count (c total : Z) :
  (0 < total)%Z ->
  (F.of_Z c / F.of_Z total * fin 100)%f64
  = fin (inject_Z c / inject_Z total * 100).
Proof.
  intro Hpos. unfold F.of_Z. cbn [F.div F.mul].
  destruct (Qeq_bool (inject_Z total) 0) eqn:Hz; [|reflexivity].
  apply Qeq_bool_eq in Hz. unfold Qeq in Hz. cbn in Hz. lia.
Qed.

Lemma fold_add_fin (g : Z -> Q) (l : list Z) (acc : Q) :
  fold_left F.add (map (fun c => fin (g c)) l) (fin acc)
  = fin (fold_left Qplus (map g l) acc).
Proof.
  revert acc. induction l as [|c l IH]; intro acc; [reflexivity|].
  cbn. apply IH.
Qed.

Lemma fold_percentages (total : Q) (l : list Z) (acc : Q) :
  fold_left Qplus (map (fun c => inject_Z c / total * 100) l) acc
  == acc + inject_Z (np.sum l) / total * 100.
Proof.
  revert acc. induction l as [|c l IH]; intro acc; cbn [map fold_left np.sum fold_right].
  - unfold Qdiv. change (inject_Z 0) with 0. ring.
  - rewrite IH. change (fold_right Z.add 0%Z l) with (np.sum l).
    rewrite inject_Z_plus. unfold Qdiv. ring.
Qed.

End Normalizer.

(** With a positive total the percentages are the counts over the total,
    times 100, and they add up to 100. *)
Lemma positive_total_percentages
  (selectors : string -> option (list float64 -> positive))
  (data : ndarray) (bins : bins_spec) (counts : list Z) (edges : list float64) :
  np.histogram selectors data bins = Ok (counts, edges) ->
  (0 < np.sum counts)%Z ->
  exists (percentages : list float64) (total : Q),
    normalize_to_percentage selectors data bins = Ok (percentages, edges)
    /\ percentages
       = map (fun c => fin (inject_Z c / inject_Z (np.sum counts) * 100)) counts
    /\ np.fsum percentages = fin total
    /\ total == 100.
Proof.
  intros Hh Hpos.
  eexists. eexists. split; [|split; [reflexivity|split]].
  - rewrite (normalize_to_percentage_eq _ _ _ _ _ Hh).
    rewrite (proj2 (Z.ltb_lt _ _) Hpos). do 2 f_equal.
    apply map_ext. intro c. now apply percentage_of_count.
  - unfold np.fsum. apply fold_add_fin.
  - rewrite fold_percentages.
    assert (~ inject_Z (np.sum counts) == 0) as Hnz.
    { unfold Qeq. cbn. lia. }
    field. exact Hnz.
Qed.

(** The percentages of a non-empty sample of finite values, binned by a
    positive count or a known strategy, sum to 100. *)
Lemma finite_sample_percentages
  (selectors : string -> option (list float64 -> positive))
  (xs : list float64) (bins : bins_spec) :
  xs <> [] -> forallb F.isfinite xs = true ->
  match bins with
  | BinsInt n => (1 <= n)%Z
  | BinsName name => selectors name <> None
  | BinsEdges _ => False
  end ->
  exists (percentages edges : list float64) (total : Q),
    normalize_to_percentage selectors (NumArray xs) bins
    = Ok (percentages, edges)
    /\ np.fsum percentages = fin total
    /\ total == 100.
Proof.
  intros Hne Hfin Hbins.
  destruct (finite_sample_total selectors xs bins Hne Hfin Hbins)
    as (counts & edges & Hh & _ & Hpos).
  destruct (positive_total_percentages selectors _ _ _ _ Hh Hpos)
    as (percentages & total & Hn & _ & Hs & Ht).
  now exists percentages, edges, total.
Qed.

(** C1 (amended): whenever the binned counts have a positive total,
    [normalize_to_percentage] returns percentages that sum to 100, each
    being its bin's count divided by the total count, times 100. *)
Theorem normalize_sums_to_100
  (selectors : string -> option (list float64 -> positive))
  (data : ndarray) (bins : bins_spec) (counts : list Z) (edges : list float64) :
  np.histogram selectors data bins = Ok (counts, edges) ->
  (0 < np.sum counts)%Z ->
  exists (percentages : list float64) (total : Q),
    normalize_to_percentage selectors data bins = Ok (percentages, edges)
    /\ percentages
       = map (fun c => fin (inject_Z c / inject_Z (np.sum counts) * 100)) counts
    /\ np.fsum percentages = fin total
    /\ total == 100.
Proof. exact (positive_total_percentages selectors data bins counts edges). Qed.

(** The sample [1,2,2,3,3,3] in three bins of width 1: counts [1,2,3], shown
    as 16.67, 33.33 and 50.00. *)
Lemma normalize_sums_to_100_witness :
  exists (percentages : list float64) (total : Q),
    normalize_to_percentage sturges_selectors
      (NumArray [fin 1; fin 2; fin 2; fin 3; fin 3; fin 3])
      (BinsEdges [1; 2; 3; 4])
    = Ok (percentages, [fin 1; fin 2; fin 3; fin 4])
    /\ map hundredths percentages = [Some 1667; Some 3333; Some 5000]%Z
    /\ np.fsum percentages = fin total
    /\ total == 100.
Proof.
  destruct (normalize_sums_to_100 sturges_selectors
              (NumArray [fin 1; fin 2; fin 2; fin 3; fin 3; fin 3])
              (BinsEdges [1; 2; 3; 4]) [1; 2; 3]%Z
              [fin 1; fin 2; fin 3; fin 4] eq_refl eq_refl)
    as (percentages & total & Hn & Hp & Hs & Ht).
  exists percentages, total.
  split; [exact Hn|]. split; [|split; assumption].
  rewrite Hp. reflexivity.
Defined.

(** C1 as stated fails when the explicit bin edges leave the whole sample
    out: the sample [10.0] binned over the edges [0, 1, 2] is non-empty and
    holds no NaN, and its percentages are [0, 0]. *)
Lemma normalize_excluded_sample :
  ~ (forall (xs : list float64) (bins : bins_spec)
            (percentages edges : list float64),
        xs <> [] -> np.all (map F.isnan xs) = false ->
        normalize_to_percentage sturges_selectors (NumArray xs) bins
        = Ok (percentages, edges) ->
        exists total, np.fsum percentages = fin total /\ total == 100).
Proof.
  intro H.
  destruct (H [fin 10] (BinsEdges [0; 1; 2]) [fin 0; fin 0]
              [fin 0; fin 1; fin 2]) as (total & Hs & Ht).
  - discriminate.
  - reflexivity.
  - reflexivity.
  - injection Hs as <-. vm_compute in Ht. discriminate.
Qed.

(** C4: when the binned counts sum to zero, [normalize_to_percentage]
    returns without dividing: the result is the counts themselves converted
    to float, and every one of them is zero. *)
Theorem normalize_zero_total
  (selectors : string -> option (list float64 -> positive))
  (data : ndarray) (bins : bins_spec) (counts : list Z) (edges : list float64) :
  np.histogram selectors data bins = Ok (counts, edges) ->
  np.sum counts = 0%Z ->
  exists percentages : list float64,
    normalize_to_percentage selectors data bins = Ok (percentages, edges)
    /\ percentages = map F.of_Z counts
    /\ List.length percentages = List.length counts
    /\ Forall (fun p => p = fin 0) percentages.
Proof.
  intros Hh Hzero.
  exists (map F.of_Z counts).
  split; [|split; [reflexivity|split; [apply length_map|]]].
  - rewrite (normalize_to_percentage_eq _ _ _ _ _ Hh), Hzero. reflexivity.
  - pose proof (histogram_counts_nonnegative _ _ _ _ _ Hh) as Hnn.
    clear Hh. induction Hnn as [|c l Hc Hnn IH]; [constructor|].
    cbn [np.sum fold_right] in Hzero.
    assert (0 <= np.sum l)%Z as Hl.
    { clear IH Hzero. induction Hnn as [|d l Hd _ IH]; cbn; [lia|].
      fold (np.sum l). lia. }
    fold (np.sum l) in Hzero.
    assert (c = 0%Z) as -> by lia.
    constructor; [reflexivity|]. apply IH. lia.
Qed.

(** The sample [10.0] over the edges [0, 1, 2]: no value falls in a bin. *)
Lemma normalize_zero_total_witness :
  exists percentages : list float64,
    normalize_to_percentage sturges_selectors (NumArray [fin 10])
      (BinsEdges [0; 1; 2])
    = Ok (percentages, [fin 0; fin 1; fin 2])
    /\ percentages = [fin 0; fin 0].
Proof.
  destruct (normalize_zero_total sturges_selectors (NumArray [fin 10])
              (BinsEdges [0; 1; 2]) [0; 0]%Z [fin 0; fin 1; fin 2]
              eq_refl eq_refl) as (p & Hn & Hp & _).
  exists p. split; [exact Hn|]. rewrite Hp. reflexivity.
Defined.

(** C7 (amended): whenever the bin specification is not an empty sequence of
    edges, the bin edges returned by [normalize_to_percentage] have exactly
    one more element than the percentages. *)
Theorem normalize_shape
  (selectors : string -> option (list float64 -> positive))
  (data : ndarray) (bins : bins_spec) (percentages edges : list float64) :
  normalize_to_percentage selectors data bins = Ok (percentages, edges) ->
  bins <> BinsEdges [] ->
  List.length edges = S (List.length percentages).
Proof.
  intros Hn Hbins.
  apply normalize_to_percentage_inv in Hn as (counts & Hh & ->).
  apply histogram_shape in Hh as [Hlen Hnil].
  destruct edges as [|e0 edges]; [now specialize (Hnil eq_refl)|].
  cbn [List.length] in *. lia.
Qed.

(** The sample [1,2,2,3,3,3] in three equal bins: four edges, three
    percentages. *)
Lemma normalize_shape_witness :
  List.length [fin 1; fin (5 # 3); fin (7 # 3); fin 3]
  = S (List.length [fin (100 # 6); fin (200 # 6); fin (300 # 6)]).
Proof.
  apply (normalize_shape sturges_selectors
           (NumArray [fin 1; fin 2; fin 2; fin 3; fin 3; fin 3]) (BinsInt 3)).
  - vm_compute. reflexivity.
  - discriminate.
Defined.

(** C7 as stated fails on an empty sequence of bin edges: numpy returns no
    counts and no edges, so both results are empty. *)
Lemma normalize_empty_edges :
  ~ (forall (data : ndarray) (bins : bins_spec)
            (percentages edges : list float64),
        normalize_to_percentage sturges_selectors data bins
        = Ok (percentages, edges) ->
        List.length edges = S (List.length percentages)).
Proof.
  intro H.
  specialize (H (NumArray [fin 1; fin 2]) (BinsEdges []) [] [] eq_refl).
  discriminate.
Qed.

(** ** Input validator *)

Lemma append_inv_head (p a b : string) :
  (p ++ a)%string = (p ++ b)%string -> a = b.
Proof.
  induction p as [|c p IH]; cbn; [auto|]. intros [= H]. auto.
Qed.

Lemma all_map {A} (f : A -> bool) (l : list A) :
  np.all (map f l) = forallb f l.
Proof.
  unfold np.all. induction l as [|x l IH]; [reflexivity|].
  cbn. now rewrite IH.
Qed.

Section Validator.

Variable selectors : string -> option (list float64 -> positive).
Variable asarray : pyobj -> result ndarray.

(** [validate_data], case by case on what the conversion produced. *)
Lemma validate_data_cases (data : pyobj) (name : string) :
  validate_data asarray data name
  = match to_array asarray data with
    | Raise e =>
        Raise (Exn TypeError
                 ("Could not convert " ++ name ++ " to array: " ++ msg e)%string)
    | Ok (NumArray []) | Ok (StrArray []) =>
        Raise (Exn ValueError (name ++ " is empty")%string)
    | Ok (StrArray (_ :: _)) =>
        Raise (Exn TypeError "ufunc 'isnan' not supported for the input types")
    | Ok (NumArray xs) =>
        if forallb F.isnan xs
        then Raise (Exn ValueError (name ++ " contains only NaN values")%string)
        else Ok (NumArray xs)
    end.
Proof.
  unfold validate_data.
  destruct (to_array asarray data) as [[xs|ss]|e]; [| |reflexivity].
  - destruct xs as [|x xs]; [reflexivity|].
    cbn [np.size List.length Nat.eqb np.isnan bind].
    rewrite all_map. reflexivity.
  - destruct ss as [|s ss]; reflexivity.
Qed.

(** What is known of an array that passed validation. *)
Lemma validate_data_ok (data : pyobj) (name : string) (arr : ndarray) :
  validate_data asarray data name = Ok arr ->
  exists xs, arr = NumArray xs /\ xs <> [] /\ forallb F.isnan xs = false
             /\ to_array asarray data = Ok arr.
Proof.
  rewrite validate_data_cases.
  destruct (to_array asarray data) as [[xs|ss]|e]; [| |discriminate].
  - destruct xs as [|x xs]; [discriminate|].
    destruct (forallb F.isnan (x :: xs)) eqn:Hnan; [discriminate|].
    intros [= <-]. exists (x :: xs). now repeat split.
  - destruct ss; discriminate.
Qed.

Lemma validate_each_ok (y : list pyobj) (i : nat) (arrs : list ndarray) :
  validate_each asarray i y = Ok arrs ->
  List.length arrs = List.length y
  /\ Forall (fun a => exists xs, a = NumArray xs) arrs.
Proof.
  revert i arrs. induction y as [|y_i y IH]; intros i arrs; cbn.
  - intros [= <-]. split; [reflexivity | constructor].
  - intro H. apply bind_ok in H as (arr & Hv & H).
    apply bind_ok in H as (rest & Hr & H). injection H as <-.
    apply IH in Hr as [Hlen Hall].
    apply validate_data_ok in Hv as (xs & -> & _).
    split; [cbn; now rewrite Hlen|]. constructor; [now exists xs | exact Hall].
Qed.

Lemma validate_y_ok (y : pyobj) (arrs : list ndarray) :
  validate_y asarray y = Ok arrs ->
  Forall (fun a => exists xs, a = NumArray xs) arrs.
Proof.
  assert (forall r, (arr <- validate_data asarray y "y" ;; Ok [arr]) = Ok r ->
                    Forall (fun a => exists xs, a = NumArray xs) r) as Hsingle.
  { intros r H. apply bind_ok in H as (arr & Hv & [= <-]).
    apply validate_data_ok in Hv as (xs & -> & _).
    constructor; [now exists xs | constructor]. }
  unfold validate_y. destruct y as [[|y0 items]| | | |]; try apply Hsingle.
  destruct (is_list_or_ndarray y0); [|apply Hsingle].
  intro H. now apply validate_each_ok in H.
Qed.

Lemma check_lengths_fails (x_array : ndarray) (y_arrays : list ndarray) (i : nat) :
  Exists (fun y_arr => np.size y_arr <> np.size x_array) y_arrays ->
  exists j,
    check_lengths i y_arrays x_array
    = Raise (Exn ValueError
               ("x and y[" ++ string_of_nat j ++ "] must have the same length")%string).
Proof.
  intro H. revert i. induction H as [y_arr rest Hne | y_arr rest _ IH]; intro i.
  - exists i. cbn. apply Nat.eqb_neq in Hne. now rewrite Hne.
  - cbn. destruct (Nat.eqb (np.size y_arr) (np.size x_array)); cbn.
    + apply IH.
    + now exists i.
Qed.

Lemma check_lengths_ok (x_array : ndarray) (y_arrays : list ndarray) (i : nat) :
  check_lengths i y_arrays x_array = Ok tt ->
  Forall (fun y_arr => np.size y_arr = np.size x_array) y_arrays.
Proof.
  revert i. induction y_arrays as [|y_arr rest IH]; intro i; cbn.
  - constructor.
  - destruct (Nat.eqb (np.size y_arr) (np.size x_array)) eqn:E; cbn;
      [|discriminate].
    intro H. constructor; [now apply Nat.eqb_eq | now apply IH in H].
Qed.

End Validator.

(** C10: an input that converts to a (non-empty) array of non-numeric
    elements is rejected by neither of the validator's own value errors: the
    NaN test itself raises numpy's [TypeError], outside the try block that
    wraps the conversion.  The "contains only NaN values" error is raised
    for numeric arrays only. *)
Theorem validate_data_non_numeric
  (asarray : pyobj -> result ndarray) (data : pyobj) (name : string)
  (ss : list string) :
  to_array asarray data = Ok (StrArray ss) -> ss <> [] ->
  validate_data asarray data name
  = Raise (Exn TypeError "ufunc 'isnan' not supported for the input types")
  /\ (forall (data' : pyobj) (name' : string),
         validate_data asarray data' name'
         = Raise (Exn ValueError (name' ++ " contains only NaN values")%string) ->
         exists xs, to_array asarray data' = Ok (NumArray xs)
                    /\ xs <> [] /\ forallb F.isnan xs = true).
Proof.
  intros Hconv Hne. split.
  - rewrite validate_data_cases, Hconv. destruct ss; [congruence | reflexivity].
  - intros data' name'. rewrite validate_data_cases.
    destruct (to_array asarray data') as [[xs|ss']|e]; [| |discriminate].
    + destruct xs as [|x xs].
      * intros [= H]. apply append_inv_head in H. discriminate.
      * destruct (forallb F.isnan (x :: xs)) eqn:Hnan; [|discriminate].
        intros _. exists (x :: xs). now repeat split.
    + destruct ss' as [|s ss'].
      * intros [= H]. apply append_inv_head in H. discriminate.
      * discriminate.
Qed.

(** The list ['a', 'b']. *)
Lemma validate_data_non_numeric_witness :
  validate_data flat_asarray (PyList [PyStr "a"; PyStr "b"]) "data"
  = Raise (Exn TypeError "ufunc 'isnan' not supported for the input types").
Proof.
  apply (validate_data_non_numeric flat_asarray
           (PyList [PyStr "a"; PyStr "b"]) "data" ["a"; "b"]).
  - reflexivity.
  - discriminate.
Defined.

(** C5: the validator fails exactly as specified (conversion failure or a
    non-numeric result: [TypeError]; empty or all-NaN: [ValueError]); the
    paired-array entry points raise [ValueError] when the lengths differ; and
    every validation failure leaves matplotlib untouched, so no figure has
    been created. *)
Theorem validation_failures
  (selectors : string -> option (list float64 -> positive))
  (asarray : pyobj -> result ndarray) :
  (forall data name,
      verdict_of (validate_data asarray data name)
      = specified_verdict (to_array asarray data))
  /\ (forall x y marginals title xlabel ylabel figsize color alpha size ax st
             x_array y_array,
         validate_data asarray x "x" = Ok x_array ->
         validate_data asarray y "y" = Ok y_array ->
         np.size x_array <> np.size y_array ->
         scatter selectors asarray x y marginals title xlabel ylabel figsize
                 color alpha size ax st
         = (Raise (Exn ValueError "x and y must have the same length"), st))
  /\ (forall x y labels title xlabel ylabel figsize markers ax colors st
             x_array y_arrays,
         validate_data asarray x "x" = Ok x_array ->
         validate_y asarray y = Ok y_arrays ->
         Exists (fun y_arr => np.size y_arr <> np.size x_array) y_arrays ->
         exists j,
           line asarray x y labels title xlabel ylabel figsize markers ax
                colors st
           = (Raise (Exn ValueError
                ("x and y[" ++ string_of_nat j ++ "] must have the same length")%string),
              st))
  /\ (forall data bins title xlabel ylabel figsize ax color st e,
         validate_data asarray data "data" = Raise e ->
         histogram selectors asarray data bins title xlabel ylabel figsize ax
                   color st
         = (Raise e, st))
  /\ (forall x y marginals title xlabel ylabel figsize color alpha size ax st e,
         validate_data asarray x "x" = Raise e
         \/ (exists x_array, validate_data asarray x "x" = Ok x_array
                             /\ validate_data asarray y "y" = Raise e) ->
         scatter selectors asarray x y marginals title xlabel ylabel figsize
                 color alpha size ax st
         = (Raise e, st))
  /\ (forall x y labels title xlabel ylabel figsize markers ax colors st e,
         validate_data asarray x "x" = Raise e
         \/ (exists x_array, validate_data asarray x "x" = Ok x_array
                             /\ validate_y asarray y = Raise e) ->
         line asarray x y labels title xlabel ylabel figsize markers ax
              colors st
         = (Raise e, st)).
Proof.
  repeat split.
  - intros data name. rewrite validate_data_cases.
    unfold specified_verdict.
    destruct (to_array asarray data) as [[[|x xs]|[|s ss]]|e]; try reflexivity.
    cbn [np.size List.length Nat.eqb].
    now destruct (forallb F.isnan (x :: xs)).
  - intros * Hx Hy Hne. unfold scatter.
    rewrite Hx, Hy, !mbind_lift.
    apply Nat.eqb_neq in Hne. now rewrite Hne.
  - intros * Hx Hy Hne. unfold line.
    destruct (check_lengths_fails x_array y_arrays 0 Hne) as [j Hj].
    exists j. rewrite Hx, Hy, !mbind_lift, Hj. reflexivity.
  - intros * Hd. unfold histogram. now rewrite Hd.
  - intros * [Hx | (x_array & Hx & Hy)]; unfold scatter.
    + now rewrite Hx.
    + now rewrite Hx, mbind_lift, Hy.
  - intros * [Hx | (x_array & Hx & Hy)]; unfold line.
    + now rewrite Hx.
    + now rewrite Hx, mbind_lift, Hy.
Qed.

(** Mismatched lengths: x of length 3 against y of length 5. *)
Lemma validation_failures_witness :
  exists j,
    line flat_asarray
      (PyArray (NumArray [fin 1; fin 2; fin 3]))
      (PyArray (NumArray [fin 1; fin 2; fin 3; fin 4; fin 5]))
      LabelsNone None None None styles.FIGURE_SIZES_default false None None
      mpl.empty
    = (Raise (Exn ValueError
         ("x and y[" ++ string_of_nat j ++ "] must have the same length")%string),
       mpl.empty).
Proof.
  refine (proj1 (proj2 (proj2 (validation_failures sturges_selectors flat_asarray)))
            _ _ _ _ _ _ _ _ _ _ _
            (NumArray [fin 1; fin 2; fin 3])
            [NumArray [fin 1; fin 2; fin 3; fin 4; fin 5]] _ _ _).
  - reflexivity.
  - reflexivity.
  - constructor. cbn. lia.
Defined.

(** ** Samples that hold NaN or an infinity *)

Lemma minimum_above (a x : float64) :
  above_ninf (np.minimum a x) = true ->
  above_ninf a = true /\ above_ninf x = true.
Proof.
  unfold np.minimum.
  destruct a, x; cbn; try (intuition congruence);
    destruct (Qlt_bool _ _); cbn; intuition congruence.
Qed.

Lemma maximum_below (a x : float64) :
  below_pinf (np.maximum a x) = true ->
  below_pinf a = true /\ below_pinf x = true.
Proof.
  unfold np.maximum.
  destruct a, x; cbn; try (intuition congruence);
    destruct (Qlt_bool _ _); cbn; intuition congruence.
Qed.

Lemma fold_minimum_above (xs : list float64) (acc : float64) :
  above_ninf (fold_left np.minimum xs acc) = true ->
  above_ninf acc = true /\ forallb above_ninf xs = true.
Proof.
  revert acc. induction xs as [|x xs IH]; intros acc H; cbn in *; [auto|].
  apply IH in H as [H Hxs]. apply minimum_above in H as [Ha Hx].
  now rewrite Hx, Hxs.
Qed.

Lemma fold_maximum_below (xs : list float64) (acc : float64) :
  below_pinf (fold_left np.maximum xs acc) = true ->
  below_pinf acc = true /\ forallb below_pinf xs = true.
Proof.
  revert acc. induction xs as [|x xs IH]; intros acc H; cbn in *; [auto|].
  apply IH in H as [H Hxs]. apply maximum_below in H as [Ha Hx].
  now rewrite Hx, Hxs.
Qed.

(** numpy finds a range for the bins only if every value is finite. *)
Lemma get_outer_edges_finite (xs : list float64) (range : Q * Q) :
  np.get_outer_edges xs = Ok range -> forallb F.isfinite xs = true.
Proof.
  destruct xs as [|x xs]; [reflexivity|].
  cbn [np.get_outer_edges np.reduce bind].
  destruct (fold_left np.minimum xs x) as [| | |lo] eqn:Hmin; try discriminate.
  destruct (fold_left np.maximum xs x) as [| | |hi] eqn:Hmax; try discriminate.
  intros _.
  assert (above_ninf (fold_left np.minimum xs x) = true) as Ha
    by now rewrite Hmin.
  assert (below_pinf (fold_left np.maximum xs x) = true) as Hb
    by now rewrite Hmax.
  apply fold_minimum_above in Ha as [Hax Haxs].
  apply fold_maximum_below in Hb as [Hbx Hbxs].
  cbn. apply andb_true_iff. split.
  - now destruct x.
  - apply forallb_forall. intros y Hy.
    pose proof (proj1 (forallb_forall _ _) Haxs y Hy).
    pose proof (proj1 (forallb_forall _ _) Hbxs y Hy).
    now destruct y.
Qed.

Section NonFinite.

Variable selectors : string -> option (list float64 -> positive).
Variable asarray : pyobj -> result ndarray.

Lemma get_bin_edges_non_finite (xs : list float64) (bins : bins_spec) :
  forallb F.isfinite xs = false ->
  match bins with BinsEdges _ => False | _ => True end ->
  exists m, np.get_bin_edges selectors xs bins = Raise (Exn ValueError m).
Proof.
  intros Hnf Hbins.
  assert (exists m, np.get_outer_edges xs = Raise (Exn ValueError m)) as [m Hm].
  { destruct (np.get_outer_edges xs) as [range|e] eqn:He.
    - apply get_outer_edges_finite in He. congruence.
    - destruct xs as [|x xs]; [discriminate|].
      cbn [np.get_outer_edges np.reduce bind] in He.
      destruct (fold_left np.minimum xs x), (fold_left np.maximum xs x);
        try (injection He as <-; eauto).
      destruct (Qeq_bool q q0); discriminate. }
  destruct bins as [n|name|edges]; [| |contradiction]; cbn [np.get_bin_edges].
  - destruct (n <? 1)%Z; [eauto|]. rewrite Hm. cbn. eauto.
  - destruct (selectors name); [|eauto]. rewrite Hm. cbn. eauto.
Qed.

(** A validated sample that holds NaN or an infinity makes [histogram]
    raise, for every integer bin count and every named strategy. *)
Lemma histogram_rejects_non_finite (data : pyobj) (bins : bins_spec)
  (title xlabel : option string) (ylabel : string) (figsize : Q * Q)
  (ax : option nat) (color : string) (st : Plt) (xs : list float64) :
  validate_data asarray data "data" = Ok (NumArray xs) ->
  forallb F.isfinite xs = false ->
  match bins with BinsEdges _ => False | _ => True end ->
  exists m,
    fst (histogram selectors asarray data bins title xlabel ylabel figsize ax
                   color st)
    = Raise (Exn ValueError m).
Proof.
  intros Hv Hnf Hbins.
  destruct (get_bin_edges_non_finite xs bins Hnf Hbins) as [m Hm].
  exists m. unfold histogram. rewrite Hv, mbind_lift.
  unfold mbind at 1.
  destruct (create_figure_and_axes figsize ax st) as [[[fig h]|e] st'] eqn:Hc.
  - unfold normalize_to_percentage, np.histogram. cbn [np.values bind].
    rewrite Hm. reflexivity.
  - exfalso. destruct ax as [a|]; cbn in Hc; discriminate.
Qed.

End NonFinite.

(** C6 fails on the code: the samples of the repository's own edge-case
    runs, one holding an infinity and one mixing NaN with numbers, pass the
    validator, and [histogram] with the default bins='auto' then raises
    [ValueError] instead of rendering. *)
Theorem histogram_raises_on_infinity_and_nan
  (selectors : string -> option (list float64 -> positive))
  (asarray : pyobj -> result ndarray) :
  let with_inf := NumArray [fin 1; fin 2; fin 3; pinf; fin 5; fin 6] in
  let with_nan := NumArray [fin 1; fin 2; nan; fin 4; fin 5; nan; fin 7] in
  validate_data asarray (PyArray with_inf) "data" = Ok with_inf
  /\ validate_data asarray (PyArray with_nan) "data" = Ok with_nan
  /\ raised_class
       (fst (histogram selectors asarray (PyArray with_inf) (BinsName "auto")
               None None "Percentage" styles.FIGURE_SIZES_default None
               styles.TUFTE_COLORS_primary mpl.empty))
     = Some ValueError
  /\ raised_class
       (fst (histogram selectors asarray (PyArray with_nan) (BinsName "auto")
               None None "Percentage" styles.FIGURE_SIZES_default None
               styles.TUFTE_COLORS_primary mpl.empty))
     = Some ValueError.
Proof.
  intros with_inf with_nan.
  split; [reflexivity|]. split; [reflexivity|]. split.
  - destruct (histogram_rejects_non_finite selectors asarray (PyArray with_inf)
                (BinsName "auto") None None "Percentage"
                styles.FIGURE_SIZES_default None styles.TUFTE_COLORS_primary
                mpl.empty _ eq_refl eq_refl I) as [m ->].
    reflexivity.
  - destruct (histogram_rejects_non_finite selectors asarray (PyArray with_nan)
                (BinsName "auto") None None "Percentage"
                styles.FIGURE_SIZES_default None styles.TUFTE_COLORS_primary
                mpl.empty _ eq_refl eq_refl I) as [m ->].
    reflexivity.
Qed.

(** ** What a call leaves unchanged *)

Lemma mbind_ok {A B} (m : M A) (k : A -> M B) (st st' : Plt) (b : B) :
  mbind m k st = (Ok b, st') ->
  exists a st1, m st = (Ok a, st1) /\ k a st1 = (Ok b, st').
Proof.
  unfold mbind. destruct (m st) as [[a|e] st1]; [eauto | discriminate].
Qed.

Lemma mbind_step {A B} (m : M A) (k : A -> M B) (st st1 : Plt) (a : A) :
  m st = (Ok a, st1) -> mbind m k st = k a st1.
Proof. unfold mbind. now intros ->. Qed.

Section Preserves.

Context {T : Type} (obs : Plt -> T).

Lemma preserves_ret {A} (a : A) : preserves obs (ret a).
Proof. now intro st. Qed.

Lemma preserves_raise {A} (c : exn_class) (m : string) :
  preserves obs (@raise A c m).
Proof. now intro st. Qed.

Lemma preserves_lift {A} (r : result A) : preserves obs (lift r).
Proof. now intro st. Qed.

Lemma preserves_bind {A B} (m : M A) (k : A -> M B) :
  preserves obs m -> (forall a, preserves obs (k a)) ->
  preserves obs (mbind m k).
Proof.
  intros Hm Hk st. unfold mbind. specialize (Hm st).
  destruct (m st) as [[a|e] st1]; cbn in *; [|exact Hm].
  now rewrite Hk.
Qed.

Lemma preserves_when (b : bool) (m : M unit) :
  preserves obs m -> preserves obs (when b m).
Proof. intro Hm. destruct b; [exact Hm | apply preserves_ret]. Qed.

End Preserves.

Section Views.

Variable ax : nat.

(** An update of one axes object that keeps the fields a view reads leaves
    the view as it was. *)
Lemma modify_x_view (h : nat) (f : Axes -> Axes) :
  (forall a, x_axis (f a) = x_axis a) ->
  (forall a, bounds (spines (f a) bottom) = bounds (spines a bottom)) ->
  preserves (fun st => x_view st ax) (mpl.modify h f).
Proof.
  intros Hk Hb st. unfold x_view, mpl.get_xlim, bottom_bounds. cbn.
  unfold mpl.update. destruct (Nat.eqb ax h) eqn:E; [|reflexivity].
  apply Nat.eqb_eq in E as ->. now rewrite Hk, Hb.
Qed.

Lemma modify_y_view (h : nat) (f : Axes -> Axes) :
  (forall a, y_axis (f a) = y_axis a) ->
  (forall a, bounds (spines (f a) left) = bounds (spines a left)) ->
  preserves (fun st => y_view st ax) (mpl.modify h f).
Proof.
  intros Hk Hb st. unfold y_view, mpl.get_ylim, left_bounds. cbn.
  unfold mpl.update. destruct (Nat.eqb ax h) eqn:E; [|reflexivity].
  apply Nat.eqb_eq in E as ->. now rewrite Hk, Hb.
Qed.

Lemma modify_artists (h : nat) (f : Axes -> Axes) :
  (forall a, artists (f a) = artists a) ->
  preserves (fun st => artists (axes_of st ax)) (mpl.modify h f).
Proof.
  intros Hf st. cbn. unfold mpl.update.
  destruct (Nat.eqb ax h) eqn:E; [|reflexivity].
  apply Nat.eqb_eq in E as ->. apply Hf.
Qed.

Lemma put_xlim_y_view (h : nat) (l : limits) :
  preserves (fun st => y_view st ax) (mpl.put_xlim h l).
Proof. now intro st. Qed.

Lemma put_ylim_x_view (h : nat) (l : limits) :
  preserves (fun st => x_view st ax) (mpl.put_ylim h l).
Proof. now intro st. Qed.

Lemma put_xlim_artists (h : nat) (l : limits) :
  preserves (fun st => artists (axes_of st ax)) (mpl.put_xlim h l).
Proof. now intro st. Qed.

Lemma put_ylim_artists (h : nat) (l : limits) :
  preserves (fun st => artists (axes_of st ax)) (mpl.put_ylim h l).
Proof. now intro st. Qed.

End Views.

(** Breaks a composite call into its primitive calls and discharges each
    with the lemmas above. *)
Ltac preserve :=
  repeat first
    [ apply preserves_ret
    | apply preserves_raise
    | apply preserves_lift
    | apply preserves_when
    | apply preserves_bind; [|intros]
    | apply put_xlim_y_view
    | apply put_ylim_x_view
    | apply put_xlim_artists
    | apply put_ylim_artists
    | apply modify_x_view; [intros; reflexivity | intros; reflexivity]
    | apply modify_y_view; [intros; reflexivity | intros; reflexivity]
    | apply modify_artists; intros; reflexivity
    | match goal with
      | |- preserves _ (if ?b then _ else _) => destruct b
      | |- preserves _ (match ?x with _ => _ end) => destruct x
      end
    | progress unfold mpl.set_xlim, mpl.set_ylim, mpl.spine_set_bounds,
        mpl.spine_set_visible, mpl.set_title, mpl.set_xlabel, mpl.set_ylabel,
        mpl.set_major_locators, mpl.tick, mpl.show_legend,
        despine, minimal_ticks, set_tufte_style, set_labels ].

Lemma range_frame_keeps_x (ax h : nat) (y_data : option ndarray)
  (x_padding y_padding : float64) :
  preserves (fun st => x_view st ax)
            (range_frame h None y_data x_padding y_padding).
Proof. unfold range_frame. preserve. Qed.

Lemma range_frame_keeps_y (ax h : nat) (x_data : option ndarray)
  (x_padding y_padding : float64) :
  preserves (fun st => y_view st ax)
            (range_frame h x_data None x_padding y_padding).
Proof. unfold range_frame. preserve. Qed.

Lemma set_tufte_style_keeps_y (ax h : nat) :
  preserves (fun st => y_view st ax) (set_tufte_style h).
Proof. preserve. Qed.


(** ** The histogram entry point *)

Lemma lift_ok {A} (r : result A) (a : A) (st st' : Plt) :
  lift r st = (Ok a, st') -> r = Ok a /\ st' = st.
Proof. unfold lift. now intros [= -> ->]. Qed.

(** After a call, an observation preserved by the call reads as before. *)
Lemma preserved {A T} (obs : Plt -> T) (m : M A) (st st' : Plt) (r : result A) :
  preserves obs m -> m st = (r, st') -> obs st' = obs st.
Proof. intros Hp Hm. specialize (Hp st). now rewrite Hm in Hp. Qed.

Lemma spine_set_bounds_effect (h : nat) (name : spine_name) (lo hi : float64)
  (st st' : Plt) (r : result unit) :
  mpl.spine_set_bounds h name lo hi st = (r, st') ->
  bounds (spines (axes_of st' h) name) = Some (lo, hi).
Proof.
  intros [= _ <-]. cbn. rewrite update_same. cbn.
  unfold mpl.update_spine. now destruct name.
Qed.

(** A range frame on x that returns has set the bottom spine to the
    minimum and maximum of the data. *)
Lemma range_frame_x_returns (h : nat) (d : ndarray) (xp yp : float64)
  (st st' : Plt) :
  range_frame h (Some d) None xp yp st = (Ok tt, st') ->
  exists x_min x_max,
    np.min d = Ok x_min /\ np.max d = Ok x_max
    /\ bottom_bounds st' h = Some (x_min, x_max).
Proof.
  unfold range_frame. rewrite mbind_ret_tt. intro H.
  apply mbind_ok in H as (x_min & st1 & Hmin & H).
  apply lift_ok in Hmin as [Hmin ->].
  apply mbind_ok in H as (x_max & st2 & Hmax & H).
  apply lift_ok in Hmax as [Hmax ->].
  exists x_min, x_max. split; [exact Hmin|]. split; [exact Hmax|].
  cbv zeta in H.
  destruct (fin 0 <? x_max - x_min)%f64;
    apply mbind_ok in H as ([] & st3 & _ & H);
    now apply spine_set_bounds_effect in H.
Qed.

Lemma set_ylim_bottom_effect (h : nat) (st st' : Plt) :
  mpl.set_ylim_bottom h (fin 0) st = (Ok tt, st') ->
  mpl.get_ylim st' h = (Some (fin 0), snd (mpl.get_ylim st h))
  /\ left_bounds st' h = left_bounds st h
  /\ x_view st' h = x_view st h.
Proof.
  cbn. intros [= <-]. unfold mpl.get_ylim, left_bounds, x_view. cbn.
  now rewrite update_same.
Qed.

Lemma bar_keeps_views (ax h : nat) (horizontal : bool)
  (edges heights : list float64) (width : float64) (color : string)
  (alpha : option Q) :
  preserves (fun st => x_view st ax)
            (mpl.bar h horizontal edges heights width color alpha)
  /\ preserves (fun st => y_view st ax)
               (mpl.bar h horizontal edges heights width color alpha).
Proof. unfold mpl.bar, mpl.add_artist. split; preserve. Qed.

(** The axes [create_figure_and_axes] hands back: the caller's, untouched,
    or a fresh one with no spine bounds and autoscaled limits. *)
Lemma create_figure_and_axes_returns (figsize : Q * Q) (ax : option nat)
  (st st1 : Plt) (fig h : nat) :
  create_figure_and_axes figsize ax st = (Ok (fig, h), st1) ->
  left_bounds st1 h
  = match ax with Some a => left_bounds st a | None => None end
  /\ snd (mpl.get_ylim st1 h)
     = match ax with Some a => snd (mpl.get_ylim st a) | None => None end
  /\ artists (axes_of st1 h)
     = match ax with Some a => artists (axes_of st a) | None => [] end
  /\ h = match ax with Some a => a | None => n_axes st end.
Proof.
  destruct ax as [a|]; cbn.
  - intros [= _ <- <-]. auto.
  - intros [= _ <- <-]. unfold left_bounds, mpl.get_ylim. cbn.
    rewrite !update_same. cbn. rewrite ?update_same. auto.
Qed.

(** C8: [range_frame] treats the axes apart: with no x data the x limits
    and the bottom spine stay as they were, with no y data the y limits and
    the left spine stay as they were.  In [histogram] the range frame goes on
    the x axis only: the bottom spine spans the data, the left spine is not
    bounded by the call, and the y axis starts at zero. *)
Theorem range_frame_per_axis
  (selectors : string -> option (list float64 -> positive))
  (asarray : pyobj -> result ndarray) :
  (forall ax h y_data x_padding y_padding st,
      x_view (snd (range_frame h None y_data x_padding y_padding st)) ax
      = x_view st ax)
  /\ (forall ax h x_data x_padding y_padding st,
         y_view (snd (range_frame h x_data None x_padding y_padding st)) ax
         = y_view st ax)
  /\ (forall data bins title xlabel ylabel figsize ax color st fig h st',
         histogram selectors asarray data bins title xlabel ylabel figsize ax
                   color st
         = (Ok (fig, h), st') ->
         exists arr x_min x_max,
           validate_data asarray data "data" = Ok arr
           /\ np.min arr = Ok x_min /\ np.max arr = Ok x_max
           /\ bottom_bounds st' h = Some (x_min, x_max)
           /\ left_bounds st' h
              = match ax with Some a => left_bounds st a | None => None end
           /\ mpl.get_ylim st' h
              = (Some (fin 0),
                 match ax with
                 | Some a => snd (mpl.get_ylim st a)
                 | None => None
                 end)).
Proof.
  split; [|split].
  - intros. apply range_frame_keeps_x.
  - intros. apply range_frame_keeps_y.
  - intros * H. unfold histogram in H.
    apply mbind_ok in H as (arr & st0 & Hv & H).
    apply lift_ok in Hv as [Hv ->].
    apply mbind_ok in H as ([fig' h'] & st1 & Hc & H).
    apply create_figure_and_axes_returns in Hc as (Hleft & Htop & _ & _).
    apply mbind_ok in H as ([percentages bin_edges] & st2 & Hn & H).
    apply lift_ok in Hn as [_ ->].
    apply mbind_ok in H as (e1 & st2 & He1 & H). apply lift_ok in He1 as [_ ->].
    apply mbind_ok in H as (e0 & st2 & He0 & H). apply lift_ok in He0 as [_ ->].
    apply mbind_ok in H as ([] & st2 & Hbar & H).
    apply mbind_ok in H as ([] & st3 & Hstyle & H).
    apply mbind_ok in H as ([] & st4 & Htitle & H).
    apply mbind_ok in H as ([] & st5 & Hxlabel & H).
    apply mbind_ok in H as ([] & st6 & Hylabel & H).
    apply mbind_ok in H as ([] & st7 & Hframe & H).
    apply mbind_ok in H as ([] & st8 & Hylim & H).
    injection H as <- <- <-.
    apply (preserved (fun st => y_view st h')) in Hbar;
      [|apply bar_keeps_views].
    apply (preserved (fun st => y_view st h')) in Hstyle;
      [|apply set_tufte_style_keeps_y].
    apply (preserved (fun st => y_view st h')) in Htitle; [|preserve].
    apply (preserved (fun st => y_view st h')) in Hxlabel; [|preserve].
    apply (preserved (fun st => y_view st h')) in Hylabel; [|preserve].
    pose proof (preserved (fun st => y_view st h') _ _ _ _
                  (range_frame_keeps_y h' h' _ _ _) Hframe) as Hy.
    apply range_frame_x_returns in Hframe as (x_min & x_max & Hmin & Hmax & Hb).
    apply set_ylim_bottom_effect in Hylim as (Hlim & Hl & Hx).
    assert (y_view st7 h' = y_view st1 h') as Hview by congruence.
    unfold y_view in Hview. injection Hview as Hylim7 Hleft7.
    exists arr, x_min, x_max. repeat split; try assumption.
    + unfold x_view in Hx. congruence.
    + congruence.
    + rewrite Hlim, Hylim7. now rewrite Htop.
Qed.

(** The sample [1,2,2,3,3,3] drawn on a new figure. *)
Lemma range_frame_per_axis_witness :
  let r := histogram sturges_selectors flat_asarray
             (PyArray (NumArray [fin 1; fin 2; fin 2; fin 3; fin 3; fin 3]))
             (BinsName "auto") None None "Percentage"
             styles.FIGURE_SIZES_default None styles.TUFTE_COLORS_primary
             mpl.empty in
  fst r = Ok (0%nat, 0%nat)
  /\ bottom_bounds (snd r) 0 = Some (fin 1, fin 3)
  /\ left_bounds (snd r) 0 = None
  /\ mpl.get_ylim (snd r) 0 = (Some (fin 0), None).
Proof.
  set (r := histogram _ _ _ _ _ _ _ _ _ _ _). cbv zeta.
  assert (fst r = Ok (0%nat, 0%nat)) as Hr by (vm_compute; reflexivity).
  split; [exact Hr|].
  destruct (proj2 (proj2 (range_frame_per_axis sturges_selectors flat_asarray))
              (PyArray (NumArray [fin 1; fin 2; fin 2; fin 3; fin 3; fin 3]))
              (BinsName "auto") None None "Percentage"
              styles.FIGURE_SIZES_default None styles.TUFTE_COLORS_primary
              mpl.empty 0%nat 0%nat (snd r))
    as (arr & x_min & x_max & Hv & Hmin & Hmax & Hb & Hl & Hy).
  - rewrite <- Hr. apply surjective_pairing.
  - injection Hv as <-. injection Hmin as <-. injection Hmax as <-.
    auto.
Defined.

(** ** The line entry point *)

Lemma zip3_length {A B C} (a : list A) (b : list B) (c : list C) :
  List.length (zip3 a b c)
  = Nat.min (List.length a) (Nat.min (List.length b) (List.length c)).
Proof.
  revert b c. induction a as [|x a IH]; intros [|y b] [|z c]; cbn;
    try reflexivity.
  now rewrite IH.
Qed.

Lemma zip3_series {A B C} (P : A -> Prop) (a : list A) (b : list B) (c : list C) :
  Forall P a -> Forall (fun s => P (fst (fst s))) (zip3 a b c).
Proof.
  intro H. revert b c. induction H as [|x a Hx _ IH]; intros [|y b] [|z c];
    cbn; constructor; auto.
Qed.

(** The plotting loop draws one line per series it is given, in order. *)
Lemma plot_lines_returns (ax : nat) (xs : list float64) (markers : bool)
  (series : list (ndarray * string * option string)) (st : Plt) :
  Forall (fun s => exists ys, fst (fst s) = NumArray ys
                              /\ List.length ys = List.length xs) series ->
  exists st',
    plot_lines ax (NumArray xs) markers series st = (Ok tt, st')
    /\ artists (axes_of st' ax)
       = artists (axes_of st ax) ++ map (line_artist xs markers) series.
Proof.
  intro H. revert st. induction H as [|[[y color] label] series Hy _ IH];
    intro st.
  - exists st. split; [reflexivity|]. cbn. now rewrite app_nil_r.
  - destruct Hy as (ys & Hys & Hlen). cbn in Hys. subst y.
    cbn [plot_lines np.values]. rewrite !mbind_lift.
    unfold mpl.plot, mpl.same_length. rewrite <- Hlen, Nat.eqb_refl.
    match goal with
    | |- context [mbind (mpl.add_artist ax ?art) _ st] =>
        destruct (IH (snd (mpl.add_artist ax art st))) as (st' & Hrun & Hart)
    end.
    exists st'. split.
    + exact Hrun.
    + rewrite Hart. cbn. rewrite update_same. cbn.
      now rewrite <- app_assoc.
Qed.

Section Line.

Variable asarray : pyobj -> result ndarray.

(** C9: a call to [line] with [colors=None] and more than four validated
    series of the right length draws as many lines as the grayscale palette
    has colours, four, and no more: the loop runs over the zip of the
    series, the colours and the labels, which ends with the palette. *)
Theorem line_plots_four_series
  (x y : pyobj) (labels : labels_arg) (title xlabel ylabel : option string)
  (figsize : Q * Q) (markers : bool) (ax : option nat) (st : Plt)
  (x_array : ndarray) (y_arrays : list ndarray) :
  validate_data asarray x "x" = Ok x_array ->
  validate_y asarray y = Ok y_arrays ->
  check_lengths 0 y_arrays x_array = Ok tt ->
  (4 < List.length y_arrays)%nat ->
  let st' := snd (line asarray x y labels title xlabel ylabel figsize markers
                       ax None st) in
  let h := match ax with Some a => a | None => n_axes st end in
  let before :=
    match ax with Some a => artists (axes_of st a) | None => [] end in
  exists (xs : list float64) (label_list : list (option string))
         (plotted : list artist),
    x_array = NumArray xs
    /\ artists (axes_of st' h) = before ++ plotted
    /\ plotted
       = map (line_artist xs markers)
             (zip3 y_arrays styles.GRAYSCALE_PALETTE label_list)
    /\ List.length plotted = List.length styles.GRAYSCALE_PALETTE
    /\ List.length plotted = 4%nat
    /\ (List.length plotted < List.length y_arrays)%nat.
Proof.
  intros Hx Hy Hcheck Hmany st' h before.
  destruct (validate_data_ok asarray x "x" x_array Hx) as (xs & -> & _).
  pose proof (validate_y_ok asarray y y_arrays Hy) as Hnum.
  pose proof (check_lengths_ok _ _ _ Hcheck) as Hlen.
  set (n := List.length y_arrays) in *.
  set (label_list :=
         (match labels with
          | LabelsNone => repeat None n
          | LabelsStr s => [Some s]
          | LabelsList l => l
          end)).
  set (padded := label_list ++ repeat None (n - List.length label_list)).
  assert (firstn n styles.GRAYSCALE_PALETTE = styles.GRAYSCALE_PALETTE) as Hpal.
  { apply firstn_all2. cbn. lia. }
  assert (n <= List.length padded)%nat as Hpad.
  { unfold padded. rewrite length_app, repeat_length. lia. }
  assert (Forall (fun s => exists ys, fst (fst s) = NumArray ys
                                      /\ List.length ys = List.length xs)
                 (zip3 y_arrays styles.GRAYSCALE_PALETTE padded)) as Hseries.
  { apply zip3_series with (P := fun y_arr =>
      exists ys, y_arr = NumArray ys /\ List.length ys = List.length xs).
    apply Forall_forall. intros y_arr Hin.
    pose proof (proj1 (Forall_forall _ _) Hlen y_arr Hin) as Hsize.
    pose proof (proj1 (Forall_forall _ _) Hnum y_arr Hin) as [ys ->].
    now exists ys. }
  exists xs, padded,
    (map (line_artist xs markers)
         (zip3 y_arrays styles.GRAYSCALE_PALETTE padded)).
  assert (List.length (map (line_artist xs markers)
                           (zip3 y_arrays styles.GRAYSCALE_PALETTE padded))
          = 4%nat) as Hfour.
  { rewrite length_map, zip3_length. fold n. cbn [styles.GRAYSCALE_PALETTE List.length]. lia. }
  split; [reflexivity|]. split; [|split; [reflexivity|split; [|split]]];
    [|exact Hfour|exact Hfour|fold n; lia].
  subst st'. unfold line.
  rewrite Hx, mbind_lift, Hy, mbind_lift, Hcheck, mbind_lift.
  destruct (create_figure_and_axes figsize ax st) as [[[fig h']|e] st1] eqn:Hc;
    [|destruct ax; cbn in Hc; discriminate].
  rewrite (mbind_step _ _ _ _ _ Hc).
  apply create_figure_and_axes_returns in Hc as (_ & _ & Hart & Hh).
  fold h in Hh. fold before in Hart. subst h'.
  cbv zeta. fold n. rewrite Hpal. fold label_list. fold padded.
  destruct (plot_lines_returns h xs markers _ st1 Hseries)
    as (st2 & Hrun & Hplotted).
  rewrite (mbind_step _ _ _ _ _ Hrun).
  match goal with
  | |- artists (axes_of (snd (?tail st2)) h) = _ =>
      assert (preserves (fun s => artists (axes_of s h)) tail) as Htail
        by (unfold range_frame; preserve)
  end.
  rewrite Htail, Hplotted, Hart. reflexivity.
Qed.

End Line.

(** Five series of two points each: four lines are drawn. *)
Lemma line_plots_four_series_witness :
  let y := PyList (map (fun v => PyArray (NumArray [fin v; fin (v + 1)]))
                       [1; 3; 5; 7; 9]) in
  let r := line flat_asarray (PyArray (NumArray [fin 1; fin 2])) y LabelsNone
             None None None styles.FIGURE_SIZES_default false None None
             mpl.empty in
  fst r = Ok (0%nat, 0%nat)
  /\ List.length (artists (axes_of (snd r) 0)) = 4%nat.
Proof.
  cbv zeta. split; [vm_compute; reflexivity|].
  destruct (line_plots_four_series flat_asarray
              (PyArray (NumArray [fin 1; fin 2]))
              (PyList (map (fun v => PyArray (NumArray [fin v; fin (v + 1)]))
                           [1; 3; 5; 7; 9]))
              LabelsNone None None None styles.FIGURE_SIZES_default false None
              mpl.empty (NumArray [fin 1; fin 2])
              (map (fun v => NumArray [fin v; fin (v + 1)]) [1; 3; 5; 7; 9]))
    as (xs & label_list & plotted & _ & Hart & _ & _ & Hfour & _).
  - reflexivity.
  - vm_compute. reflexivity.
  - vm_compute. reflexivity.
  - cbn. lia.
  - cbv zeta in Hart. cbn [app] in Hart.
    change (n_axes mpl.empty) with 0%nat in Hart.
    rewrite Hart. exact Hfour.
Defined.

(** * Further properties *)

(** ** The rc parameters *)

Section RcFacts.

Variable validate : string -> rcvalue -> option rcvalue.

Lemma rc_set_same (rcParams : RcParams) (key : string) (value : rcvalue) :
  rc.set rcParams key value key = Some value.
Proof. unfold rc.set. now rewrite String.eqb_refl. Qed.

Lemma rc_set_other (rcParams : RcParams) (key k : string) (value : rcvalue) :
  k <> key -> rc.set rcParams key value k = rcParams k.
Proof.
  intro H. unfold rc.set. apply String.eqb_neq in H. now rewrite H.
Qed.

Lemma setitem_inr (rcParams rcParams' : RcParams) (key : string)
  (value : rcvalue) :
  rc.setitem validate rcParams key value = inr rcParams' ->
  exists old stored,
    rcParams key = Some old /\ validate key value = Some stored
    /\ rcParams' = rc.set rcParams key stored.
Proof.
  unfold rc.setitem. destruct (rcParams key) as [old|]; [|discriminate].
  destruct (validate key value) as [stored|]; [|discriminate].
  intros [= <-]. now exists old, stored.
Qed.

(** The loop never touches a parameter outside the entries it is given,
    whether it finishes or raises. *)
Lemma apply_items_other (items previous : list (string * rcvalue))
  (rcParams : RcParams) (k : string) :
  ~ In k (map fst items) ->
  snd (rc.apply_items validate items previous rcParams) k = rcParams k.
Proof.
  revert previous rcParams.
  induction items as [|[key value] rest IH]; intros previous rcParams Hk;
    [reflexivity|].
  cbn [rc.apply_items].
  destruct (rc.setitem validate rcParams key value) as [e|rcParams'] eqn:Hs;
    [reflexivity|].
  apply setitem_inr in Hs as (old & stored & _ & _ & ->).
  rewrite IH by (intro H; apply Hk; now right).
  apply rc_set_other. intros ->. apply Hk. now left.
Qed.

(** When the loop finishes over entries with distinct keys, every entry was
    a known parameter with an accepted value, the collected dictionary holds
    the value each had before, in order, and each now holds its new value. *)
Lemma apply_items_returns (items previous previous' : list (string * rcvalue))
  (rcParams rcParams' : RcParams) :
  NoDup (map fst items) ->
  rc.apply_items validate items previous rcParams
  = ((None, previous'), rcParams') ->
  exists olds,
    previous' = previous ++ olds
    /\ map fst olds = map fst items
    /\ Forall (fun p => rcParams (fst p) = Some (snd p)) olds
    /\ Forall (fun kv => exists stored, validate (fst kv) (snd kv) = Some stored
                                        /\ rcParams' (fst kv) = Some stored)
              items.
Proof.
  revert previous rcParams.
  induction items as [|[key value] rest IH]; intros previous rcParams Hnd H.
  - injection H as <- <-. exists []. rewrite app_nil_r. repeat split; constructor.
  - cbn [rc.apply_items] in H. cbn [map fst] in Hnd.
    apply NoDup_cons_iff in Hnd as [Hnotin Hnd].
    destruct (rc.setitem validate rcParams key value) as [e|rcParams1] eqn:Hs;
      [discriminate|].
    apply setitem_inr in Hs as (old & stored & Hold & Hval & ->).
    rewrite Hold in H.
    pose proof (apply_items_other rest (previous ++ [(key, old)])
                  (rc.set rcParams key stored) key Hnotin) as Hkey.
    rewrite H in Hkey. cbn [snd] in Hkey. rewrite rc_set_same in Hkey.
    apply IH in H as (olds & -> & Hkeys & Holds & Hnew); [|exact Hnd].
    exists ((key, old) :: olds). repeat split.
    + now rewrite <- app_assoc.
    + cbn. now rewrite Hkeys.
    + constructor; [exact Hold|].
      apply Forall_forall. intros p Hp.
      pose proof (proj1 (Forall_forall _ _) Holds p Hp) as Hp'.
      cbv beta in Hp'. rewrite rc_set_other in Hp'; [exact Hp'|].
      intros E. apply Hnotin. rewrite <- E, <- Hkeys. now apply in_map.
    + constructor; [now exists stored | exact Hnew].
Qed.

(** The loop finishes whenever every entry is a known parameter with an
    accepted value. *)
Lemma apply_items_finishes (items previous : list (string * rcvalue))
  (rcParams : RcParams) :
  NoDup (map fst items) ->
  Forall (fun kv => rcParams (fst kv) <> None
                    /\ validate (fst kv) (snd kv) <> None) items ->
  exists previous' rcParams',
    rc.apply_items validate items previous rcParams
    = ((None, previous'), rcParams').
Proof.
  revert previous rcParams.
  induction items as [|[key value] rest IH]; intros previous rcParams Hnd Hall.
  - now exists previous, rcParams.
  - cbn [map fst] in Hnd. apply NoDup_cons_iff in Hnd as [Hnotin Hnd].
    inversion Hall as [|kv l [Hkey Hval] Hrest]; subst. cbn [fst snd] in *.
    cbn [rc.apply_items]. unfold rc.setitem.
    destruct (rcParams key) as [old|]; [|congruence].
    destruct (validate key value) as [stored|]; [|congruence].
    apply IH; [exact Hnd|].
    apply Forall_forall. intros [k v] Hin.
    pose proof (proj1 (Forall_forall _ _) Hrest (k, v) Hin) as [Hk Hv].
    cbn [fst snd] in *. split; [|exact Hv].
    rewrite rc_set_other; [exact Hk|].
    intros E. apply Hnotin. rewrite <- E. change k with (fst (k, v)).
    now apply in_map.
Qed.

(** Writing the collected dictionary back restores the parameters, when the
    validators store the old values as they are. *)
Lemma update_restores (olds : list (string * rcvalue))
  (original rcParams : RcParams) :
  Forall (fun p => original (fst p) = Some (snd p)
                   /\ validate (fst p) (snd p) = Some (snd p)) olds ->
  (forall k, rcParams k <> None <-> original k <> None) ->
  (forall k, ~ In k (map fst olds) -> rcParams k = original k) ->
  exists restored,
    rc.update validate rcParams olds = inr restored
    /\ forall k, restored k = original k.
Proof.
  revert rcParams. induction olds as [|[key old] rest IH];
    intros rcParams Hall Hdom Hother.
  - exists rcParams. split; [reflexivity|]. intro k. now apply Hother.
  - inversion Hall as [|p l [Horig Hval] Hrest]; subst. cbn [fst snd] in *.
    cbn [rc.update]. unfold rc.setitem.
    destruct (rcParams key) as [cur|] eqn:Hcur.
    2:{ exfalso. apply (proj2 (Hdom key)); congruence. }
    rewrite Hval. apply IH; [exact Hrest| |].
    + intro k. unfold rc.set. destruct (String.eqb k key) eqn:E.
      * apply String.eqb_eq in E as ->. split; congruence.
      * apply Hdom.
    + intros k Hk. unfold rc.set. destruct (String.eqb k key) eqn:E.
      * apply String.eqb_eq in E as ->. now rewrite Horig.
      * apply Hother. cbn. intros [->|H]; [|contradiction].
        now rewrite String.eqb_refl in E.
Qed.

End RcFacts.

Lemma TUFTE_RC_PARAMS_keys_distinct : NoDup (map fst rc.TUFTE_RC_PARAMS).
Proof.
  apply (NoDup_count_occ' string_dec). intros k Hin.
  cbn in Hin.
  repeat (destruct Hin as [<-|Hin]; [vm_compute; reflexivity|]).
  contradiction.
Qed.

Section RcApply.

Variable validate : string -> rcvalue -> option rcvalue.
Variable items : list (string * rcvalue).
Hypothesis items_distinct : NoDup (map fst items).

Lemma apply_rcparams_other (rcParams : RcParams) (k : string) :
  ~ In k (map fst items) ->
  snd (rc.apply_rcparams validate items rcParams) k = rcParams k.
Proof.
  intro Hk.
  pose proof (apply_items_other validate items [] rcParams k Hk) as H.
  unfold rc.apply_rcparams.
  now destruct (rc.apply_items validate items [] rcParams)
    as [[[e|] previous] rcParams'].
Qed.

Lemma apply_rcparams_returns (rcParams rcParams' : RcParams)
  (previous_params : list (string * rcvalue)) :
  rc.apply_rcparams validate items rcParams = (inr previous_params, rcParams') ->
  map fst previous_params = map fst items
  /\ Forall (fun p => rcParams (fst p) = Some (snd p)) previous_params
  /\ Forall (fun kv => exists stored,
                 validate (fst kv) (snd kv) = Some stored
                 /\ rcParams' (fst kv) = Some stored)
            items.
Proof.
  intro H. unfold rc.apply_rcparams in H.
  destruct (rc.apply_items validate items [] rcParams)
    as [[[e|] previous] rcParams1] eqn:Hrun; [discriminate|].
  injection H as -> ->.
  apply apply_items_returns in Hrun as (olds & -> & Hkeys & Holds & Hnew);
    [|exact items_distinct].
  now cbn [app].
Qed.

Lemma apply_rcparams_returns_iff (rcParams : RcParams) :
  (exists previous_params rcParams',
      rc.apply_rcparams validate items rcParams
      = (inr previous_params, rcParams'))
  <-> Forall (fun kv => rcParams (fst kv) <> None
                        /\ validate (fst kv) (snd kv) <> None) items.
Proof.
  split.
  - intros (previous_params & rcParams' & H).
    apply apply_rcparams_returns in H as (Hkeys & Holds & Hnew).
    apply Forall_forall. intros kv Hin.
    pose proof (proj1 (Forall_forall _ _) Hnew kv Hin) as (stored & Hv & _).
    split; [|congruence].
    assert (In (fst kv) (map fst previous_params)) as Hk
      by (rewrite Hkeys; now apply in_map).
    apply in_map_iff in Hk as (p & Hp & Hinp).
    pose proof (proj1 (Forall_forall _ _) Holds p Hinp) as Hold.
    cbv beta in Hold. rewrite Hp in Hold. congruence.
  - intro Hall.
    destruct (apply_items_finishes validate items [] rcParams
                items_distinct Hall) as (previous' & rcParams' & H).
    exists previous', rcParams'. unfold rc.apply_rcparams. now rewrite H.
Qed.

Lemma apply_rcparams_restores (rcParams rcParams' : RcParams)
  (previous_params : list (string * rcvalue)) :
  (forall k v, rcParams k = Some v -> validate k v = Some v) ->
  rc.apply_rcparams validate items rcParams = (inr previous_params, rcParams') ->
  exists restored,
    rc.update validate rcParams' previous_params = inr restored
    /\ forall k, restored k = rcParams k.
Proof.
  intros Hvalid H.
  assert (forall k, ~ In k (map fst items) -> rcParams' k = rcParams k)
    as Hother.
  { intros k Hk. pose proof (apply_rcparams_other rcParams k Hk) as Hsame.
    now rewrite H in Hsame. }
  apply apply_rcparams_returns in H as (Hkeys & Holds & Hnew).
  apply update_restores.
  - apply Forall_forall. intros p Hp.
    pose proof (proj1 (Forall_forall _ _) Holds p Hp) as Hold.
    cbv beta in Hold. split; [exact Hold | now apply Hvalid].
  - intro k. destruct (in_dec string_dec k (map fst items)) as [Hin|Hnot].
    + apply in_map_iff in Hin as (kv & <- & Hkv).
      pose proof (proj1 (Forall_forall _ _) Hnew kv Hkv) as (stored & _ & Hs).
      assert (In (fst kv) (map fst previous_params)) as Hk
        by (rewrite Hkeys; now apply in_map).
      apply in_map_iff in Hk as (p & Hp & Hinp).
      pose proof (proj1 (Forall_forall _ _) Holds p Hinp) as Hold.
      cbv beta in Hold. rewrite Hp in Hold. split; congruence.
    + now rewrite Hother.
  - intros k Hk. apply Hother. now rewrite <- Hkeys.
Qed.

End RcApply.

Lemma forallb_Forall_present
  (validate : string -> rcvalue -> option rcvalue) (rcParams : RcParams)
  (items : list (string * rcvalue)) :
  forallb (fun kv => match rcParams (fst kv), validate (fst kv) (snd kv) with
                     | Some _, Some _ => true
                     | _, _ => false
                     end) items = true ->
  Forall (fun kv => rcParams (fst kv) <> None
                    /\ validate (fst kv) (snd kv) <> None) items.
Proof.
  intro H. apply Forall_forall. intros kv Hin.
  pose proof (proj1 (forallb_forall _ _) H kv Hin) as Hkv. cbv beta in Hkv.
  destruct (rcParams (fst kv)); [|discriminate].
  destruct (validate (fst kv) (snd kv)); [|discriminate].
  split; discriminate.
Qed.

Lemma not_in_keys (k : string) (keys : list string) :
  existsb (String.eqb k) keys = false -> ~ In k keys.
Proof.
  intros H Hin.
  assert (existsb (String.eqb k) keys = true) as Ht.
  { apply existsb_exists. exists k. split; [exact Hin | apply String.eqb_refl]. }
  congruence.
Qed.

(** X1: [apply_tufte_rcparams] changes no parameter other than the keys of
    [TUFTE_RC_PARAMS], whether it returns or raises. *)
Theorem apply_tufte_rcparams_leaves_other_keys
  (validate : string -> rcvalue -> option rcvalue) (rcParams : RcParams)
  (k : string) :
  ~ In k (map fst rc.TUFTE_RC_PARAMS) ->
  snd (rc.apply_tufte_rcparams validate rcParams) k = rcParams k.
Proof. apply apply_rcparams_other. Qed.

(** The backend is not a Tufte parameter and stays as it was. *)
Lemma apply_tufte_rcparams_leaves_other_keys_witness :
  snd (rc.apply_tufte_rcparams accept_all sample_rcParams) "backend"
  = Some (RcStr "agg").
Proof.
  apply (apply_tufte_rcparams_leaves_other_keys accept_all sample_rcParams
           "backend").
  apply not_in_keys. vm_compute. reflexivity.
Defined.

(** X2: [apply_tufte_rcparams] returns exactly when every key of
    [TUFTE_RC_PARAMS] is a parameter matplotlib knows and its value is
    accepted.  The dictionary it returns then lists those keys in order, each
    with the value it had before the call, and every one of them now holds
    its (validated) Tufte value. *)
Theorem apply_tufte_rcparams_returns
  (validate : string -> rcvalue -> option rcvalue) (rcParams : RcParams) :
  ((exists previous_params rcParams',
      rc.apply_tufte_rcparams validate rcParams
      = (inr previous_params, rcParams'))
   <-> Forall (fun kv => rcParams (fst kv) <> None
                         /\ validate (fst kv) (snd kv) <> None)
              rc.TUFTE_RC_PARAMS)
  /\ (forall previous_params rcParams',
         rc.apply_tufte_rcparams validate rcParams
         = (inr previous_params, rcParams') ->
         map fst previous_params = map fst rc.TUFTE_RC_PARAMS
         /\ Forall (fun p => rcParams (fst p) = Some (snd p)) previous_params
         /\ Forall (fun kv => exists stored,
                        validate (fst kv) (snd kv) = Some stored
                        /\ rcParams' (fst kv) = Some stored)
                   rc.TUFTE_RC_PARAMS).
Proof.
  split.
  - apply apply_rcparams_returns_iff. exact TUFTE_RC_PARAMS_keys_distinct.
  - intros previous_params rcParams'.
    apply apply_rcparams_returns. exact TUFTE_RC_PARAMS_keys_distinct.
Qed.

(** On parameters that all exist, the old values come back. *)
Lemma apply_tufte_rcparams_returns_witness :
  exists previous_params rcParams',
    rc.apply_tufte_rcparams accept_all sample_rcParams
    = (inr previous_params, rcParams').
Proof.
  apply (proj2 (proj1 (apply_tufte_rcparams_returns accept_all
                         sample_rcParams))).
  apply forallb_Forall_present. vm_compute. reflexivity.
Defined.

(** X3: the dictionary [apply_tufte_rcparams] returns is enough to undo the
    call: writing it back with [plt.rcParams.update] restores every
    parameter to its value before the call, provided the validators store the
    old values as they are. *)
Theorem apply_tufte_rcparams_restores
  (validate : string -> rcvalue -> option rcvalue) (rcParams rcParams' : RcParams)
  (previous_params : list (string * rcvalue)) :
  (forall k v, rcParams k = Some v -> validate k v = Some v) ->
  rc.apply_tufte_rcparams validate rcParams = (inr previous_params, rcParams') ->
  exists restored,
    rc.update validate rcParams' previous_params = inr restored
    /\ forall k, restored k = rcParams k.
Proof.
  apply apply_rcparams_restores. exact TUFTE_RC_PARAMS_keys_distinct.
Qed.

Lemma apply_tufte_rcparams_restores_witness :
  exists restored,
    rc.update accept_all (snd (rc.apply_tufte_rcparams accept_all sample_rcParams))
      (map (fun kv => (fst kv, RcStr "default")) rc.TUFTE_RC_PARAMS)
    = inr restored
    /\ forall k, restored k = sample_rcParams k.
Proof.
  apply (apply_tufte_rcparams_restores accept_all sample_rcParams).
  - intros k v _. reflexivity.
  - assert (fst (rc.apply_tufte_rcparams accept_all sample_rcParams)
            = inr (map (fun kv => (fst kv, RcStr "default")) rc.TUFTE_RC_PARAMS))
      as Hfst by (vm_compute; reflexivity).
    rewrite <- Hfst. apply surjective_pairing.
Defined.

(** ** The validator, continued *)

Section ValidatorMore.

Variable asarray : pyobj -> result ndarray.

(** X4: whatever [validate_data] returns is the converted input itself, a
    numeric array that is not empty and not all NaN; validating it again,
    under any name, returns it again. *)
Theorem validate_data_idempotent
  (data : pyobj) (name name' : string) (arr : ndarray) :
  validate_data asarray data name = Ok arr ->
  to_array asarray data = Ok arr
  /\ (exists xs, arr = NumArray xs /\ xs <> []
                 /\ existsb (fun x => negb (F.isnan x)) xs = true)
  /\ validate_data asarray (PyArray arr) name' = Ok arr.
Proof.
  intro H.
  destruct (validate_data_ok asarray data name arr H)
    as (xs & -> & Hne & Hnan & Hconv).
  split; [exact Hconv|]. split.
  - exists xs. split; [reflexivity|]. split; [exact Hne|].
    clear - Hnan. induction xs as [|x xs IH]; [discriminate|].
    cbn in *. destruct (F.isnan x); cbn in *; [auto | reflexivity].
  - rewrite validate_data_cases. cbn [to_array np_asarray].
    destruct xs as [|x xs]; [congruence|]. now rewrite Hnan.
Qed.

(** X5: when the validation of a list of series raises, the error is that
    of the first series that does not validate, reported under the name
    y[k] of its position; every series before it validated. *)
Theorem validate_each_first_failure
  (items : list pyobj) (i : nat) (e : exn) :
  validate_each asarray i items = Raise e ->
  exists k y_k,
    nth_error items k = Some y_k
    /\ validate_data asarray y_k ("y[" ++ string_of_nat (i + k) ++ "]")%string
       = Raise e
    /\ forall j, (j < k)%nat ->
         exists y_j arr,
           nth_error items j = Some y_j
           /\ validate_data asarray y_j
                ("y[" ++ string_of_nat (i + j) ++ "]")%string = Ok arr.
Proof.
  revert i. induction items as [|y items IH]; intros i H; [discriminate|].
  cbn [validate_each] in H.
  destruct (validate_data asarray y ("y[" ++ string_of_nat i ++ "]")%string)
    as [arr|e0] eqn:Hy.
  - cbn [bind] in H.
    destruct (validate_each asarray (S i) items) as [arrs|e1] eqn:Hrest;
      [discriminate|].
    injection H as ->.
    destruct (IH (S i) Hrest) as (k & y_k & Hnth & Hfail & Hbefore).
    exists (S k), y_k. split; [exact Hnth|]. split.
    + now replace (i + S k)%nat with (S i + k)%nat by lia.
    + intros [|j] Hj.
      * exists y, arr. split; [reflexivity|]. now rewrite Nat.add_0_r.
      * destruct (Hbefore j ltac:(lia)) as (y_j & arr_j & Hj1 & Hj2).
        exists y_j, arr_j. split; [exact Hj1|].
        now replace (i + S j)%nat with (S i + j)%nat by lia.
  - injection H as ->. exists 0%nat, y. split; [reflexivity|]. split.
    + now rewrite Nat.add_0_r.
    + intros j Hj. lia.
Qed.

End ValidatorMore.

(** An empty second series among three. *)
Lemma validate_each_first_failure_witness :
  exists k y_k,
    nth_error [PyArray (NumArray [fin 1]); PyArray (NumArray []);
               PyArray (NumArray [])] k = Some y_k
    /\ validate_data flat_asarray y_k ("y[" ++ string_of_nat (0 + k) ++ "]")%string
       = Raise (Exn ValueError "y[1] is empty").
Proof.
  destruct (validate_each_first_failure flat_asarray
              [PyArray (NumArray [fin 1]); PyArray (NumArray []);
               PyArray (NumArray [])] 0 (Exn ValueError "y[1] is empty")
              eq_refl) as (k & y_k & Hnth & Hfail & _).
  now exists k, y_k.
Defined.

Lemma validate_data_idempotent_witness :
  validate_data flat_asarray (PyArray (NumArray [fin 1; nan; fin 3])) "again"
  = Ok (NumArray [fin 1; nan; fin 3]).
Proof.
  apply (validate_data_idempotent flat_asarray
           (PyList [PyFloat (fin 1); PyFloat nan; PyFloat (fin 3)]) "data").
  reflexivity.
Defined.

(** X6: the length check of [line] passes exactly when every series has the
    length of x; otherwise it raises [ValueError] naming the first series
    whose length differs. *)
Theorem check_lengths_first_mismatch
  (x_array : ndarray) (y_arrays : list ndarray) :
  (check_lengths 0 y_arrays x_array = Ok tt
   <-> Forall (fun y_arr => np.size y_arr = np.size x_array) y_arrays)
  /\ (forall e,
         check_lengths 0 y_arrays x_array = Raise e ->
         exists k y_k,
           nth_error y_arrays k = Some y_k
           /\ np.size y_k <> np.size x_array
           /\ (forall j y_j, (j < k)%nat -> nth_error y_arrays j = Some y_j ->
                             np.size y_j = np.size x_array)
           /\ e = Exn ValueError
                    ("x and y[" ++ string_of_nat k
                     ++ "] must have the same length")%string).
Proof.
  assert (forall i,
            (check_lengths i y_arrays x_array = Ok tt
             <-> Forall (fun y_arr => np.size y_arr = np.size x_array) y_arrays)
            /\ (forall e,
                   check_lengths i y_arrays x_array = Raise e ->
                   exists k y_k,
                     nth_error y_arrays k = Some y_k
                     /\ np.size y_k <> np.size x_array
                     /\ (forall j y_j, (j < k)%nat ->
                                       nth_error y_arrays j = Some y_j ->
                                       np.size y_j = np.size x_array)
                     /\ e = Exn ValueError
                              ("x and y[" ++ string_of_nat (i + k)
                               ++ "] must have the same length")%string)) as H.
  { induction y_arrays as [|y rest IH]; intro i.
    - split; [split; [constructor | reflexivity] | discriminate].
    - cbn [check_lengths].
      destruct (Nat.eqb (np.size y) (np.size x_array)) eqn:E; cbn [negb].
      + apply Nat.eqb_eq in E. destruct (IH (S i)) as [Hok Hfail]. split.
        * rewrite Hok. split; [now constructor | now inversion 1].
        * intros e He. destruct (Hfail e He) as (k & y_k & Hn & Hne & Hb & ->).
          exists (S k), y_k. repeat split; try assumption.
          -- intros [|j] y_j Hj Hnth; [now injection Hnth as <-|].
             apply (Hb j); [lia | exact Hnth].
          -- now replace (i + S k)%nat with (S i + k)%nat by lia.
      + apply Nat.eqb_neq in E. split.
        * split; [discriminate | inversion 1; contradiction].
        * intros e [= <-]. exists 0%nat, y. repeat split; try assumption.
          -- intros j y_j Hj. lia.
          -- now rewrite Nat.add_0_r. }
  exact (H 0%nat).
Qed.

(** x of length 2 against series of lengths 2 and 3. *)
Lemma check_lengths_first_mismatch_witness :
  exists k y_k,
    nth_error [NumArray [fin 1; fin 2]; NumArray [fin 1; fin 2; fin 3]] k
    = Some y_k
    /\ k = 1%nat.
Proof.
  destruct (proj2 (check_lengths_first_mismatch (NumArray [fin 0; fin 1])
                     [NumArray [fin 1; fin 2]; NumArray [fin 1; fin 2; fin 3]])
              (Exn ValueError "x and y[1] must have the same length") eq_refl)
    as (k & y_k & Hnth & Hne & Hbefore & He).
  exists k, y_k. split; [exact Hnth|].
  destruct k as [|[|k]]; [|reflexivity|].
  - injection Hnth as <-. now contradiction Hne.
  - destruct k; discriminate.
Defined.

(** ** The percentage normaliser, continued *)

Lemma count_le_sum (l : list Z) (c : Z) :
  Forall (fun c => (0 <= c)%Z) l -> In c l -> (0 <= c <= np.sum l)%Z.
Proof.
  induction 1 as [|d l Hd Hl IH]; intro Hin; [contradiction|].
  change (np.sum (d :: l)) with (d + np.sum l)%Z.
  assert (0 <= np.sum l)%Z as Hs.
  { clear - Hl. induction Hl as [|x l Hx _ IH]; [cbn; lia|].
    change (np.sum (x :: l)) with (x + np.sum l)%Z. lia. }
  destruct Hin as [->|Hin]; [lia|]. specialize (IH Hin). lia.
Qed.

Lemma percentage_in_range (c total : Z) :
  (0 <= c <= total)%Z -> (0 < total)%Z ->
  0 <= inject_Z c / inject_Z total * 100
  /\ inject_Z c / inject_Z total * 100 <= 100.
Proof.
  intros [Hc Hct] Hpos.
  assert (0 < inject_Z total) as Ht
    by (change 0 with (inject_Z 0); now rewrite <- Zlt_Qlt).
  assert (0 <= inject_Z c) as Hc'
    by (change 0 with (inject_Z 0); now rewrite <- Zle_Qle).
  assert (inject_Z c <= inject_Z total) as Hct' by now rewrite <- Zle_Qle.
  assert (0 <= inject_Z c / inject_Z total) as H0
    by (apply Qle_shift_div_l; [exact Ht | lra]).
  assert (inject_Z c / inject_Z total <= 1) as H1
    by (apply Qle_shift_div_r; [exact Ht | lra]).
  split; lra.
Qed.

Lemma Ok_pair_inj {A B} (a c : A) (b d : B) :
  Ok (a, b) = Ok (c, d) -> a = c /\ b = d.
Proof. intros [= -> ->]. now split. Qed.

(** X7: every percentage [normalize_to_percentage] returns is a number
    between 0 and 100; the result never holds NaN or an infinity. *)
Theorem percentages_between_0_and_100
  (selectors : string -> option (list float64 -> positive))
  (data : ndarray) (bins : bins_spec) (percentages edges : list float64) :
  normalize_to_percentage selectors data bins = Ok (percentages, edges) ->
  Forall (fun p => exists q, p = fin q /\ 0 <= q /\ q <= 100) percentages.
Proof.
  intro H.
  destruct (normalize_to_percentage_inv selectors _ _ _ _ H) as (counts & Hh & _).
  rewrite (normalize_to_percentage_eq selectors _ _ _ _ Hh) in H.
  apply Ok_pair_inj in H as [<- _].
  pose proof (histogram_counts_nonnegative selectors _ _ _ _ Hh) as Hnn.
  apply Forall_forall. intros p Hp.
  destruct (0 <? np.sum counts)%Z eqn:Hpos.
  - apply Z.ltb_lt in Hpos.
    apply in_map_iff in Hp as (c & Hp & Hc).
    rewrite (percentage_of_count c _ Hpos) in Hp. subst p.
    eexists. split; [reflexivity|].
    apply percentage_in_range; [now apply count_le_sum | exact Hpos].
  - apply Z.ltb_ge in Hpos.
    apply in_map_iff in Hp as (c & <- & Hc).
    pose proof (count_le_sum counts c Hnn Hc) as Hc'.
    assert (c = 0%Z) as -> by lia.
    exists 0. split; [reflexivity|]. split; lra.
Qed.

Lemma percentages_between_0_and_100_witness :
  Forall (fun p => exists q, p = fin q /\ 0 <= q /\ q <= 100)
         [fin (100 # 6); fin (200 # 6); fin (300 # 6)].
Proof.
  apply (percentages_between_0_and_100 sturges_selectors
           (NumArray [fin 1; fin 2; fin 2; fin 3; fin 3; fin 3])
           (BinsEdges [1; 2; 3; 4]) _ [fin 1; fin 2; fin 3; fin 4]).
  reflexivity.
Defined.

(** Repeating a sample multiplies every count. *)
Lemma filter_repeated {A} (p : A -> bool) (l : list A) (k : nat) :
  List.length (filter p (concat (repeat l k)))
  = (k * List.length (filter p l))%nat.
Proof.
  induction k as [|k IH]; [reflexivity|].
  cbn [repeat concat]. rewrite filter_app, length_app, IH. lia.
Qed.

Lemma diff_scaled (k : Z) (l : list Z) :
  np.diff (map (Z.mul k) l) = map (Z.mul k) (np.diff l).
Proof.
  induction l as [|a [|b l] IH]; [reflexivity | reflexivity |].
  change (np.diff (map (Z.mul k) (a :: b :: l)))
    with ((k * b - k * a)%Z :: np.diff (map (Z.mul k) (b :: l))).
  change (np.diff (a :: b :: l)) with ((b - a)%Z :: np.diff (b :: l)).
  rewrite IH. cbn [map]. f_equal. lia.
Qed.

Lemma sum_scaled (k : Z) (l : list Z) :
  np.sum (map (Z.mul k) l) = (k * np.sum l)%Z.
Proof.
  induction l as [|a l IH]; [cbn; lia|].
  change (np.sum (map (Z.mul k) (a :: l)))
    with (k * a + np.sum (map (Z.mul k) l))%Z.
  change (np.sum (a :: l)) with (a + np.sum l)%Z. rewrite IH. lia.
Qed.

Lemma search_sorted_inclusive_repeated (xs : list float64) (e : list Q)
  (k : nat) :
  np.search_sorted_inclusive (concat (repeat xs k)) e
  = map (Z.mul (Z.of_nat k)) (np.search_sorted_inclusive xs e).
Proof.
  unfold np.search_sorted_inclusive. rewrite map_app, !map_map.
  f_equal; apply map_ext; intro v;
    unfold np.searchsorted_left, np.searchsorted_right;
    rewrite filter_repeated; lia.
Qed.

(** X8: over fixed bin edges the percentages depend on the proportions of
    the sample only: a sample repeated [k >= 1] times over gets the same
    bin edges and, bin by bin, the same percentages. *)
Theorem percentages_of_repeated_sample
  (selectors : string -> option (list float64 -> positive))
  (xs : list float64) (bin_edges : list Q) (k : nat)
  (percentages edges : list float64) :
  (1 <= k)%nat ->
  normalize_to_percentage selectors (NumArray xs) (BinsEdges bin_edges)
  = Ok (percentages, edges) ->
  exists repeated,
    normalize_to_percentage selectors (NumArray (concat (repeat xs k)))
      (BinsEdges bin_edges)
    = Ok (repeated, edges)
    /\ Forall2 same_value repeated percentages.
Proof.
  intros Hk H.
  destruct (normalize_to_percentage_inv selectors _ _ _ _ H) as (counts & Hh & _).
  rewrite (normalize_to_percentage_eq selectors _ _ _ _ Hh) in H.
  apply Ok_pair_inj in H as [<- _].
  pose proof (histogram_counts_nonnegative selectors _ _ _ _ Hh) as Hnn.
  apply histogram_inv in Hh as (xs' & e & [= <-] & He & -> & ->).
  assert (np.histogram selectors (NumArray (concat (repeat xs k)))
            (BinsEdges bin_edges)
          = Ok (map (Z.mul (Z.of_nat k))
                    (np.diff (np.search_sorted_inclusive xs e)), map fin e))
    as Hrep.
  { unfold np.histogram. cbn [np.values bind np.get_bin_edges] in He |- *.
    destruct (np.any_decreasing bin_edges); [discriminate|].
    injection He as <-. cbn [bind].
    now rewrite search_sorted_inclusive_repeated, diff_scaled. }
  set (counts := np.diff (np.search_sorted_inclusive xs e)) in *.
  eexists. split.
  - rewrite (normalize_to_percentage_eq selectors _ _ _ _ Hrep). reflexivity.
  - rewrite sum_scaled.
    destruct (0 <? np.sum counts)%Z eqn:Hpos.
    + apply Z.ltb_lt in Hpos.
      assert (0 < Z.of_nat k * np.sum counts)%Z as Hpos' by nia.
      rewrite (proj2 (Z.ltb_lt _ _) Hpos'). rewrite map_map.
      clear Hnn Hrep. revert Hpos Hpos'. generalize (np.sum counts) as total.
      intros total Hpos Hpos'.
      assert (0 < inject_Z (Z.of_nat k)) as Hk'
        by (change 0 with (inject_Z 0); rewrite <- Zlt_Qlt; lia).
      assert (0 < inject_Z total) as Ht
        by (change 0 with (inject_Z 0); now rewrite <- Zlt_Qlt).
      induction counts as [|c l IH]; [constructor|].
      cbn [map]. constructor; [|exact IH].
      rewrite !percentage_of_count by assumption. cbn [same_value].
      rewrite !inject_Z_mult. field. split; lra.
    + apply Z.ltb_ge in Hpos.
      assert (Forall (fun c => c = 0%Z) counts) as Hzero.
      { apply Forall_forall. intros c Hc.
        pose proof (count_le_sum counts c Hnn Hc). lia. }
      assert ((0 <? Z.of_nat k * np.sum counts)%Z = false) as ->
        by (apply Z.ltb_ge; nia).
      rewrite map_map. clear Hnn Hpos Hrep.
      induction Hzero as [|c l -> _ IH]; [constructor|].
      cbn [map]. constructor; [|exact IH].
      rewrite Z.mul_0_r. cbn. lra.
Qed.

(** The sample [1,2,2,3,3,3] taken twice. *)
Lemma percentages_of_repeated_sample_witness :
  exists repeated,
    normalize_to_percentage sturges_selectors
      (NumArray (concat (repeat [fin 1; fin 2; fin 2; fin 3; fin 3; fin 3] 2)))
      (BinsEdges [1; 2; 3; 4])
    = Ok (repeated, [fin 1; fin 2; fin 3; fin 4])
    /\ Forall2 same_value repeated
         [fin (100 # 6); fin (200 # 6); fin (300 # 6)].
Proof.
  apply (percentages_of_repeated_sample sturges_selectors
           [fin 1; fin 2; fin 2; fin 3; fin 3; fin 3] [1; 2; 3; 4] 2).
  - lia.
  - reflexivity.
Defined.

(** ** The range frame, continued *)

Lemma sub_finite (a b : float64) :
  F.isfinite (a - b)%f64 = true -> F.isfinite a = true /\ F.isfinite b = true.
Proof. destruct a, b; cbn; intuition congruence. Qed.

Lemma add_finite (a b : float64) :
  F.isfinite (a + b)%f64 = true -> F.isfinite a = true /\ F.isfinite b = true.
Proof. destruct a, b; cbn; intuition congruence. Qed.

(** The extremes numpy finds in a non-empty array, and what their being
    finite says of the array. *)
Lemma extremes (xs : list float64) :
  xs <> [] ->
  exists lo hi,
    np.min (NumArray xs) = Ok lo /\ np.max (NumArray xs) = Ok hi
    /\ (F.isfinite lo && F.isfinite hi = true -> forallb F.isfinite xs = true).
Proof.
  intro Hne. destruct xs as [|x xs]; [congruence|].
  exists (fold_left np.minimum xs x), (fold_left np.maximum xs x).
  split; [reflexivity|]. split; [reflexivity|].
  intro Hfin. apply andb_true_iff in Hfin as [Hlo Hhi].
  destruct (fold_left np.minimum xs x) as [| | |lo] eqn:Hmin; try discriminate.
  destruct (fold_left np.maximum xs x) as [| | |hi] eqn:Hmax; try discriminate.
  apply (get_outer_edges_finite (x :: xs)
           (if Qeq_bool lo hi then (lo - 0.5, hi + 0.5) else (lo, hi))).
  cbn [np.get_outer_edges np.reduce bind]. rewrite Hmin, Hmax.
  now destruct (Qeq_bool lo hi).
Qed.

Lemma finite_extremes (xs : list float64) :
  xs <> [] -> forallb F.isfinite xs = true ->
  exists lo hi,
    np.min (NumArray xs) = Ok (fin lo) /\ np.max (NumArray xs) = Ok (fin hi)
    /\ lo <= hi.
Proof.
  intros Hne Hfin. destruct xs as [|x xs]; [congruence|].
  cbn in Hfin. apply andb_true_iff in Hfin as [Hx Hxs].
  destruct x as [| | |a]; try discriminate.
  destruct (fold_minimum_finite xs a Hxs) as (m & Hm & Hma & _).
  destruct (fold_maximum_finite xs a Hxs) as (M & HM & HaM & _).
  exists m, M. cbn. rewrite Hm, HM. repeat split; lra.
Qed.









Section RangeFrameMore.

Variables (ax : nat) (st : Plt).

(** A range frame on finite data: the limits it sets and the bounds of the
    spine, on either axis. *)
Lemma finite_frame
  (xs : list float64) (pad : Q) (other_pad : float64) :
  xs <> [] -> forallb F.isfinite xs = true -> 0 <= pad ->
  exists lo hi x_min x_max,
    lo < hi /\ lo <= x_min /\ x_min <= x_max /\ x_max <= hi
    /\ np.min (NumArray xs) = Ok (fin x_min)
    /\ np.max (NumArray xs) = Ok (fin x_max)
    /\ (let r := range_frame ax (Some (NumArray xs)) None (fin pad) other_pad st in
        fst r = Ok tt
        /\ mpl.get_xlim (snd r) ax = (Some (fin lo), Some (fin hi))
        /\ bottom_bounds (snd r) ax = Some (fin x_min, fin x_max))
    /\ (let r := range_frame ax None (Some (NumArray xs)) other_pad (fin pad) st in
        fst r = Ok tt
        /\ mpl.get_ylim (snd r) ax = (Some (fin lo), Some (fin hi))
        /\ left_bounds (snd r) ax = Some (fin x_min, fin x_max)).
Proof.
  intros Hne Hfin Hpad.
  destruct (finite_extremes xs Hne Hfin) as (m & M & Hmin & Hmax & HmM).
  destruct (fin 0 <? fin M - fin m)%f64 eqn:Hrange.
  - assert (m < M) as Hlt by (cbn in Hrange; apply Qlt_bool_iff in Hrange; lra).
    exists (m - pad * (M - m)), (M + pad * (M - m)), m, M.
    pose proof (frame_x_effect ax st (m - pad * (M - m)) (M + pad * (M - m)) m M)
      as Ex.
    pose proof (frame_y_effect ax st (m - pad * (M - m)) (M + pad * (M - m)) m M)
      as Ey.
    cbv zeta in Ex, Ey |- *.
    split; [nra|]. split; [nra|]. split; [lra|]. split; [nra|].
    split; [exact Hmin|]. split; [exact Hmax|]. split.
    + unfold range_frame.
      rewrite Hmin, Hmax, mbind_ret_tt, !mbind_lift. cbv beta zeta.
      rewrite Hrange. tauto.
    + unfold range_frame.
      rewrite Hmin, Hmax, mbind_ret, !mbind_lift. cbv beta zeta.
      rewrite Hrange. tauto.
  - assert (M <= m) as Hle.
    { cbn in Hrange. apply Qlt_bool_false in Hrange. lra. }
    exists (m - 0.5), (M + 0.5), m, M.
    pose proof (frame_x_effect ax st (m - 0.5) (M + 0.5) m M) as Ex.
    pose proof (frame_y_effect ax st (m - 0.5) (M + 0.5) m M) as Ey.
    cbv zeta in Ex, Ey |- *.
    split; [lra|]. split; [lra|]. split; [lra|]. split; [lra|].
    split; [exact Hmin|]. split; [exact Hmax|]. split.
    + unfold range_frame.
      rewrite Hmin, Hmax, mbind_ret_tt, !mbind_lift. cbv beta zeta.
      rewrite Hrange. tauto.
    + unfold range_frame.
      rewrite Hmin, Hmax, mbind_ret, !mbind_lift. cbv beta zeta.
      rewrite Hrange. tauto.
Qed.


(** The limits [range_frame] asks for are finite only if both extremes of
    the data are. *)
Lemma frame_limits_finite (lo hi pad : float64) :
  (if (fin 0 <? hi - lo)%f64
   then F.isfinite (lo - pad * (hi - lo))%f64
        && F.isfinite (hi + pad * (hi - lo))%f64
   else F.isfinite (lo - fin 0.5)%f64 && F.isfinite (hi + fin 0.5)%f64) = true ->
  F.isfinite lo && F.isfinite hi = true.
Proof.
  intro H. apply andb_true_iff.
  destruct (fin 0 <? hi - lo)%f64; apply andb_true_iff in H as [Hlo Hhi];
    apply sub_finite in Hlo as [Hlo _]; apply add_finite in Hhi as [Hhi _];
    now split.
Qed.

(** A range frame on data that holds NaN or an infinity. *)
Lemma non_finite_frame
  (xs : list float64) (other : option ndarray) (pad other_pad : float64) :
  xs <> [] -> forallb F.isfinite xs = false ->
  range_frame ax (Some (NumArray xs)) other pad other_pad st
  = (Raise (Exn ValueError "Axis limits cannot be NaN or Inf"), st)
  /\ range_frame ax None (Some (NumArray xs)) other_pad pad st
     = (Raise (Exn ValueError "Axis limits cannot be NaN or Inf"), st).
Proof.
  intros Hne Hnf.
  destruct (extremes xs Hne) as (lo & hi & Hmin & Hmax & Hfin).
  pose proof (frame_limits_finite lo hi pad) as Hlim.
  assert (F.isfinite lo && F.isfinite hi = false) as Hext.
  { destruct (F.isfinite lo && F.isfinite hi); [|reflexivity].
    rewrite Hfin in Hnf; [discriminate | reflexivity]. }
  split.
  - unfold range_frame. rewrite Hmin, Hmax. unfold mbind at 1.
    rewrite !mbind_lift. cbv beta zeta.
    destruct (fin 0 <? hi - lo)%f64; unfold mpl.set_xlim;
      match goal with
      | |- context [if ?c then mpl.put_xlim _ _ else _] =>
          destruct c; [rewrite Hlim in Hext by reflexivity; discriminate|]
      end; reflexivity.
  - unfold range_frame. rewrite Hmin, Hmax, mbind_ret.
    rewrite !mbind_lift. cbv beta zeta.
    destruct (fin 0 <? hi - lo)%f64; unfold mpl.set_ylim;
      match goal with
      | |- context [if ?c then mpl.put_ylim _ _ else _] =>
          destruct c; [rewrite Hlim in Hext by reflexivity; discriminate|]
      end; reflexivity.
Qed.

(** X10: on a non-empty array that holds NaN or an infinity [range_frame]
    raises matplotlib's [ValueError] for the limits and changes nothing,
    whatever the padding; the other axis is not reached when x fails. *)
Theorem range_frame_rejects_non_finite
  (xs : list float64) (other : option ndarray) (pad other_pad : float64) :
  xs <> [] -> forallb F.isfinite xs = false ->
  range_frame ax (Some (NumArray xs)) other pad other_pad st
  = (Raise (Exn ValueError "Axis limits cannot be NaN or Inf"), st)
  /\ range_frame ax None (Some (NumArray xs)) other_pad pad st
     = (Raise (Exn ValueError "Axis limits cannot be NaN or Inf"), st).
Proof. apply non_finite_frame. Qed.

End RangeFrameMore.


(** The data of a line with a gap: [1, NaN, 3]. *)
Lemma range_frame_rejects_non_finite_witness :
  range_frame 0 (Some (NumArray [fin 1; nan; fin 3])) None (fin 0.02)
    (fin 0.02) mpl.empty
  = (Raise (Exn ValueError "Axis limits cannot be NaN or Inf"), mpl.empty).
Proof.
  apply (range_frame_rejects_non_finite 0 mpl.empty [fin 1; nan; fin 3]).
  - discriminate.
  - reflexivity.
Defined.

(** ** The entry points and the figures *)

Section Fields.

Context {T : Type} (g : Axes -> T) (ax : nat).

(** An update of one axes object that keeps a field leaves that field of
    every axes as it was. *)
Lemma modify_field (h : nat) (f : Axes -> Axes) :
  (forall a, g (f a) = g a) ->
  preserves (fun st => g (axes_of st ax)) (mpl.modify h f).
Proof.
  intros Hf st. cbn. unfold mpl.update.
  destruct (Nat.eqb ax h) eqn:E; [|reflexivity].
  apply Nat.eqb_eq in E as ->. apply Hf.
Qed.

Lemma put_xlim_field (h : nat) (l : limits) :
  preserves (fun st => g (axes_of st ax)) (mpl.put_xlim h l).
Proof. now intro st. Qed.

Lemma put_ylim_field (h : nat) (l : limits) :
  preserves (fun st => g (axes_of st ax)) (mpl.put_ylim h l).
Proof. now intro st. Qed.

Lemma set_xlim_left_field (h : nat) (lo : float64) :
  preserves (fun st => g (axes_of st ax)) (mpl.set_xlim_left h lo).
Proof. intro st. unfold mpl.set_xlim_left. now destruct (F.isfinite lo). Qed.

Lemma set_ylim_bottom_field (h : nat) (lo : float64) :
  preserves (fun st => g (axes_of st ax)) (mpl.set_ylim_bottom h lo).
Proof. intro st. unfold mpl.set_ylim_bottom. now destruct (F.isfinite lo). Qed.

End Fields.

Lemma modify_figures (h : nat) (f : Axes -> Axes) :
  preserves figures (mpl.modify h f).
Proof. now intro st. Qed.

Lemma put_xlim_figures (h : nat) (l : limits) :
  preserves figures (mpl.put_xlim h l).
Proof. now intro st. Qed.

Lemma put_ylim_figures (h : nat) (l : limits) :
  preserves figures (mpl.put_ylim h l).
Proof. now intro st. Qed.

Lemma set_xlim_left_figures (h : nat) (lo : float64) :
  preserves figures (mpl.set_xlim_left h lo).
Proof. intro st. unfold mpl.set_xlim_left. now destruct (F.isfinite lo). Qed.

Lemma set_ylim_bottom_figures (h : nat) (lo : float64) :
  preserves figures (mpl.set_ylim_bottom h lo).
Proof. intro st. unfold mpl.set_ylim_bottom. now destruct (F.isfinite lo). Qed.

Lemma add_subplot_figures (fig : nat) (cell : option (nat * nat))
  (sharex sharey : option nat) :
  preserves figures (mpl.add_subplot fig cell sharex sharey).
Proof. now intro st. Qed.

Lemma get_figure_preserves {T} (obs : Plt -> T) (h : nat) :
  preserves obs (mpl.get_figure h).
Proof. now intro st. Qed.

(** The plotting loop keeps whatever adding a line keeps. *)
Lemma plot_lines_preserves {T} (obs : Plt -> T) (ax : nat) (x_array : ndarray)
  (markers : bool) (series : list (ndarray * string * option string)) :
  (forall art, preserves obs (mpl.add_artist ax art)) ->
  preserves obs (plot_lines ax x_array markers series).
Proof.
  intro Hadd. induction series as [|[[y color] label] series IH]; cbn.
  - apply preserves_ret.
  - repeat (apply preserves_bind; [|intros]); try apply preserves_lift.
    + unfold mpl.plot. destruct (mpl.same_length _ _);
        [apply Hadd | apply preserves_raise].
    + exact IH.
Qed.

(** Breaks a composite call into its primitive calls, for an observation
    that reads the figures or one field of an axes object. *)
Ltac frame_step :=
  lazymatch goal with
  | |- preserves _ (ret _) => apply preserves_ret
  | |- preserves _ (raise _ _) => apply preserves_raise
  | |- preserves _ (lift _) => apply preserves_lift
  | |- preserves _ (when _ _) => apply preserves_when
  | |- preserves _ (mbind _ _) => apply preserves_bind; [|intros]
  | |- preserves _ (mpl.get_figure _) => apply get_figure_preserves
  | |- preserves _ (plot_lines _ _ _ _) => apply plot_lines_preserves; intros
  | |- preserves figures (mpl.put_xlim _ _) => apply put_xlim_figures
  | |- preserves figures (mpl.put_ylim _ _) => apply put_ylim_figures
  | |- preserves figures (mpl.set_xlim_left _ _) => apply set_xlim_left_figures
  | |- preserves figures (mpl.set_ylim_bottom _ _) =>
      apply set_ylim_bottom_figures
  | |- preserves figures (mpl.add_subplot _ _ _ _) => apply add_subplot_figures
  | |- preserves figures (mpl.modify _ _) => apply modify_figures
  | |- preserves _ (mpl.put_xlim _ _) => apply put_xlim_field
  | |- preserves _ (mpl.put_ylim _ _) => apply put_ylim_field
  | |- preserves _ (mpl.set_xlim_left _ _) => apply set_xlim_left_field
  | |- preserves _ (mpl.set_ylim_bottom _ _) => apply set_ylim_bottom_field
  | |- preserves _ (mpl.modify _ _) => apply modify_field; intros; reflexivity
  | |- preserves _ (if ?b then _ else _) => destruct b
  | |- preserves _ (match ?x with _ => _ end) => destruct x
  | |- preserves _ (mpl.set_xlim _ _ _) => unfold mpl.set_xlim
  | |- preserves _ (mpl.set_ylim _ _ _) => unfold mpl.set_ylim
  | |- preserves _ (mpl.spine_set_bounds _ _ _ _) =>
      unfold mpl.spine_set_bounds
  | |- preserves _ (mpl.spine_set_visible _ _ _) =>
      unfold mpl.spine_set_visible
  | |- preserves _ (mpl.set_title _ _) => unfold mpl.set_title
  | |- preserves _ (mpl.set_xlabel _ _) => unfold mpl.set_xlabel
  | |- preserves _ (mpl.set_ylabel _ _) => unfold mpl.set_ylabel
  | |- preserves _ (mpl.set_major_locators _ _) =>
      unfold mpl.set_major_locators
  | |- preserves _ (mpl.tick _ _) => unfold mpl.tick
  | |- preserves _ (mpl.show_legend _) => unfold mpl.show_legend
  | |- preserves _ (mpl.add_artist _ _) => unfold mpl.add_artist
  | |- preserves _ (mpl.bar _ _ _ _ _ _ _) => unfold mpl.bar
  | |- preserves _ (mpl.scatter _ _ _ _ _ _) => unfold mpl.scatter
  | |- preserves _ (despine _ _ _ _ _) => unfold despine
  | |- preserves _ (minimal_ticks _ _) => unfold minimal_ticks
  | |- preserves _ (set_tufte_style _) => unfold set_tufte_style
  | |- preserves _ (set_labels _ _ _ _) => unfold set_labels
  | |- preserves _ (hide_all_spines _) => unfold hide_all_spines
  | |- preserves _ (range_frame _ _ _ _ _) => unfold range_frame
  | |- preserves _ (create_figure_and_axes _ _) =>
      unfold create_figure_and_axes
  end.

Ltac frame := repeat frame_step.

Section Figures.

Variable selectors : string -> option (list float64 -> positive).
Variable asarray : pyobj -> result ndarray.

Lemma subplots_figures (figsize : Q * Q) (st : Plt) :
  exists st1,
    mpl.subplots figsize st = (Ok (List.length (figures st), n_axes st), st1)
    /\ figures st1 = figures st ++ [figsize].
Proof. eexists. split; reflexivity. Qed.

(** X11: what the three entry points do to the list of figures, whether
    they return or raise.  [histogram] and [line] open exactly one figure,
    of the size asked for, when the input passes validation and no axes was
    handed in, and none otherwise; [scatter] does the same without
    marginals, and with marginals opens one figure (8 by 8 unless a size is
    given) also when an axes was handed in.  Nothing ever closes or resizes
    a figure, so a call that fails after validation leaves its new figure
    behind. *)
Theorem entry_points_figures :
  (forall data bins title xlabel ylabel figsize ax color st,
      figures (snd (histogram selectors asarray data bins title xlabel ylabel
                              figsize ax color st))
      = match validate_data asarray data "data", ax with
        | Ok _, None => figures st ++ [figsize]
        | _, _ => figures st
        end)
  /\ (forall x y labels title xlabel ylabel figsize markers ax colors st,
         figures (snd (line asarray x y labels title xlabel ylabel figsize
                            markers ax colors st))
         = match validate_data asarray x "x", validate_y asarray y with
           | Ok x_array, Ok y_arrays =>
               match check_lengths 0 y_arrays x_array, ax with
               | Ok _, None => figures st ++ [figsize]
               | _, _ => figures st
               end
           | _, _ => figures st
           end)
  /\ (forall x y marginals title xlabel ylabel figsize color alpha size ax st,
         figures (snd (scatter selectors asarray x y marginals title xlabel
                               ylabel figsize color alpha size ax st))
         = match validate_data asarray x "x", validate_data asarray y "y" with
           | Ok x_array, Ok y_array =>
               if Nat.eqb (np.size x_array) (np.size y_array)
               then
                 match marginals, ax with
                 | true, _ =>
                     figures st ++ [match figsize with
                                    | Some f => f
                                    | None => styles.FIGURE_SIZES_square
                                    end]
                 | false, None =>
                     figures st ++ [match figsize with
                                    | Some f => f
                                    | None => styles.FIGURE_SIZES_default
                                    end]
                 | false, Some _ => figures st
                 end
               else figures st
           | _, _ => figures st
           end).
Proof.
  split; [|split].
  - intros. unfold histogram.
    destruct (validate_data asarray data "data") as [arr|e]; [|reflexivity].
    rewrite mbind_lift. destruct ax as [a|].
    + match goal with
      | |- figures (snd (?m st)) = _ =>
          assert (preserves figures m) as Hm by frame
      end.
      apply Hm.
    + destruct (subplots_figures figsize st) as (st1 & Hc & Hfig).
      unfold create_figure_and_axes. rewrite (mbind_step _ _ _ _ _ Hc).
      rewrite <- Hfig.
      match goal with
      | |- figures (snd (?m st1)) = _ =>
          assert (preserves figures m) as Hm by frame
      end.
      apply Hm.
  - intros. unfold line.
    destruct (validate_data asarray x "x") as [x_array|e]; [|reflexivity].
    rewrite mbind_lift.
    destruct (validate_y asarray y) as [y_arrays|e]; [|reflexivity].
    rewrite mbind_lift.
    destruct (check_lengths 0 y_arrays x_array) as [[]|e]; [|reflexivity].
    rewrite mbind_lift. destruct ax as [a|].
    + match goal with
      | |- figures (snd (?m st)) = _ =>
          assert (preserves figures m) as Hm by frame
      end.
      apply Hm.
    + destruct (subplots_figures figsize st) as (st1 & Hc & Hfig).
      unfold create_figure_and_axes. rewrite (mbind_step _ _ _ _ _ Hc).
      rewrite <- Hfig.
      match goal with
      | |- figures (snd (?m st1)) = _ =>
          assert (preserves figures m) as Hm by frame
      end.
      apply Hm.
  - intros. unfold scatter.
    destruct (validate_data asarray x "x") as [x_array|e]; [|reflexivity].
    rewrite mbind_lift.
    destruct (validate_data asarray y "y") as [y_array|e]; [|reflexivity].
    rewrite mbind_lift.
    destruct (Nat.eqb (np.size x_array) (np.size y_array)); [|reflexivity].
    cbn [negb]. destruct marginals; cbv beta iota zeta.
    + set (size_used := match figsize with Some f => f | None => _ end).
      unfold _scatter_with_marginals.
      assert (mpl.new_figure size_used st
              = (Ok (List.length (figures st)),
                 snd (mpl.new_figure size_used st))) as Hc by reflexivity.
      rewrite (mbind_step _ _ _ _ _ Hc).
      change (figures st ++ [size_used])
        with (figures (snd (mpl.new_figure size_used st))).
      match goal with
      | |- figures (snd (?m ?s)) = _ =>
          assert (preserves figures m) as Hm by frame
      end.
      apply Hm.
    + set (size_used := match figsize with Some f => f | None => _ end).
      unfold _scatter_basic. destruct ax as [a|].
      * match goal with
        | |- figures (snd (?m st)) = _ =>
            assert (preserves figures m) as Hm by frame
        end.
        apply Hm.
      * destruct (subplots_figures size_used st) as (st1 & Hc & Hfig).
        unfold create_figure_and_axes. rewrite (mbind_step _ _ _ _ _ Hc).
        rewrite <- Hfig.
        match goal with
        | |- figures (snd (?m st1)) = _ =>
            assert (preserves figures m) as Hm by frame
        end.
        apply Hm.
Qed.

End Figures.

(** ** Spines and styling *)

(** X12: [despine] only hides: on the axes it is given, a spine is visible
    afterwards exactly when it was visible before and was not selected; the
    spines of every other axes, and the bounds of every spine, stay as they
    were.  It never raises.  [set_tufte_style] is [despine] with the
    defaults (top and right) followed by tick settings that touch no spine. *)
Theorem despine_only_hides
  (ax h : nat) (top_ right_ left_ bottom_ : bool) (name : spine_name)
  (st : Plt) :
  let selected :=
    match name with
    | top => top_ | right => right_ | left => left_ | bottom => bottom_
    end in
  let defaults :=
    match name with top | right => true | left | bottom => false end in
  let r := despine ax top_ right_ left_ bottom_ st in
  let s := set_tufte_style ax st in
  fst r = Ok tt
  /\ visible (spines (axes_of (snd r) h) name)
     = visible (spines (axes_of st h) name) && negb (Nat.eqb h ax && selected)
  /\ bounds (spines (axes_of (snd r) h) name)
     = bounds (spines (axes_of st h) name)
  /\ fst s = Ok tt
  /\ visible (spines (axes_of (snd s) h) name)
     = visible (spines (axes_of st h) name) && negb (Nat.eqb h ax && defaults)
  /\ bounds (spines (axes_of (snd s) h) name)
     = bounds (spines (axes_of st h) name).
Proof.
  cbv zeta.
  assert (forall b, b && negb false = b) as Hkeep by (now intros []).
  assert (forall b, b && negb true = false) as Hhide by (now intros []).
  assert (forall t r l b,
             visible (spines (axes_of (snd (despine ax t r l b st)) h) name)
             = visible (spines (axes_of st h) name)
               && negb (Nat.eqb h ax
                        && match name with
                           | top => t | right => r | left => l | bottom => b
                           end)
             /\ bounds (spines (axes_of (snd (despine ax t r l b st)) h) name)
                = bounds (spines (axes_of st h) name)) as Hdespine.
  { intros t r l b. split.
    - destruct t, r, l, b, name; cbn;
        unfold mpl.update; destruct (Nat.eqb h ax) eqn:E; cbn;
        rewrite ?Nat.eqb_refl; cbn; rewrite ?Hkeep, ?Hhide;
        try reflexivity;
        apply Nat.eqb_eq in E; subst h; reflexivity.
    - destruct t, r, l, b, name; cbn;
        unfold mpl.update; destruct (Nat.eqb h ax) eqn:E; cbn;
        rewrite ?Nat.eqb_refl; cbn;
        try reflexivity;
        apply Nat.eqb_eq in E; subst h; reflexivity. }
  split; [now destruct top_, right_, left_, bottom_|].
  split; [apply Hdespine|]. split; [apply Hdespine|].
  split; [reflexivity|].
  unfold set_tufte_style.
  rewrite (mbind_step (despine ax true true false false) _ st
             (snd (despine ax true true false false st)) tt) by reflexivity.
  pose (gv := fun a : Axes => visible (spines a name)).
  pose (gb := fun a : Axes => bounds (spines a name)).
  match goal with
  | |- context [snd (?ticks (snd ?r))] =>
      assert (preserves (fun s => gv (axes_of s h)) ticks) as Hv by frame;
      assert (preserves (fun s => gb (axes_of s h)) ticks) as Hb by frame;
      specialize (Hv (snd r)); specialize (Hb (snd r))
  end.
  unfold gv in Hv. unfold gb in Hb. rewrite Hv, Hb.
  destruct (Hdespine true true false false) as [-> ->].
  split; [|reflexivity]. now destruct name.
Qed.

(** ** The line entry point, continued *)

Lemma mbind_returns {A B} (m : M A) (k : A -> M B) (st : Plt) (a : A) :
  fst (m st) = Ok a -> mbind m k st = k a (snd (m st)).
Proof. unfold mbind. destruct (m st) as [r s]. cbn. now intros ->. Qed.

Lemma mbind_raises {A B} (m : M A) (k : A -> M B) (st : Plt) (e : exn) :
  fst (m st) = Raise e -> fst (mbind m k st) = Raise e.
Proof. unfold mbind. destruct (m st) as [r s]. cbn. now intros ->. Qed.

Lemma set_tufte_style_returns (h : nat) (st : Plt) :
  fst (set_tufte_style h st) = Ok tt.
Proof. reflexivity. Qed.

Lemma set_labels_returns (h : nat) (title xlabel ylabel : option string)
  (st : Plt) :
  fst (set_labels h title xlabel ylabel st) = Ok tt.
Proof.
  unfold set_labels.
  now destruct (truthy title), (truthy xlabel), (truthy ylabel).
Qed.

Lemma when_returns (b : bool) (m : M unit) (st : Plt) :
  (forall s, fst (m s) = Ok tt) -> fst (when b m st) = Ok tt.
Proof. intro H. destruct b; [apply H | reflexivity]. Qed.

Lemma sequence_split (X Y : M unit) (st : Plt) :
  (X ;;; Y) st = ((X ;;; ret tt) ;;; (ret tt ;;; Y)) st.
Proof. unfold mbind, ret. now destruct (X st) as [[[]|e] s]. Qed.

(** The range frame does the x axis first and then the y axis. *)
Lemma range_frame_split (h : nat) (x_data y_data : option ndarray)
  (xp yp : float64) (st : Plt) :
  range_frame h x_data y_data xp yp st
  = (range_frame h x_data None xp yp ;;; range_frame h None y_data xp yp) st.
Proof. unfold range_frame. apply sequence_split. Qed.


(** A range frame on both axes, when one of them holds NaN or an infinity. *)
Lemma non_finite_frames (ax : nat) (st : Plt) (xs ys : list float64) (pad : Q) :
  xs <> [] -> ys <> [] -> 0 <= pad ->
  forallb F.isfinite xs && forallb F.isfinite ys = false ->
  fst (range_frame ax (Some (NumArray xs)) (Some (NumArray ys)) (fin pad)
         (fin pad) st)
  = Raise (Exn ValueError "Axis limits cannot be NaN or Inf").
Proof.
  intros Hxne Hyne Hpad Hnf.
  destruct (forallb F.isfinite xs) eqn:Hxfin.
  - cbn in Hnf.
    destruct (finite_frame ax st xs pad (fin pad) Hxne Hxfin Hpad)
      as (xlo & xhi & x_min & x_max & _ & _ & _ & _ & _ & _ & (Hxr & _) & _).
    cbv zeta in Hxr.
    rewrite range_frame_split, (mbind_returns _ _ _ tt Hxr).
    now rewrite (proj2 (non_finite_frame ax _ ys None (fin pad) (fin pad)
                          Hyne Hnf)).
  - now rewrite (proj1 (non_finite_frame ax st xs (Some (NumArray ys)) (fin pad)
                          (fin pad) Hxne Hxfin)).
Qed.

(** [np.concatenate] on numeric arrays. *)
Lemma concatenate_values_ok (arrs : list ndarray) :
  Forall (fun a => exists xs, a = NumArray xs) arrs ->
  exists all,
    np.concatenate_values arrs = Ok all
    /\ (forallb F.isfinite all = true
        <-> forall ys, In (NumArray ys) arrs -> forallb F.isfinite ys = true)
    /\ (forall ys, In (NumArray ys) arrs -> ys <> [] -> all <> []).
Proof.
  induction 1 as [|a arrs [xs ->] _ (all & Hall & Hfin & Hne)].
  - exists []. split; [reflexivity|]. split; [|now intros ys []].
    split; [now intros _ ys [] | reflexivity].
  - exists (xs ++ all). cbn. rewrite Hall. split; [reflexivity|]. split.
    + rewrite forallb_app, andb_true_iff, Hfin. split.
      * intros [Hx Hrest] ys [[= <-]|Hin]; auto.
      * intro Hys. split; [apply Hys; now left|].
        intros ys Hin. apply Hys. now right.
    + intros ys [[= <-]|Hin] Hys.
      * destruct xs; [congruence | discriminate].
      * specialize (Hne ys Hin Hys). destruct all; [congruence|].
        now destruct xs.
Qed.

Section LineMore.

Variable asarray : pyobj -> result ndarray.

Lemma validate_y_nonempty (y : pyobj) (arrs : list ndarray) :
  validate_y asarray y = Ok arrs -> arrs <> [].
Proof.
  assert (forall r, (arr <- validate_data asarray y "y" ;; Ok [arr]) = Ok r ->
                    r <> []) as Hsingle.
  { intros r H. apply bind_ok in H as (arr & _ & [= <-]). discriminate. }
  unfold validate_y. destruct y as [[|y0 items]| | | |]; try apply Hsingle.
  destruct (is_list_or_ndarray y0); [|apply Hsingle].
  intro H. apply validate_each_ok in H as [Hlen _].
  destruct arrs; [discriminate | discriminate].
Qed.

(** The series of a validated call, as lists of numbers of the length of
    [x]. *)
Lemma validated_series (y : pyobj) (xs : list float64)
  (y_arrays : list ndarray) :
  validate_y asarray y = Ok y_arrays ->
  check_lengths 0 y_arrays (NumArray xs) = Ok tt ->
  Forall (fun y_arr => exists ys, y_arr = NumArray ys
                                  /\ List.length ys = List.length xs) y_arrays.
Proof.
  intros Hy Hcheck.
  pose proof (validate_y_ok asarray y y_arrays Hy) as Hnum.
  pose proof (check_lengths_ok _ _ _ Hcheck) as Hlen.
  apply Forall_forall. intros y_arr Hin.
  pose proof (proj1 (Forall_forall _ _) Hlen y_arr Hin) as Hsize.
  pose proof (proj1 (Forall_forall _ _) Hnum y_arr Hin) as [ys ->].
  now exists ys.
Qed.

(** A validated call creates its axes, draws its lines and goes on to the
    styling. *)
Lemma line_runs
  (x y : pyobj) (labels : labels_arg) (title xlabel ylabel : option string)
  (figsize : Q * Q) (markers : bool) (ax : option nat)
  (colors : option (list string)) (st : Plt)
  (xs : list float64) (y_arrays : list ndarray) :
  validate_data asarray x "x" = Ok (NumArray xs) ->
  validate_y asarray y = Ok y_arrays ->
  check_lengths 0 y_arrays (NumArray xs) = Ok tt ->
  let n := List.length y_arrays in
  let h := match ax with Some a => a | None => n_axes st end in
  let series := zip3 y_arrays (line_colors colors n) (line_labels labels n) in
  exists fig st1 st2,
    create_figure_and_axes figsize ax st = (Ok (fig, h), st1)
    /\ plot_lines h (NumArray xs) markers series st1 = (Ok tt, st2)
    /\ artists (axes_of st2 h)
       = artists (axes_of st1 h) ++ map (line_artist xs markers) series
    /\ line asarray x y labels title xlabel ylabel figsize markers ax colors st
       = (set_tufte_style h ;;;
          set_labels h title xlabel ylabel ;;;
          all_y <~ lift (np.concatenate y_arrays) ;;
          range_frame h (Some (NumArray xs)) (Some all_y) (fin 0.02)
                      (fin 0.02) ;;;
          when (existsb is_label (line_labels labels n)) (mpl.show_legend h) ;;;
          ret (fig, h)) st2.
Proof.
  intros Hx Hy Hcheck n h series.
  pose proof (validated_series y xs y_arrays Hy Hcheck) as Hseries.
  destruct (create_figure_and_axes figsize ax st) as [[[fig h']|e] st1] eqn:Hc;
    [|destruct ax; cbn in Hc; discriminate].
  pose proof (create_figure_and_axes_returns _ _ _ _ _ _ Hc) as (_ & _ & _ & Hh).
  fold h in Hh. subst h'.
  assert (Forall (fun s => exists ys, fst (fst s) = NumArray ys
                                      /\ List.length ys = List.length xs)
                 series) as Hzip.
  { apply zip3_series with (P := fun y_arr =>
      exists ys, y_arr = NumArray ys /\ List.length ys = List.length xs).
    exact Hseries. }
  destruct (plot_lines_returns h xs markers series st1 Hzip)
    as (st2 & Hrun & Hplotted).
  exists fig, st1, st2. repeat (split; [assumption || reflexivity|]).
  unfold line.
  rewrite Hx, mbind_lift, Hy, mbind_lift, Hcheck, mbind_lift.
  rewrite (mbind_step _ _ _ _ _ Hc). cbv zeta.
  exact (mbind_step (plot_lines h (NumArray xs) markers series)
           (fun _ =>
              set_tufte_style h ;;;
              set_labels h title xlabel ylabel ;;;
              all_y <~ lift (np.concatenate y_arrays) ;;
              range_frame h (Some (NumArray xs)) (Some all_y) (fin 0.02)
                          (fin 0.02) ;;;
              when (existsb is_label (line_labels labels n))
                   (mpl.show_legend h) ;;;
              ret (fig, h)) st1 st2 tt Hrun).
Qed.

Lemma line_colors_length (colors : option (list string)) (n : nat) :
  (Nat.min n (List.length (line_colors colors n))
   = Nat.min n (Nat.max (match colors with
                         | Some c => List.length c
                         | None => 0
                         end) 4))%nat.
Proof.
  unfold line_colors, slice. destruct colors as [c|].
  - destruct (Nat.ltb (List.length c) n) eqn:E.
    + apply Nat.ltb_lt in E.
      rewrite length_app, length_skipn, length_firstn.
      cbn [styles.GRAYSCALE_PALETTE List.length]. lia.
    + apply Nat.ltb_ge in E. lia.
  - rewrite length_firstn. cbn [styles.GRAYSCALE_PALETTE List.length]. lia.
Qed.

Lemma line_labels_length (labels : labels_arg) (n : nat) :
  (n <= List.length (line_labels labels n))%nat.
Proof. unfold line_labels. cbv zeta. rewrite length_app, repeat_length. lia. Qed.

Lemma line_colors_nth (colors : option (list string)) (n i : nat) :
  (i < n)%nat ->
  nth_error (line_colors colors n) i
  = match colors with
    | Some c =>
        if Nat.ltb i (List.length c) then nth_error c i
        else nth_error styles.GRAYSCALE_PALETTE i
    | None => nth_error styles.GRAYSCALE_PALETTE i
    end.
Proof.
  intro Hi. unfold line_colors, slice. destruct colors as [c|].
  - destruct (Nat.ltb (List.length c) n) eqn:E.
    + destruct (Nat.ltb i (List.length c)) eqn:Ei.
      * apply Nat.ltb_lt in Ei. now rewrite nth_error_app1.
      * apply Nat.ltb_ge in Ei. rewrite nth_error_app2 by exact Ei.
        rewrite nth_error_skipn.
        replace (List.length c + (i - List.length c))%nat with i by lia.
        rewrite nth_error_firstn. now rewrite (proj2 (Nat.ltb_lt i n) Hi).
    + apply Nat.ltb_ge in E.
      assert (Nat.ltb i (List.length c) = true) as ->
          by (apply Nat.ltb_lt; lia).
      reflexivity.
  - rewrite nth_error_firstn. now rewrite (proj2 (Nat.ltb_lt i n) Hi).
Qed.

(** X13: the lines [line] draws, for any [colors].  After validation the
    call adds to the axes one line per element of the zip of the series, the
    colours and the labels, in order, whatever happens later in the call.
    Of [n] series, [min n (max c 4)] are drawn, where [c] is the number of
    colours given (0 for [None]): the others are dropped without an error.
    Series [i] gets the caller's colour [i] if there is one and colour [i]
    of the grayscale palette otherwise. *)
Theorem line_draws_zipped_series
  (x y : pyobj) (labels : labels_arg) (title xlabel ylabel : option string)
  (figsize : Q * Q) (markers : bool) (ax : option nat)
  (colors : option (list string)) (st : Plt)
  (xs : list float64) (y_arrays : list ndarray) :
  validate_data asarray x "x" = Ok (NumArray xs) ->
  validate_y asarray y = Ok y_arrays ->
  check_lengths 0 y_arrays (NumArray xs) = Ok tt ->
  let st' := snd (line asarray x y labels title xlabel ylabel figsize markers
                       ax colors st) in
  let n := List.length y_arrays in
  let h := match ax with Some a => a | None => n_axes st end in
  let before :=
    match ax with Some a => artists (axes_of st a) | None => [] end in
  let given := match colors with Some c => List.length c | None => 0%nat end in
  let series := zip3 y_arrays (line_colors colors n) (line_labels labels n) in
  artists (axes_of st' h) = before ++ map (line_artist xs markers) series
  /\ List.length series = Nat.min n (Nat.max given 4)
  /\ (forall i color,
         (i < n)%nat ->
         nth_error (line_colors colors n) i = Some color ->
         if Nat.ltb i given
         then exists c, colors = Some c /\ nth_error c i = Some color
         else nth_error styles.GRAYSCALE_PALETTE i = Some color).
Proof.
  intros Hx Hy Hcheck st' n h before given series.
  split; [|split].
  - destruct (line_runs x y labels title xlabel ylabel figsize markers ax colors
                st xs y_arrays Hx Hy Hcheck)
      as (fig & st1 & st2 & Hc & _ & Hart & Hline).
    fold n h series in Hc, Hart, Hline.
    apply create_figure_and_axes_returns in Hc as (_ & _ & Hbefore & _).
    fold before in Hbefore.
    subst st'. rewrite Hline.
    match goal with
    | |- artists (axes_of (snd (?tail st2)) h) = _ =>
        assert (preserves (fun s => artists (axes_of s h)) tail) as Htail
          by frame
    end.
    now rewrite Htail, Hart, Hbefore.
  - unfold series. rewrite zip3_length.
    pose proof (line_colors_length colors n) as Hcol.
    pose proof (line_labels_length labels n) as Hlab.
    fold given in Hcol. fold n. lia.
  - intros i color Hi Hnth. rewrite line_colors_nth in Hnth by exact Hi.
    unfold given. destruct colors as [c|].
    + destruct (Nat.ltb i (List.length c)); [now exists c | exact Hnth].
    + exact Hnth.
Qed.


(** X15: a call to [line] that returns has shown the legend exactly when
    some entry of the label list is not [None]; without one the legend of
    the axes is as it was.  The whole padded list counts, also a label
    beyond the last series. *)
Theorem line_legend
  (x y : pyobj) (labels : labels_arg) (title xlabel ylabel : option string)
  (figsize : Q * Q) (markers : bool) (ax : option nat)
  (colors : option (list string)) (st st' : Plt) (fig h : nat) :
  line asarray x y labels title xlabel ylabel figsize markers ax colors st
  = (Ok (fig, h), st') ->
  exists y_arrays,
    validate_y asarray y = Ok y_arrays
    /\ legend (axes_of st' h)
       = (match ax with Some a => legend (axes_of st a) | None => false end)
         || existsb is_label (line_labels labels (List.length y_arrays)).
Proof.
  intro H. unfold line in H.
  apply mbind_ok in H as (x_array & st0 & Hx & H).
  apply lift_ok in Hx as [Hx ->].
  apply mbind_ok in H as (y_arrays & st0 & Hy & H).
  apply lift_ok in Hy as [Hy ->].
  apply mbind_ok in H as ([] & st0 & Hcheck & H).
  apply lift_ok in Hcheck as [Hcheck ->].
  apply mbind_ok in H as ([fig' h'] & st1 & Hc & H).
  exists y_arrays. split; [exact Hy|].
  assert (legend (axes_of st1 h')
          = match ax with Some a => legend (axes_of st a) | None => false end)
    as Hbefore.
  { destruct ax as [a|]; cbn in Hc.
    - now injection Hc as _ <- <-.
    - injection Hc as _ <- <-. cbn. now rewrite update_same. }
  cbv zeta in H.
  apply mbind_ok in H as ([] & st2 & Hplot & H).
  apply mbind_ok in H as ([] & st3 & Hstyle & H).
  apply mbind_ok in H as ([] & st4 & Hlabels & H).
  apply mbind_ok in H as (all_y & st5 & Hcat & H).
  apply lift_ok in Hcat as [_ ->].
  apply mbind_ok in H as ([] & st5 & Hframe & H).
  apply mbind_ok in H as ([] & st6 & Hlegend & H).
  injection H as <- <- <-.
  apply (preserved (fun s => legend (axes_of s h'))) in Hplot; [|frame].
  apply (preserved (fun s => legend (axes_of s h'))) in Hstyle; [|frame].
  apply (preserved (fun s => legend (axes_of s h'))) in Hlabels; [|frame].
  apply (preserved (fun s => legend (axes_of s h'))) in Hframe; [|frame].
  change (existsb _ ?l) with (existsb is_label l) in Hlegend.
  change (existsb is_label _)
    with (existsb is_label (line_labels labels (List.length y_arrays)))
    in Hlegend.
  destruct (existsb is_label (line_labels labels (List.length y_arrays))).
  - cbn in Hlegend. injection Hlegend as <-. cbn. rewrite update_same. cbn.
    now rewrite orb_true_r.
  - cbn in Hlegend. injection Hlegend as <-. rewrite orb_false_r. congruence.
Qed.

(** X16: [line] does not accept data with a gap.  When validated input
    holds NaN or an infinity, in [x] or in any of the series, the call
    raises matplotlib's [ValueError] for the axis limits; this happens in the
    range frame, after the lines were drawn. *)
Theorem line_rejects_non_finite
  (x y : pyobj) (labels : labels_arg) (title xlabel ylabel : option string)
  (figsize : Q * Q) (markers : bool) (ax : option nat)
  (colors : option (list string)) (st : Plt)
  (xs bad : list float64) (y_arrays : list ndarray) :
  validate_data asarray x "x" = Ok (NumArray xs) ->
  validate_y asarray y = Ok y_arrays ->
  check_lengths 0 y_arrays (NumArray xs) = Ok tt ->
  bad = xs \/ In (NumArray bad) y_arrays ->
  forallb F.isfinite bad = false ->
  fst (line asarray x y labels title xlabel ylabel figsize markers ax colors st)
  = Raise (Exn ValueError "Axis limits cannot be NaN or Inf").
Proof.
  intros Hx Hy Hcheck Hbad Hnf.
  destruct (line_runs x y labels title xlabel ylabel figsize markers ax colors
              st xs y_arrays Hx Hy Hcheck)
    as (fig & st1 & st2 & _ & _ & _ & Hline).
  destruct (validate_data_ok asarray x "x" _ Hx) as (xs' & [= <-] & Hxne & _).
  pose proof (validated_series y xs y_arrays Hy Hcheck) as Hseries.
  pose proof (validate_y_nonempty y y_arrays Hy) as Hsome.
  destruct (concatenate_values_ok y_arrays) as (all_y & Hcat & Hfin & Hne).
  { eapply Forall_impl; [|exact Hseries]. intros a (ys & -> & _). now exists ys. }
  assert (all_y <> []) as Hyne.
  { destruct y_arrays as [|y0 rest]; [congruence|].
    apply Forall_inv in Hseries as (ys & -> & Hlen).
    apply (Hne ys); [now left|].
    destruct ys; [|discriminate]. destruct xs; [congruence | discriminate]. }
  assert (np.concatenate y_arrays = Ok (NumArray all_y)) as Hconcat.
  { unfold np.concatenate. rewrite Hcat.
    destruct y_arrays; [congruence | reflexivity]. }
  assert (forallb F.isfinite xs && forallb F.isfinite all_y = false) as Hsome_bad.
  { destruct Hbad as [->|Hin].
    - now rewrite Hnf.
    - destruct (forallb F.isfinite all_y) eqn:Hall; [|apply andb_false_r].
      rewrite (proj1 Hfin eq_refl bad Hin) in Hnf. discriminate. }
  rewrite Hline.
  rewrite (mbind_returns _ _ _ tt (set_tufte_style_returns _ st2)).
  rewrite (mbind_returns _ _ _ tt (set_labels_returns _ title xlabel ylabel _)).
  rewrite Hconcat, mbind_lift.
  apply mbind_raises.
  apply non_finite_frames; [assumption | assumption | discriminate | assumption].
Qed.

End LineMore.

(** Three series and one colour: the second and third series get the second
    and third colour of the palette. *)
Lemma line_draws_zipped_series_witness :
  let y := PyList (map (fun v => PyArray (NumArray [fin v; fin (v + 1)]))
                       [1; 3; 5]) in
  let st' := snd (line flat_asarray (PyArray (NumArray [fin 1; fin 2])) y
                    LabelsNone None None None styles.FIGURE_SIZES_default
                    false None (Some ["red"]) mpl.empty) in
  map (fun a => match a with Line2D _ _ color _ _ _ => color | _ => "" end)
      (artists (axes_of st' 0))
  = ["red"; "#666666"; "#999999"].
Proof.
  cbv zeta.
  destruct (line_draws_zipped_series flat_asarray
              (PyArray (NumArray [fin 1; fin 2]))
              (PyList (map (fun v => PyArray (NumArray [fin v; fin (v + 1)]))
                           [1; 3; 5]))
              LabelsNone None None None styles.FIGURE_SIZES_default false None
              (Some ["red"]) mpl.empty [fin 1; fin 2]
              (map (fun v => NumArray [fin v; fin (v + 1)]) [1; 3; 5]))
    as (Hart & _ & _).
  - reflexivity.
  - vm_compute. reflexivity.
  - vm_compute. reflexivity.
  - cbv zeta in Hart. change (n_axes mpl.empty) with 0%nat in Hart.
    rewrite Hart. reflexivity.
Defined.


(** One series with the label "a": the legend is shown. *)
Lemma line_legend_witness :
  legend (axes_of
            (snd (line flat_asarray (PyArray (NumArray [fin 1; fin 2]))
                    (PyArray (NumArray [fin 3; fin 4])) (LabelsStr "a") None
                    None None styles.FIGURE_SIZES_default false None None
                    mpl.empty)) 0)
  = true.
Proof.
  set (r := line _ _ _ _ _ _ _ _ _ _ _ _).
  assert (fst r = Ok (0%nat, 0%nat)) as Hr by (vm_compute; reflexivity).
  destruct (line_legend flat_asarray (PyArray (NumArray [fin 1; fin 2]))
              (PyArray (NumArray [fin 3; fin 4])) (LabelsStr "a") None None
              None styles.FIGURE_SIZES_default false None None mpl.empty
              (snd r) 0%nat 0%nat)
    as (y_arrays & Hy & Hlegend).
  - rewrite <- Hr. apply surjective_pairing.
  - injection Hy as <-. exact Hlegend.
Defined.

(** A series with a missing value: [1, NaN, 3]. *)
Lemma line_rejects_non_finite_witness :
  fst (line flat_asarray (PyArray (NumArray [fin 1; fin 2; fin 3]))
         (PyArray (NumArray [fin 1; nan; fin 3])) LabelsNone None None None
         styles.FIGURE_SIZES_default false None None mpl.empty)
  = Raise (Exn ValueError "Axis limits cannot be NaN or Inf").
Proof.
  apply (line_rejects_non_finite flat_asarray _ _ _ _ _ _ _ _ _ _ _
           [fin 1; fin 2; fin 3] [fin 1; nan; fin 3]
           [NumArray [fin 1; nan; fin 3]]).
  - reflexivity.
  - reflexivity.
  - reflexivity.
  - right. now left.
  - reflexivity.
Defined.

(** ** The histogram entry point, continued *)

Lemma removelast_length {A} (l : list A) :
  List.length (removelast l) = (List.length l - 1)%nat.
Proof. rewrite removelast_firstn_len, length_firstn. lia. Qed.

Lemma linspace_length (lo hi : Q) (n : nat) :
  List.length (np.linspace lo hi n) = S n.
Proof.
  unfold np.linspace. cbv zeta. rewrite length_app, length_map, length_seq.
  cbn. lia.
Qed.

Section HistogramMore.

Variable selectors : string -> option (list float64 -> positive).
Variable asarray : pyobj -> result ndarray.

(** The bars have one height per bin. *)
Lemma bar_shape (arr : ndarray) (bins : bins_spec)
  (percentages edges : list float64) :
  normalize_to_percentage selectors arr bins = Ok (percentages, edges) ->
  mpl.same_length (removelast edges) percentages = true.
Proof.
  intro H. apply normalize_to_percentage_inv in H as (counts & Hh & Hlen).
  apply histogram_shape in Hh as [Hshape _].
  unfold mpl.same_length. rewrite removelast_length, Hlen, Hshape.
  apply Nat.eqb_refl.
Qed.

Lemma create_figure_and_axes_handle (figsize : Q * Q) (ax : option nat)
  (st : Plt) :
  exists fig,
    fst (create_figure_and_axes figsize ax st)
    = Ok (fig, match ax with Some a => a | None => n_axes st end).
Proof. destruct ax as [a|]; eexists; reflexivity. Qed.

(** After validation [histogram] creates its axes and then fails in the
    normaliser, fails for want of a second bin edge, or draws the bars and
    goes on to the styling. *)
Lemma histogram_normalize_raises (data : pyobj) (bins : bins_spec)
  (title xlabel : option string) (ylabel : string) (figsize : Q * Q)
  (ax : option nat) (color : string) (st : Plt) (arr : ndarray) (e : exn) :
  validate_data asarray data "data" = Ok arr ->
  normalize_to_percentage selectors arr bins = Raise e ->
  histogram selectors asarray data bins title xlabel ylabel figsize ax color st
  = (Raise e, snd (create_figure_and_axes figsize ax st)).
Proof.
  intros Hv Hn. unfold histogram. rewrite Hv, mbind_lift.
  destruct (create_figure_and_axes_handle figsize ax st) as [fig Hc].
  rewrite (mbind_returns _ _ _ _ Hc). cbv beta iota. now rewrite Hn.
Qed.

Lemma histogram_index_raises (data : pyobj) (bins : bins_spec)
  (title xlabel : option string) (ylabel : string) (figsize : Q * Q)
  (ax : option nat) (color : string) (st : Plt) (arr : ndarray)
  (percentages edges : list float64) :
  validate_data asarray data "data" = Ok arr ->
  normalize_to_percentage selectors arr bins = Ok (percentages, edges) ->
  nth_error edges 1 = None ->
  histogram selectors asarray data bins title xlabel ylabel figsize ax color st
  = (Raise (Exn IndexError "index is out of bounds"),
     snd (create_figure_and_axes figsize ax st)).
Proof.
  intros Hv Hn He. unfold histogram. rewrite Hv, mbind_lift.
  destruct (create_figure_and_axes_handle figsize ax st) as [fig Hc].
  rewrite (mbind_returns _ _ _ _ Hc). cbv beta iota.
  rewrite Hn, mbind_lift. cbv beta iota. unfold index. now rewrite He.
Qed.

Lemma histogram_runs (data : pyobj) (bins : bins_spec)
  (title xlabel : option string) (ylabel : string) (figsize : Q * Q)
  (ax : option nat) (color : string) (st : Plt) (arr : ndarray)
  (percentages edges : list float64) (e0 e1 : float64) :
  validate_data asarray data "data" = Ok arr ->
  normalize_to_percentage selectors arr bins = Ok (percentages, edges) ->
  nth_error edges 0 = Some e0 ->
  nth_error edges 1 = Some e1 ->
  let h := match ax with Some a => a | None => n_axes st end in
  let bars := Bar false (removelast edges) percentages (e1 - e0)%f64 color None in
  exists fig,
    fst (create_figure_and_axes figsize ax st) = Ok (fig, h)
    /\ histogram selectors asarray data bins title xlabel ylabel figsize ax
                 color st
       = (set_tufte_style h ;;;
          when (truthy title)
               (mpl.set_title h (match title with Some s => s | None => "" end)) ;;;
          when (truthy xlabel)
               (mpl.set_xlabel h (match xlabel with Some s => s | None => "" end)) ;;;
          mpl.set_ylabel h ylabel ;;;
          range_frame h (Some arr) None (fin 0.02) (fin 0.02) ;;;
          mpl.set_ylim_bottom h (fin 0) ;;;
          ret (fig, h))
           (snd (mpl.add_artist h bars
                   (snd (create_figure_and_axes figsize ax st)))).
Proof.
  intros Hv Hn He0 He1 h bars.
  destruct (create_figure_and_axes_handle figsize ax st) as [fig Hc].
  fold h in Hc. exists fig. split; [exact Hc|].
  unfold histogram. rewrite Hv, mbind_lift.
  rewrite (mbind_returns _ _ _ _ Hc). cbv beta iota.
  rewrite Hn, mbind_lift. cbv beta iota. unfold index.
  rewrite He1, mbind_lift, He0, mbind_lift. cbv beta zeta.
  unfold mpl.bar. rewrite (bar_shape _ _ _ _ Hn).
  reflexivity.
Qed.

(** The equal-width bins of a finite sample. *)
Lemma finite_histogram (xs : list float64) (bins : bins_spec) :
  xs <> [] -> forallb F.isfinite xs = true ->
  match bins with
  | BinsInt n => (1 <= n)%Z
  | BinsName name => selectors name <> None
  | BinsEdges _ => False
  end ->
  exists lo hi counts,
    np.histogram selectors (NumArray xs) bins
    = Ok (counts, map fin (np.linspace lo hi (bin_count selectors xs bins)))
    /\ (0 < np.sum counts)%Z
    /\ (0 < bin_count selectors xs bins)%nat.
Proof.
  intros Hne Hfin Hbins.
  destruct (outer_edges_of_finite xs Hne Hfin) as (lo & hi & Hedges & Hlt & Hin).
  exists lo, hi,
    (np.diff (np.search_sorted_inclusive xs
                (np.linspace lo hi (bin_count selectors xs bins)))).
  assert (0 < bin_count selectors xs bins)%nat as Hk.
  { destruct bins as [n|name|edges]; cbn; [lia| |contradiction].
    destruct (selectors name); [lia | congruence]. }
  split; [|split; [|exact Hk]].
  - unfold np.histogram. cbn [np.values bind].
    destruct bins as [n|name|edges]; [| |contradiction];
      cbn [np.get_bin_edges bin_count] in *.
    + destruct (n <? 1)%Z eqn:E; [apply Z.ltb_lt in E; lia|].
      rewrite Hedges. cbn [bind]. unfold np.uniform_edges.
      now rewrite linspace_increasing by assumption.
    + destruct (selectors name) as [selector|]; [|congruence].
      rewrite Hedges. cbn [bind].
      destruct xs as [|x xs']; [congruence|]. unfold np.uniform_edges.
      rewrite Z2Nat.inj_pos.
      now rewrite linspace_increasing by assumption.
  - rewrite uniform_counts_total by assumption.
    destruct xs; [congruence | cbn; lia].
Qed.

(** A validated sample that holds NaN or an infinity: the call raises. *)
Lemma histogram_non_finite_raises
  (data : pyobj) (bins : bins_spec) (title xlabel : option string)
  (ylabel : string) (figsize : Q * Q) (ax : option nat) (color : string)
  (st : Plt) (xs : list float64) :
  validate_data asarray data "data" = Ok (NumArray xs) ->
  forallb F.isfinite xs = false ->
  exists e,
    fst (histogram selectors asarray data bins title xlabel ylabel figsize ax
                   color st) = Raise e
    /\ (cls e = ValueError
        \/ cls e = IndexError
           /\ exists l, bins = BinsEdges l /\ (List.length l < 2)%nat).
Proof.
  intros Hv Hnf.
  destruct (validate_data_ok asarray data "data" _ Hv)
    as (xs' & [= <-] & Hne & _).
  assert (match bins with BinsEdges _ => False | _ => True end
          \/ exists l, bins = BinsEdges l) as [Hbins|[l ->]]
      by (destruct bins; eauto).
  { destruct (histogram_rejects_non_finite selectors asarray data bins title
                xlabel ylabel figsize ax color st xs Hv Hnf Hbins) as [m Hm].
    exists (Exn ValueError m). split; [exact Hm | now left]. }
  destruct (normalize_to_percentage selectors (NumArray xs) (BinsEdges l))
    as [[percentages edges]|e] eqn:Hn.
  - assert (edges = map fin l) as Hedges.
    { apply normalize_to_percentage_inv in Hn as (counts & Hh & _).
      apply histogram_inv in Hh as (xs' & e & _ & He & _ & ->).
      cbn in He. destruct (np.any_decreasing l); [discriminate|].
      now injection He as <-. }
    destruct (nth_error edges 1) as [e1|] eqn:He1.
    + destruct (nth_error edges 0) as [e0|] eqn:He0.
      2:{ apply nth_error_None in He0.
          assert (nth_error edges 1 <> None) as Hsome by congruence.
          apply nth_error_Some in Hsome. lia. }
      destruct (histogram_runs data (BinsEdges l) title xlabel ylabel figsize
                  ax color st _ _ _ _ _ Hv Hn He0 He1) as (fig & _ & Hrun).
      exists (Exn ValueError "Axis limits cannot be NaN or Inf").
      split; [|now left]. rewrite Hrun.
      rewrite (mbind_returns _ _ _ tt (set_tufte_style_returns _ _)).
      match goal with
      | |- fst (mbind ?m _ ?s) = _ =>
          rewrite (mbind_returns m _ s tt) by (apply when_returns; reflexivity)
      end.
      match goal with
      | |- fst (mbind ?m _ ?s) = _ =>
          rewrite (mbind_returns m _ s tt) by (apply when_returns; reflexivity)
      end.
      match goal with
      | |- fst (mbind ?m _ ?s) = _ =>
          rewrite (mbind_returns m _ s tt) by reflexivity
      end.
      apply mbind_raises.
      now rewrite (proj1 (non_finite_frame _ _ xs None (fin 0.02) (fin 0.02)
                            Hne Hnf)).
    + exists (Exn IndexError "index is out of bounds"). split.
      * now rewrite (histogram_index_raises data (BinsEdges l) title xlabel
                       ylabel figsize ax color st _ _ _ Hv Hn He1).
      * right. split; [reflexivity|]. exists l. split; [reflexivity|].
        apply nth_error_None in He1. subst edges.
        rewrite length_map in He1. lia.
  - exists e. split.
    + now rewrite (histogram_normalize_raises data (BinsEdges l) title xlabel
                     ylabel figsize ax color st _ _ Hv Hn).
    + left. unfold normalize_to_percentage, np.histogram in Hn.
      cbn in Hn. destruct (np.any_decreasing l); [|discriminate].
      now injection Hn as <-.
Qed.


(** What numpy's histogram returning says of the bins asked for. *)
Lemma histogram_bins_valid (xs : list float64) (bins : bins_spec)
  (counts : list Z) (edges : list float64) :
  np.histogram selectors (NumArray xs) bins = Ok (counts, edges) ->
  match bins with
  | BinsInt n => (1 <= n)%Z
  | BinsName name => selectors name <> None
  | BinsEdges l => edges = map fin l
  end.
Proof.
  intro H. apply histogram_inv in H as (xs' & e & _ & He & _ & ->).
  destruct bins as [n|name|l]; cbn [np.get_bin_edges] in He.
  - destruct (n <? 1)%Z eqn:E; [discriminate|]. apply Z.ltb_ge in E. lia.
  - destruct (selectors name); [discriminate | discriminate].
  - destruct (np.any_decreasing l); [discriminate|]. now injection He as <-.
Qed.

(** X17: the bars of a call to [histogram] that returns.  The sample then
    holds finite values only, and the call has added one set of vertical bars
    to the axes it returns: one bar per bin asked for, at the bin edges but
    the last, as wide as the first bin, with the percentages of the
    normaliser as heights.  For an integer number of bins and for a named
    bin rule the heights sum to 100. *)
Theorem histogram_bars_on_return
  (data : pyobj) (bins : bins_spec) (title xlabel : option string)
  (ylabel : string) (figsize : Q * Q) (ax : option nat) (color : string)
  (st st' : Plt) (fig h' : nat) :
  histogram selectors asarray data bins title xlabel ylabel figsize ax color st
  = (Ok (fig, h'), st') ->
  let h := match ax with Some a => a | None => n_axes st end in
  let before :=
    match ax with Some a => artists (axes_of st a) | None => [] end in
  exists xs percentages edges e0 e1,
    validate_data asarray data "data" = Ok (NumArray xs)
    /\ forallb F.isfinite xs = true
    /\ h' = h
    /\ normalize_to_percentage selectors (NumArray xs) bins
       = Ok (percentages, edges)
    /\ nth_error edges 0 = Some e0
    /\ nth_error edges 1 = Some e1
    /\ artists (axes_of st' h)
       = before ++ [Bar false (removelast edges) percentages (e1 - e0)%f64
                        color None]
    /\ List.length percentages = bin_count selectors xs bins
    /\ match bins with
       | BinsEdges _ => True
       | _ => exists total, np.fsum percentages = fin total /\ total == 100
       end.
Proof.
  intros H h before.
  destruct (validate_data asarray data "data") as [arr|e] eqn:Hv.
  2:{ unfold histogram in H. rewrite Hv in H. discriminate. }
  destruct (validate_data_ok asarray data "data" _ Hv) as (xs & -> & Hne & _).
  destruct (forallb F.isfinite xs) eqn:Hfin.
  2:{ destruct (histogram_non_finite_raises data bins title xlabel ylabel
                  figsize ax color st xs Hv Hfin) as (e & He & _).
      rewrite H in He. discriminate. }
  destruct (normalize_to_percentage selectors (NumArray xs) bins)
    as [[percentages edges]|e] eqn:Hn.
  2:{ rewrite (histogram_normalize_raises data bins title xlabel ylabel
                 figsize ax color st _ _ Hv Hn) in H. discriminate. }
  destruct (nth_error edges 1) as [e1|] eqn:He1.
  2:{ rewrite (histogram_index_raises data bins title xlabel ylabel figsize
                 ax color st _ _ _ Hv Hn He1) in H. discriminate. }
  destruct (nth_error edges 0) as [e0|] eqn:He0.
  2:{ apply nth_error_None in He0.
      assert (nth_error edges 1 <> None) as Hsome by congruence.
      apply nth_error_Some in Hsome. lia. }
  destruct (histogram_runs data bins title xlabel ylabel figsize ax color st
              _ _ _ _ _ Hv Hn He0 He1) as (fig0 & Hc & Hrun).
  fold h in Hc, Hrun.
  set (st1 := snd (create_figure_and_axes figsize ax st)) in *.
  set (bars := Bar false (removelast edges) percentages (e1 - e0)%f64 color None)
    in *.
  set (st2 := snd (mpl.add_artist h bars st1)) in *.
  assert (artists (axes_of st1 h) = before) as Hbefore.
  { apply (create_figure_and_axes_returns figsize ax st st1 fig0 h).
    rewrite <- Hc. apply surjective_pairing. }
  assert (artists (axes_of st2 h) = before ++ [bars]) as Hbars.
  { unfold st2. cbn. rewrite update_same. cbn. now rewrite Hbefore. }
  rewrite Hrun in H.
  exists xs, percentages, edges, e0, e1.
  split; [reflexivity|]. split; [exact Hfin|].
  split; [|split; [exact Hn|split; [exact He0|split; [exact He1|]]]].
  { apply mbind_ok in H as ([] & s3 & _ & H).
    apply mbind_ok in H as ([] & s4 & _ & H).
    apply mbind_ok in H as ([] & s5 & _ & H).
    apply mbind_ok in H as ([] & s6 & _ & H).
    apply mbind_ok in H as ([] & s7 & _ & H).
    apply mbind_ok in H as ([] & s8 & _ & H).
    now injection H as _ <- _. }
  split; [|split].
  - match type of H with
    | ?tail st2 = _ =>
        assert (preserves (fun s => artists (axes_of s h)) tail) as Hkeep
          by frame
    end.
    specialize (Hkeep st2). rewrite H in Hkeep. cbn [snd] in Hkeep.
    now rewrite Hkeep.
  - pose proof Hn as Hn'.
    apply normalize_to_percentage_inv in Hn' as (counts & Hh & ->).
    pose proof (histogram_shape _ _ _ _ _ Hh) as [-> _].
    pose proof (histogram_bins_valid _ _ _ _ Hh) as Hvalid.
    destruct bins as [n|name|l].
    + destruct (finite_histogram xs (BinsInt n) Hne Hfin Hvalid)
        as (lo & hi & counts' & Hh' & _ & _).
      rewrite Hh in Hh'. injection Hh' as _ ->.
      rewrite length_map, linspace_length. cbn [bin_count]. lia.
    + destruct (finite_histogram xs (BinsName name) Hne Hfin Hvalid)
        as (lo & hi & counts' & Hh' & _ & _).
      rewrite Hh in Hh'. injection Hh' as _ ->.
      rewrite length_map, linspace_length. cbn [bin_count]. lia.
    + subst edges. cbn [bin_count]. now rewrite length_map.
  - assert (match bins with BinsEdges _ => False | _ => True end ->
            exists total, np.fsum percentages = fin total /\ total == 100)
      as Hsum.
    { intro Hbins.
      pose proof Hn as Hn'.
      apply normalize_to_percentage_inv in Hn' as (counts & Hh & _).
      pose proof (histogram_bins_valid _ _ _ _ Hh) as Hvalid.
      assert (match bins with
              | BinsInt n => (1 <= n)%Z
              | BinsName name => selectors name <> None
              | BinsEdges _ => False
              end) as Hvalid' by (destruct bins; auto).
      destruct (finite_histogram xs bins Hne Hfin Hvalid')
        as (lo & hi & counts' & Hh' & Hpos & _).
      destruct (positive_total_percentages selectors _ _ _ _ Hh' Hpos)
        as (percentages' & total & Hn' & _ & Hs & Htotal).
      rewrite Hn in Hn'. injection Hn' as -> _.
      now exists total. }
    destruct bins; [now apply Hsum | now apply Hsum | exact I].
Qed.

(** X18: [histogram] never returns on a validated sample that holds NaN
    or an infinity.  It raises [ValueError], from numpy's bin edges or, with
    explicit edges, from the range frame after the bars were drawn; the one
    other outcome is the [IndexError] of a call that gives fewer than two
    edges. *)
Theorem histogram_rejects_non_finite_sample
  (data : pyobj) (bins : bins_spec) (title xlabel : option string)
  (ylabel : string) (figsize : Q * Q) (ax : option nat) (color : string)
  (st : Plt) (xs : list float64) :
  validate_data asarray data "data" = Ok (NumArray xs) ->
  forallb F.isfinite xs = false ->
  exists e,
    fst (histogram selectors asarray data bins title xlabel ylabel figsize ax
                   color st) = Raise e
    /\ (cls e = ValueError
        \/ cls e = IndexError
           /\ exists l, bins = BinsEdges l /\ (List.length l < 2)%nat).
Proof. apply histogram_non_finite_raises. Qed.

(** X19: explicit bin edges must be at least two.  With fewer,
    [histogram] raises [IndexError] when it looks for the width of the first
    bin: the figure and axes have been created by then, and nothing has been
    drawn. *)
Theorem histogram_needs_two_edges
  (data : pyobj) (l : list Q) (title xlabel : option string)
  (ylabel : string) (figsize : Q * Q) (ax : option nat) (color : string)
  (st : Plt) (arr : ndarray) :
  validate_data asarray data "data" = Ok arr ->
  (List.length l < 2)%nat ->
  histogram selectors asarray data (BinsEdges l) title xlabel ylabel figsize ax
            color st
  = (Raise (Exn IndexError "index is out of bounds"),
     snd (create_figure_and_axes figsize ax st)).
Proof.
  intros Hv Hl.
  destruct (validate_data_ok asarray data "data" _ Hv) as (xs & -> & _).
  assert (np.any_decreasing l = false) as Hsorted
      by (destruct l as [|a [|b l]]; [reflexivity | reflexivity | cbn in Hl; lia]).
  destruct (normalize_to_percentage selectors (NumArray xs) (BinsEdges l))
    as [[percentages edges]|e] eqn:Hn.
  - apply (histogram_index_raises data (BinsEdges l) title xlabel ylabel
             figsize ax color st _ _ _ Hv Hn).
    apply normalize_to_percentage_inv in Hn as (counts & Hh & _).
    apply histogram_inv in Hh as (xs' & e & _ & He & _ & ->).
    cbn in He. rewrite Hsorted in He. injection He as <-.
    apply nth_error_None. rewrite length_map. lia.
  - unfold normalize_to_percentage, np.histogram in Hn. cbn in Hn.
    rewrite Hsorted in Hn. discriminate.
Qed.

End HistogramMore.

(** Six values in three bins. *)
Lemma histogram_bars_on_return_witness :
  let r := histogram sturges_selectors flat_asarray
             (PyArray (NumArray [fin 1; fin 2; fin 2; fin 3; fin 3; fin 3]))
             (BinsInt 3) None None "Percentage" styles.FIGURE_SIZES_default
             None styles.TUFTE_COLORS_primary mpl.empty in
  fst r = Ok (0%nat, 0%nat)
  /\ exists bars, artists (axes_of (snd r) 0) = [bars].
Proof.
  set (r := histogram _ _ _ _ _ _ _ _ _ _ _). cbv zeta.
  assert (fst r = Ok (0%nat, 0%nat)) as Hr by (vm_compute; reflexivity).
  split; [exact Hr|].
  destruct (histogram_bars_on_return sturges_selectors flat_asarray
              (PyArray (NumArray [fin 1; fin 2; fin 2; fin 3; fin 3; fin 3]))
              (BinsInt 3) None None "Percentage" styles.FIGURE_SIZES_default
              None styles.TUFTE_COLORS_primary mpl.empty (snd r) 0%nat 0%nat)
    as (xs & percentages & edges & e0 & e1 & _ & _ & _ & _ & _ & _ & Hart & _).
  - rewrite <- Hr. apply surjective_pairing.
  - eexists. exact Hart.
Defined.

(** A sample with a missing value and explicit edges. *)
Lemma histogram_rejects_non_finite_sample_witness :
  exists e,
    fst (histogram sturges_selectors flat_asarray
           (PyArray (NumArray [fin 1; nan; fin 3])) (BinsEdges [0; 2; 4]) None
           None "Percentage" styles.FIGURE_SIZES_default None
           styles.TUFTE_COLORS_primary mpl.empty) = Raise e.
Proof.
  destruct (histogram_rejects_non_finite_sample sturges_selectors flat_asarray
              (PyArray (NumArray [fin 1; nan; fin 3])) (BinsEdges [0; 2; 4])
              None None "Percentage" styles.FIGURE_SIZES_default None
              styles.TUFTE_COLORS_primary mpl.empty [fin 1; nan; fin 3])
    as (e & He & _).
  - reflexivity.
  - reflexivity.
  - now exists e.
Defined.

(** One edge only. *)
Lemma histogram_needs_two_edges_witness :
  fst (histogram sturges_selectors flat_asarray
         (PyArray (NumArray [fin 1; fin 2; fin 3])) (BinsEdges [2]) None None
         "Percentage" styles.FIGURE_SIZES_default None
         styles.TUFTE_COLORS_primary mpl.empty)
  = Raise (Exn IndexError "index is out of bounds").
Proof.
  rewrite (histogram_needs_two_edges sturges_selectors flat_asarray
             (PyArray (NumArray [fin 1; fin 2; fin 3])) [2] None None
             "Percentage" styles.FIGURE_SIZES_default None
             styles.TUFTE_COLORS_primary mpl.empty
             (NumArray [fin 1; fin 2; fin 3])).
  - reflexivity.
  - reflexivity.
  - cbn. lia.
Defined.

(** ** The scatter entry point *)

Lemma fails_after {A B} (m : M A) (k : A -> M B) (c : exn_class) (st : Plt) :
  (exists a, fst (m st) = Ok a) ->
  (forall a s, exists e, fst (k a s) = Raise e /\ cls e = c) ->
  exists e, fst (mbind m k st) = Raise e /\ cls e = c.
Proof.
  intros [a Ha] Hk. rewrite (mbind_returns _ _ _ _ Ha). apply Hk.
Qed.

Lemma fails_at {A B} (m : M A) (k : A -> M B) (c : exn_class) (st : Plt) :
  (exists e, fst (m st) = Raise e /\ cls e = c) ->
  exists e, fst (mbind m k st) = Raise e /\ cls e = c.
Proof.
  intros (e & He & Hc). exists e. split; [|exact Hc].
  now apply mbind_raises.
Qed.

Section ScatterMore.

Variable selectors : string -> option (list float64 -> positive).
Variable asarray : pyobj -> result ndarray.

(** The normaliser raises nothing but [ValueError] on a numeric array, and
    raises on a sample that holds NaN or an infinity unless the edges are
    given. *)
Lemma normalize_raises_value_error (xs : list float64) (bins : bins_spec)
  (e : exn) :
  normalize_to_percentage selectors (NumArray xs) bins = Raise e ->
  cls e = ValueError.
Proof.
  unfold normalize_to_percentage, np.histogram. cbn [np.values bind].
  destruct (np.get_bin_edges selectors xs bins) as [edges|e'] eqn:He;
    cbn [bind]; [discriminate|].
  intros [= <-].
  destruct bins as [n|name|edges]; cbn [np.get_bin_edges] in He.
  - destruct (n <? 1)%Z; [now injection He as <-|].
    destruct (np.get_outer_edges xs) as [[lo hi]|e0] eqn:Ho; cbn [bind] in He.
    + unfold np.uniform_edges in He.
      destruct (np.any_not_increasing _); [now injection He as <-|discriminate].
    + injection He as <-. destruct xs as [|x xs]; [discriminate|].
      cbn [np.get_outer_edges np.reduce bind] in Ho.
      destruct (fold_left np.minimum xs x), (fold_left np.maximum xs x);
        try (now injection Ho as <-).
      destruct (Qeq_bool q q0); discriminate.
  - destruct (selectors name); [|now injection He as <-].
    destruct (np.get_outer_edges xs) as [[lo hi]|e0] eqn:Ho; cbn [bind] in He.
    + unfold np.uniform_edges in He.
      destruct (np.any_not_increasing _); [now injection He as <-|discriminate].
    + injection He as <-. destruct xs as [|x xs]; [discriminate|].
      cbn [np.get_outer_edges np.reduce bind] in Ho.
      destruct (fold_left np.minimum xs x), (fold_left np.maximum xs x);
        try (now injection Ho as <-).
      destruct (Qeq_bool q q0); discriminate.
  - destruct (np.any_decreasing edges); [now injection He as <-|discriminate].
Qed.

Lemma normalize_non_finite (xs : list float64) (name : string) :
  forallb F.isfinite xs = false ->
  exists e,
    normalize_to_percentage selectors (NumArray xs) (BinsName name) = Raise e
    /\ cls e = ValueError.
Proof.
  intro Hnf.
  destruct (get_bin_edges_non_finite selectors xs (BinsName name) Hnf I)
    as [m Hm].
  exists (Exn ValueError m). split; [|reflexivity].
  unfold normalize_to_percentage, np.histogram. cbn [np.values bind].
  now rewrite Hm.
Qed.

(** Equal-width bins come with at least two edges. *)
Lemma named_bins_edges (xs : list float64) (name : string)
  (percentages edges : list float64) :
  normalize_to_percentage selectors (NumArray xs) (BinsName name)
  = Ok (percentages, edges) ->
  exists e0 e1, nth_error edges 0 = Some e0 /\ nth_error edges 1 = Some e1.
Proof.
  intro Hn. apply normalize_to_percentage_inv in Hn as (counts & Hh & _).
  apply histogram_inv in Hh as (xs' & e & [= <-] & He & _ & ->).
  cbn [np.get_bin_edges] in He.
  destruct (selectors name) as [selector|]; [|discriminate].
  destruct (np.get_outer_edges xs) as [[lo hi]|e0]; [|discriminate].
  cbn [bind] in He. unfold np.uniform_edges in He.
  destruct (np.any_not_increasing _); [discriminate|]. injection He as <-.
  assert (2 <= List.length (map fin (np.linspace lo hi
            (Z.to_nat match xs with [] => 1%Z | _ :: _ => Z.pos (selector xs) end))))%nat
    as Hlen.
  { rewrite length_map, linspace_length. destruct xs; lia. }
  destruct (nth_error _ 0) as [e0|] eqn:He0;
    [|apply nth_error_None in He0; lia].
  destruct (nth_error _ 1) as [e1|] eqn:He1;
    [|apply nth_error_None in He1; lia].
  now exists e0, e1.
Qed.


(** X21: [scatter] does not accept missing values either.  On validated
    [x] and [y] of one length of which one holds NaN or an infinity the call
    raises [ValueError], with and without marginals: in the range frame
    without them, in the marginal histograms with them. *)
Theorem scatter_rejects_non_finite
  (x y : pyobj) (marginals : bool) (title xlabel ylabel : option string)
  (figsize : option (Q * Q)) (color : string) (alpha size : Q)
  (ax : option nat) (st : Plt) (xs ys : list float64) :
  validate_data asarray x "x" = Ok (NumArray xs) ->
  validate_data asarray y "y" = Ok (NumArray ys) ->
  List.length xs = List.length ys ->
  forallb F.isfinite xs && forallb F.isfinite ys = false ->
  exists e,
    fst (scatter selectors asarray x y marginals title xlabel ylabel figsize
                 color alpha size ax st) = Raise e
    /\ cls e = ValueError.
Proof.
  intros Hx Hy Hlen Hnf.
  destruct (validate_data_ok asarray x "x" _ Hx) as (xs' & [= <-] & Hxne & _).
  destruct (validate_data_ok asarray y "y" _ Hy) as (ys' & [= <-] & Hyne & _).
  unfold scatter. rewrite Hx, mbind_lift, Hy, mbind_lift.
  cbn [np.size]. rewrite Hlen, Nat.eqb_refl. cbn [negb]. cbv zeta.
  assert (forall h s, exists u,
             fst (mpl.scatter h xs ys size color alpha s) = Ok u) as Hpoints.
  { intros h s. exists tt. unfold mpl.scatter, mpl.same_length.
    now rewrite Hlen, Nat.eqb_refl. }
  destruct marginals.
  - unfold _scatter_with_marginals.
    apply fails_after; [eexists; reflexivity | intros fig s0].
    apply fails_after; [eexists; reflexivity | intros ax_main s1].
    apply fails_after; [eexists; reflexivity | intros ax_top s2].
    apply fails_after; [eexists; reflexivity | intros ax_right s3].
    cbn [np.values]. rewrite !mbind_lift.
    apply fails_after; [apply Hpoints | intros [] s4].
    destruct (normalize_to_percentage selectors (NumArray xs) (BinsName "auto"))
      as [[percentages_x edges_x]|e] eqn:Hnx.
    2:{ exists e. split; [reflexivity|].
        now apply normalize_raises_value_error in Hnx. }
    assert (forallb F.isfinite ys = false) as Hynf.
    { destruct (forallb F.isfinite xs) eqn:Hxfin; [exact Hnf|].
      destruct (normalize_non_finite xs "auto" Hxfin) as (e & He & _).
      congruence. }
    rewrite mbind_lift. cbv beta iota.
    destruct (named_bins_edges _ _ _ _ Hnx) as (x0 & x1 & Hx0 & Hx1).
    unfold index at 1 2. rewrite Hx1, mbind_lift, Hx0, mbind_lift.
    apply fails_after.
    { exists tt. unfold mpl.bar. now rewrite (bar_shape _ _ _ _ _ Hnx). }
    intros [] s5.
    destruct (normalize_non_finite ys "auto" Hynf) as (e & He & Hcls).
    rewrite He. exists e. split; [reflexivity | exact Hcls].
  - unfold _scatter_basic.
    apply fails_after.
    { destruct (create_figure_and_axes_handle
                  match figsize with
                  | Some f => f
                  | None => styles.FIGURE_SIZES_default
                  end ax st) as [fig Hc].
      eexists. exact Hc. }
    intros [fig h] s1. cbn [np.values]. rewrite !mbind_lift.
    apply fails_after; [apply Hpoints | intros [] s2].
    apply fails_after; [exists tt; reflexivity | intros [] s3].
    apply fails_after;
      [exists tt; apply set_labels_returns | intros [] s4].
    apply fails_at.
    exists (Exn ValueError "Axis limits cannot be NaN or Inf").
    split; [|reflexivity].
    apply non_finite_frames; [assumption | assumption | discriminate | assumption].
Qed.

End ScatterMore.


(** A missing y value, with marginal histograms. *)
Lemma scatter_rejects_non_finite_witness :
  exists e,
    fst (scatter sturges_selectors flat_asarray
           (PyArray (NumArray [fin 1; fin 2; fin 3]))
           (PyArray (NumArray [fin 4; nan; fin 2]))
           true None None None None styles.TUFTE_COLORS_primary
           styles.MARKER_STYLES_alpha styles.MARKER_STYLES_size None mpl.empty)
    = Raise e
    /\ cls e = ValueError.
Proof.
  apply (scatter_rejects_non_finite sturges_selectors flat_asarray
           (PyArray (NumArray [fin 1; fin 2; fin 3]))
           (PyArray (NumArray [fin 4; nan; fin 2]))
           true None None None None styles.TUFTE_COLORS_primary
           styles.MARKER_STYLES_alpha styles.MARKER_STYLES_size None mpl.empty
           [fin 1; fin 2; fin 3] [fin 4; nan; fin 2]);
    reflexivity.
Defined.

(** ** Scatter with marginal histograms *)

(** An update of one axes object leaves every other axes as it was. *)
Lemma modify_other {T} (g : Axes -> T) (ax h : nat) (f : Axes -> Axes) :
  h <> ax -> preserves (fun st => g (axes_of st ax)) (mpl.modify h f).
Proof.
  intros Hne st. cbn. unfold mpl.update.
  destruct (Nat.eqb ax h) eqn:E; [|reflexivity].
  apply Nat.eqb_eq in E. congruence.
Qed.

Ltac frame_other_step :=
  lazymatch goal with
  | |- preserves _ (mpl.modify _ _) =>
      first [ apply modify_field; intros; reflexivity
            | apply modify_other; lia ]
  | _ => frame_step
  end.

Ltac frame_other := repeat frame_other_step.

(** [kept O H]: the observation [O] reads the same before and after the
    run [H]. *)
Ltac kept O H :=
  match type of H with
  | ?m ?s = (?r, ?s') =>
      let K := fresh "K" in
      assert (O s' = O s) as K
        by (apply (preserved O m s s' r); [frame_other | exact H]);
      cbv beta in K
  end.

Lemma add_artist_effect (h : nat) (art : artist) (st st' : Plt)
  (r : result unit) :
  mpl.add_artist h art st = (r, st') ->
  artists (axes_of st' h) = artists (axes_of st h) ++ [art].
Proof. intros [= _ <-]. cbn. now rewrite update_same. Qed.

Lemma hide_all_spines_effect (h : nat) (st st' : Plt) (r : result unit)
  (name : spine_name) :
  hide_all_spines h st = (r, st') ->
  visible (spines (axes_of st' h) name) = false.
Proof.
  intros [= _ <-]. cbn. rewrite !update_same. cbn.
  unfold mpl.update_spine. now destruct name.
Qed.

Lemma set_title_effect (h : nat) (s : string) (st st' : Plt) (r : result unit) :
  mpl.set_title h s st = (r, st') -> title (axes_of st' h) = Some s.
Proof. intros [= _ <-]. cbn. now rewrite update_same. Qed.

Lemma index_ok {A} (l : list A) (i : nat) (a : A) :
  index l i = Ok a -> nth_error l i = Some a.
Proof. unfold index. destruct (nth_error l i); [now intros [= ->] | discriminate]. Qed.

Lemma scatter_ok (h : nat) (xs ys : list float64) (s : Q) (c : string)
  (alpha : Q) (st st' : Plt) (u : unit) :
  mpl.scatter h xs ys s c alpha st = (Ok u, st') ->
  mpl.add_artist h (PathCollection xs ys s c alpha) st = (Ok u, st').
Proof.
  unfold mpl.scatter. destruct (mpl.same_length xs ys); [auto | discriminate].
Qed.

Lemma bar_ok (h : nat) (horizontal : bool) (edges heights : list float64)
  (width : float64) (color : string) (alpha : option Q) (st st' : Plt)
  (u : unit) :
  mpl.bar h horizontal edges heights width color alpha st = (Ok u, st') ->
  mpl.add_artist h (Bar horizontal edges heights width color alpha) st
  = (Ok u, st').
Proof.
  unfold mpl.bar. destruct (mpl.same_length edges heights);
    [auto | discriminate].
Qed.

Lemma truthy_some (title : option string) :
  truthy title = true ->
  title = Some (match title with Some s => s | None => "" end).
Proof. destruct title; [reflexivity | discriminate]. Qed.

Section Marginals.

Variable selectors : string -> option (list float64 -> positive).
Variable asarray : pyobj -> result ndarray.

(** X22: the layout a call to [scatter] with marginals leaves behind when
    it returns.  It hands back the new figure and three new axes, "main",
    "top" and "right"; any [ax] passed in is ignored, and every axes object
    that was there before (its artists, spines, labels and ticks) is as it
    was.  The top axes shares its x limits with the main axes and the right
    axes its y limits.  The main axes holds the points,
    the top axes vertical bars and the right axes horizontal bars, both from
    the normaliser with the 'auto' rule and at opacity 0.7; all spines of the
    two marginal axes are hidden; the title goes on the top axes, not on the
    main one. *)
Theorem scatter_marginals_layout
  (x y : pyobj) (title_ xlabel_ ylabel_ : option string)
  (figsize : option (Q * Q)) (color : string) (alpha size : Q)
  (ax : option nat) (st st' : Plt) (r : scatter_result) :
  scatter selectors asarray x y true title_ xlabel_ ylabel_ figsize color alpha
          size ax st = (Ok r, st') ->
  let m := n_axes st in
  r = FigAxesDict (List.length (figures st))
        [("main", m); ("top", S m); ("right", S (S m))]
  /\ mpl.get_xlim st' (S m) = mpl.get_xlim st' m
  /\ mpl.get_ylim st' (S (S m)) = mpl.get_ylim st' m
  /\ (exists xs ys px ex py ey x0 x1 y0 y1,
         validate_data asarray x "x" = Ok (NumArray xs)
         /\ validate_data asarray y "y" = Ok (NumArray ys)
         /\ normalize_to_percentage selectors (NumArray xs) (BinsName "auto")
            = Ok (px, ex)
         /\ normalize_to_percentage selectors (NumArray ys) (BinsName "auto")
            = Ok (py, ey)
         /\ nth_error ex 0 = Some x0 /\ nth_error ex 1 = Some x1
         /\ nth_error ey 0 = Some y0 /\ nth_error ey 1 = Some y1
         /\ artists (axes_of st' m) = [PathCollection xs ys size color alpha]
         /\ artists (axes_of st' (S m))
            = [Bar false (removelast ex) px (x1 - x0)%f64 color (Some 0.7)]
         /\ artists (axes_of st' (S (S m)))
            = [Bar true (removelast ey) py (y1 - y0)%f64 color (Some 0.7)])
  /\ (forall name,
         visible (spines (axes_of st' (S m)) name) = false
         /\ visible (spines (axes_of st' (S (S m))) name) = false)
  /\ title (axes_of st' m) = None
  /\ title (axes_of st' (S m)) = (if truthy title_ then title_ else None)
  /\ (forall a, (a < m)%nat -> axes_of st' a = axes_of st a).
Proof.
  intros H m. unfold scatter in H.
  apply mbind_ok in H as (x_array & s & Hx & H). apply lift_ok in Hx as [Hx ->].
  apply mbind_ok in H as (y_array & s & Hy & H). apply lift_ok in Hy as [Hy ->].
  destruct (negb (Nat.eqb (np.size x_array) (np.size y_array)));
    [discriminate|].
  cbv beta iota zeta in H.
  destruct (validate_data_ok asarray x "x" _ Hx) as (xs & -> & _).
  destruct (validate_data_ok asarray y "y" _ Hy) as (ys & -> & _).
  set (size_used := match figsize with Some f => f | None => _ end) in H.
  unfold _scatter_with_marginals in H.
  set (fig := List.length (figures st)).
  rewrite (mbind_returns (mpl.new_figure size_used) _ st fig) in H
    by reflexivity.
  set (s0 := snd (mpl.new_figure size_used st)) in H.
  rewrite (mbind_returns (mpl.add_subplot fig (Some (1, 0)%nat) None None)
             _ s0 m) in H by reflexivity.
  set (s1 := snd (mpl.add_subplot fig (Some (1, 0)%nat) None None s0)) in H.
  rewrite (mbind_returns (mpl.add_subplot fig (Some (0, 0)%nat) (Some m) None)
             _ s1 (S m)) in H by reflexivity.
  set (s2 := snd (mpl.add_subplot fig (Some (0, 0)%nat) (Some m) None s1)) in H.
  rewrite (mbind_returns (mpl.add_subplot fig (Some (1, 1)%nat) None (Some m))
             _ s2 (S (S m))) in H by reflexivity.
  set (sA := snd (mpl.add_subplot fig (Some (1, 1)%nat) None (Some m) s2)) in H.
  assert (axes_of sA m = mpl.new_axes fig (Some (1, 0)%nat) m m) as HAmain.
  { cbn. fold m. unfold mpl.update.
    repeat match goal with
           | |- context [Nat.eqb ?a ?b] => destruct (Nat.eqb_spec a b); try lia
           end.
    reflexivity. }
  assert (axes_of sA (S m) = mpl.new_axes fig (Some (0, 0)%nat) m (S m))
    as HAtop.
  { cbn. fold m. unfold mpl.update.
    repeat match goal with
           | |- context [Nat.eqb ?a ?b] => destruct (Nat.eqb_spec a b); try lia
           end.
    reflexivity. }
  assert (axes_of sA (S (S m))
          = mpl.new_axes fig (Some (1, 1)%nat) (S (S m)) m) as HAright.
  { cbn. fold m. unfold mpl.update.
    repeat match goal with
           | |- context [Nat.eqb ?a ?b] => destruct (Nat.eqb_spec a b); try lia
           end.
    reflexivity. }
  assert (forall a, (a < m)%nat -> axes_of sA a = axes_of st a) as HAold.
  { intros a Ha. cbn. fold m. unfold mpl.update.
    repeat match goal with
           | |- context [Nat.eqb ?a ?b] => destruct (Nat.eqb_spec a b); try lia
           end.
    reflexivity. }
  clearbody sA. clear s0 s1 s2.
  cbv beta in H. cbn [np.values] in H. rewrite !mbind_lift in H.
  pose proof H as H0.
  (* the points *)
  apply mbind_ok in H as ([] & s3 & H3 & H). cbv beta in H.
  pose proof H as R3.
  (* the top histogram *)
  apply mbind_ok in H as ([px ex] & s & Hnx & H).
  apply lift_ok in Hnx as [Hnx ->]. cbv beta iota in H.
  apply mbind_ok in H as (x1 & s & Hx1 & H). apply lift_ok in Hx1 as [Hx1 ->].
  apply mbind_ok in H as (x0 & s & Hx0 & H). apply lift_ok in Hx0 as [Hx0 ->].
  apply mbind_ok in H as ([] & s7 & H7 & H). cbv beta in H.
  pose proof H as R7.
  (* the right histogram *)
  apply mbind_ok in H as ([py ey] & s & Hny & H).
  apply lift_ok in Hny as [Hny ->]. cbv beta iota in H.
  apply mbind_ok in H as (y1 & s & Hy1 & H). apply lift_ok in Hy1 as [Hy1 ->].
  apply mbind_ok in H as (y0 & s & Hy0 & H). apply lift_ok in Hy0 as [Hy0 ->].
  apply mbind_ok in H as ([] & s11 & H11 & H). cbv beta in H.
  pose proof H as R11.
  (* styling *)
  apply mbind_ok in H as ([] & s12 & H12 & H).
  apply mbind_ok in H as ([] & s13 & H13 & H).
  apply mbind_ok in H as ([] & s14 & H14 & H). cbv beta in H.
  pose proof H as R14.
  apply mbind_ok in H as ([] & s15 & H15 & H).
  apply mbind_ok in H as ([] & s16 & H16 & H).
  apply mbind_ok in H as ([] & s17 & H17 & H). cbv beta in H.
  pose proof H as R17.
  apply mbind_ok in H as ([] & s18 & H18 & H).
  apply mbind_ok in H as ([] & s19 & H19 & H).
  apply mbind_ok in H as ([] & s20 & H20 & H).
  apply mbind_ok in H as ([] & s21 & H21 & H).
  apply mbind_ok in H as ([] & s22 & H22 & H).
  apply mbind_ok in H as ([] & s23 & H23 & H).
  apply mbind_ok in H as ([] & s24 & H24 & H).
  injection H as <- <-.
  apply index_ok in Hx0, Hx1, Hy0, Hy1.
  split; [reflexivity|].
  (* shared limits *)
  split; [|split].
  { kept (fun s => x_axis (axes_of s (S m))) H0.
    kept (fun s => x_axis (axes_of s m)) H0.
    unfold mpl.get_xlim. rewrite K, K0, HAtop, HAmain. reflexivity. }
  { kept (fun s => y_axis (axes_of s (S (S m)))) H0.
    kept (fun s => y_axis (axes_of s m)) H0.
    unfold mpl.get_ylim. rewrite K, K0, HAright, HAmain. reflexivity. }
  split; [|split; [|split; [|split]]].
  - exists xs, ys, px, ex, py, ey, x0, x1, y0, y1.
    repeat (split; [assumption || reflexivity|]).
    split; [|split].
    + kept (fun s => artists (axes_of s m)) R3.
      apply scatter_ok, add_artist_effect in H3.
      rewrite K, H3, HAmain. reflexivity.
    + kept (fun s => artists (axes_of s (S m))) R7.
      kept (fun s => artists (axes_of s (S m))) H3.
      apply bar_ok, add_artist_effect in H7.
      rewrite K, H7, K0, HAtop. reflexivity.
    + kept (fun s => artists (axes_of s (S (S m)))) R11.
      kept (fun s => artists (axes_of s (S (S m)))) H7.
      kept (fun s => artists (axes_of s (S (S m)))) H3.
      apply bar_ok, add_artist_effect in H11.
      rewrite K, H11, K0, K1, HAright. reflexivity.
  - intro name. pose (g := fun a : Axes => visible (spines a name)).
    split.
    + kept (fun s => g (axes_of s (S m))) R14. unfold g in K.
      rewrite K. exact (hide_all_spines_effect _ _ _ _ name H14).
    + kept (fun s => g (axes_of s (S (S m)))) R17. unfold g in K.
      rewrite K. exact (hide_all_spines_effect _ _ _ _ name H17).
  - kept (fun s => title (axes_of s m)) H0. now rewrite K, HAmain.
  - destruct (truthy title_) eqn:Ht.
    + cbn [when] in H24. apply set_title_effect in H24. rewrite H24.
      symmetry. now apply truthy_some.
    + clear H24. cbn [when] in H0.
      kept (fun s => title (axes_of s (S m))) H0. now rewrite K, HAtop.
  - intros a Ha. pose (g := fun a : Axes => a).
    kept (fun s => g (axes_of s a)) H0. unfold g in K.
    rewrite K. now apply HAold.
Qed.

End Marginals.

Lemma scatter_marginals_layout_witness :
  let r := scatter sturges_selectors flat_asarray
             (PyArray (NumArray [fin 1; fin 2; fin 3]))
             (PyArray (NumArray [fin 4; fin 0; fin 2]))
             true (Some "t") None None None styles.TUFTE_COLORS_primary
             styles.MARKER_STYLES_alpha styles.MARKER_STYLES_size None
             mpl.empty in
  fst r = Ok (FigAxesDict 0 [("main", 0%nat); ("top", 1%nat); ("right", 2%nat)])
  /\ title (axes_of (snd r) 1) = Some "t"
  /\ title (axes_of (snd r) 0) = None.
Proof.
  set (r := scatter _ _ _ _ _ _ _ _ _ _ _ _ _ _). cbv zeta.
  assert (fst r = Ok (FigAxesDict 0 [("main", 0%nat); ("top", 1%nat);
                                     ("right", 2%nat)])) as Hr
      by (vm_compute; reflexivity).
  split; [exact Hr|].
  destruct (scatter_marginals_layout sturges_selectors flat_asarray
              (PyArray (NumArray [fin 1; fin 2; fin 3]))
              (PyArray (NumArray [fin 4; fin 0; fin 2]))
              (Some "t") None None None styles.TUFTE_COLORS_primary
              styles.MARKER_STYLES_alpha styles.MARKER_STYLES_size None
              mpl.empty (snd r)
              (FigAxesDict 0 [("main", 0%nat); ("top", 1%nat); ("right", 2%nat)]))
    as (_ & _ & _ & _ & _ & Hmain & Htop & _).
  - rewrite <- Hr. apply surjective_pairing.
  - split; [exact Htop | exact Hmain].
Defined.
